(** * Shallow embedding of the SMC signal pipeline of [signal_scanner]

    Sources: [src/python/signal_scanner/types.py],
    [src/python/signal_scanner/strategies/base.py] and
    [src/python/signal_scanner/strategies/smc.py].

    Modelling choices:
    - Python floats are modelled as rationals [Q] (no NaN, no infinities
      except the two seeds of [classify_swing_points], which get their own
      extended type); Python [int] is [Z].
    - Python exceptions are the error side of [res]; a list index out of
      range is [IndexError], a float division by zero [ZeroDivisionError].
    - The human-readable reasoning strings are kept as values of [Msg], one
      constructor per format string of the source, carrying the formatted
      values (the rendering of a [Msg] to text is a pure function of it).
    - The wall clock ([time.time]) and [uuid.uuid4] are read from a [World]
      through a small state monad in the part that models [SMCStrategy]. *)

From Stdlib Require Import ZArith QArith Qabs Qround List String Bool Lia Lqa.
From Stdlib Require Import Sorting.Sorted.
Import ListNotations.

Open Scope Z_scope.

(* ------------------------------------------------------------------ *)
(** ** Python runtime helpers *)

Module Py.

Inductive exn : Type :=
| IndexError
| ZeroDivisionError
| ValueError
| AssertionError.

(** Result of a Python computation that may raise. *)
Inductive res (A : Type) : Type :=
| Ok (a : A)
| Err (e : exn).
Arguments Ok {A} a.
Arguments Err {A} e.

Definition bind {A B} (c : res A) (k : A -> res B) : res B :=
  match c with Ok a => k a | Err e => Err e end.

Notation "'let*' x ':=' c 'in' k" := (bind c (fun x => k))
  (at level 200, x name, c at level 100, k at level 200).

Fixpoint fold_m {A B} (f : B -> A -> res B) (l : list A) (b : B) : res B :=
  match l with
  | [] => Ok b
  | a :: t => let* b' := f b a in fold_m f t b'
  end.

(** [l[i]] with Python's negative indices. *)
Definition index {A} (l : list A) (i : Z) : res A :=
  let n := Z.of_nat (List.length l) in
  let k := if i <? 0 then i + n else i in
  if (k <? 0) || (n <=? k) then Err IndexError
  else match nth_error l (Z.to_nat k) with
       | Some a => Ok a
       | None => Err IndexError
       end.

(** [l[-n:]] for [n >= 0]: Python slicing clamps at the start of the list. *)
Definition last_n {A} (l : list A) (n : nat) : list A :=
  skipn (List.length l - n) l.

(** [range(a, b)] *)
Definition range (a b : Z) : list Z :=
  map (fun k => a + Z.of_nat k) (seq 0 (Z.to_nat (b - a))).

(** Float comparisons. *)
Definition qlt (x y : Q) : bool := negb (Qle_bool y x).
Definition qle (x y : Q) : bool := Qle_bool x y.
Definition qeq (x y : Q) : bool := Qeq_bool x y.

(** [min(a, b)] and [max(a, b)] return the first argument on ties. *)
Definition min (a b : Q) : Q := if qlt b a then b else a.
Definition max (a b : Q) : Q := if qlt a b then b else a.

(** [min(xs)] / [max(xs)] of a non-empty iterable (the first extreme element). *)
Definition min_list (x : Q) (xs : list Q) : Q := fold_left min xs x.
Definition max_list (x : Q) (xs : list Q) : Q := fold_left max xs x.

(** [min(f(x) for x in xs)] / [max(...)]: [ValueError] on an empty iterable. *)
Definition min_map {A} (f : A -> Q) (xs : list A) : res Q :=
  match xs with [] => Err ValueError | x :: t => Ok (min_list (f x) (map f t)) end.
Definition max_map {A} (f : A -> Q) (xs : list A) : res Q :=
  match xs with [] => Err ValueError | x :: t => Ok (max_list (f x) (map f t)) end.

(** [int(x)]: truncation towards zero. *)
Definition trunc (x : Q) : Z :=
  if qle 0 x then Qfloor x else - Qfloor (- x).

(** [round(x)] on a float: round half to even. *)
Definition round (x : Q) : Z :=
  let f := Qfloor x in
  let d := (x - inject_Z f)%Q in
  if qlt d (1#2) then f
  else if qlt (1#2) d then f + 1
  else if Z.even f then f else f + 1.

(** [sum(1 for x in xs if p(x))] *)
Definition count {A} (p : A -> bool) (xs : list A) : nat := List.length (filter p xs).

End Py.

Import Py.

(* ------------------------------------------------------------------ *)
(** ** Data model ([types.py]) *)

Inductive SignalDirection := BUY | SELL.
Inductive TrendDirection := BULLISH | BEARISH | SIDEWAYS.
Inductive ZoneType := DEMAND | SUPPLY.
Inductive EntryType := ZONE_TOUCH | CHOCH | LIQUIDITY_SWEEP | FVG.
Inductive SwingType := HH | HL | LH | LL.
(** [Literal["strong", "moderate", "weak"]] *)
Inductive Strength := strong | moderate | weak.
(** [Timeframe = Literal["1D", "4H", ...]] *)
Inductive Timeframe := TF_1D | TF_4H | TF_2H | TF_1H | TF_30M | TF_15M | TF_5M | TF_3M | TF_1M.

Definition SwingType_eqb (a b : SwingType) : bool :=
  match a, b with
  | HH, HH | HL, HL | LH, LH | LL, LL => true
  | _, _ => false
  end.

Definition ZoneType_eqb (a b : ZoneType) : bool :=
  match a, b with DEMAND, DEMAND | SUPPLY, SUPPLY => true | _, _ => false end.

Record Candle := mkCandle {
  timestamp : Z;
  open : Q;
  high : Q;
  low : Q;
  close : Q;
  volume : Q
}.

Definition is_bullish (c : Candle) : bool := qlt (open c) (close c).
Definition is_bearish (c : Candle) : bool := qlt (close c) (open c).
Definition body_size (c : Candle) : Q := Qabs (close c - open c).
Definition total_range (c : Candle) : Q := (high c - low c)%Q.
Definition upper_wick (c : Candle) : Q := (high c - Py.max (open c) (close c))%Q.
Definition lower_wick (c : Candle) : Q := (Py.min (open c) (close c) - low c)%Q.
Definition body_ratio (c : Candle) : Q :=
  if qeq (total_range c) 0 then 0%Q else (body_size c / total_range c)%Q.

Record Zone := mkZone {
  top_price : Q;
  bottom_price : Q;
  type : ZoneType;
  strength : Strength;
  origin_candle_index : Z;
  touches : Z;
  mitigated : bool;
  created_at : Z
}.

(** The dataclass constructor with its defaults
    ([strength="moderate", origin_candle_index=0, touches=0,
      mitigated=False, created_at=0]) for the fields not passed. *)
Definition Zone_new (top bottom : Q) (t : ZoneType) (s : Strength) (origin : Z)
  : Zone := mkZone top bottom t s origin 0 false 0.

Definition set_mitigated (z : Zone) (b : bool) : Zone :=
  mkZone (top_price z) (bottom_price z) (type z) (strength z)
         (origin_candle_index z) (touches z) b (created_at z).

Definition mid_price (z : Zone) : Q := ((top_price z + bottom_price z) / 2)%Q.
Definition zone_size (z : Zone) : Q := (top_price z - bottom_price z)%Q.
Definition price_in_zone (z : Zone) (p : Q) : bool :=
  qle (bottom_price z) p && qle p (top_price z).
Definition overlaps_with (z other : Zone) : bool :=
  negb (qlt (top_price z) (bottom_price other) || qlt (top_price other) (bottom_price z)).

Definition get_age_hours (z : Zone) (current_timestamp : Z) : Q :=
  if created_at z =? 0 then 0%Q
  else (inject_Z (current_timestamp - created_at z) / inject_Z (1000 * 60 * 60))%Q.

Definition freshness_score (z : Zone) (current_timestamp : Z) (max_age_hours : Q) : Q :=
  let age := get_age_hours z current_timestamp in
  if qle max_age_hours age then 0%Q else (1 - age / max_age_hours)%Q.

Record SwingPoint := mkSwingPoint {
  price : Q;
  index : Z;
  is_high : bool;
  sp_timestamp : Z;
  swing_type : option SwingType;
  swing_size : Q
}.

(** The reasoning and confirmation strings, one constructor per format
    string of [smc.py]; the arguments are the interpolated values. *)
Inductive Msg : Type :=
(* analyze_clarity *)
| M_InsufficientCandleData                 (* "Insufficient candle data" *)
| M_TrendConsistency (q : Q)               (* f"Trend consistency: {q * 100:.0f}%" *)
| M_SwingQuality (q : Q)                   (* f"Swing quality: {q * 100:.0f}%" *)
| M_ZoneClarity (q : Q) (n : nat)          (* f"Zone clarity: ... ({n} unmitigated zones)" *)
| M_StructureClarity (q : Q)               (* f"Structure clarity: {q * 100:.0f}%" *)
(* detect_zones / detect_entry *)
| M_InsufficientCandles                    (* "Insufficient candles" *)
| M_FoundZones (n : nat)                   (* f"Found {n} total zones" *)
| M_Unmitigated (s d : nat)                (* f"Unmitigated: {s} supply, {d} demand" *)
| M_TradableZones (n : nat)                (* f"Tradable zones: {n}" *)
(* refine_zone *)
| M_NoRefinementCandles                    (* "No refinement candles available" *)
| M_NotEnoughLTF                           (* "Not enough LTF candles in zone for refinement" *)
| M_NoSignificantReduction                 (* "Refinement did not significantly reduce zone size" *)
| M_RefinedBy (q : Q)                      (* f"Refined zone by {q*100:.0f}%" *)
| M_Original (b t : Q)                     (* f"Original: {b:.5f} - {t:.5f}" *)
| M_Refined (b t : Q)                      (* f"Refined: {b:.5f} - {t:.5f}" *)
(* detect_entry *)
| M_PriceNotAtZone                         (* "Price not at zone" *)
| M_ConfidenceTooLow (c : Z)               (* f"Confidence {c}% too low, need 60%" *)
| M_RRTooLow (r : Q)                       (* f"R:R {r:.2f} too low, need 1.5" *)
| M_EntryDetected (e : EntryType)          (* f"Entry detected: {e.value}" *)
| M_ConfidenceRR (c : Z) (r : Q)           (* f"Confidence: {c}%, R:R: 1:{r:.1f}" *)
| M_PriceAtZone (t : ZoneType)             (* f"Price at {t.value} zone" *)
| M_StrongBullishMomentum                  (* "Strong bullish momentum candle" *)
| M_ClosedAboveHigh                        (* "Closed above previous high" *)
| M_BullishRejection                       (* "Bullish rejection wick" *)
| M_SweepRecovery                          (* "Liquidity sweep followed by recovery" *)
| M_StrongBearishMomentum                  (* "Strong bearish momentum candle" *)
| M_ClosedBelowLow                         (* "Closed below previous low" *)
| M_BearishRejection                       (* "Bearish rejection wick" *)
| M_SweepDrop                              (* "Liquidity sweep followed by drop" *)
(* SMCStrategy._build_signal *)
| M_Context (t : TrendDirection) (c : Z)   (* f"1D Context: trend {t} (clarity: {c:.0f}%)" *)
| M_MajorZones (tf : Timeframe) (c : Z)    (* f"Major Zones: {tf} (clarity: {c:.0f}%)" *)
| M_ZoneID (tf : Timeframe) (c : Z)        (* f"Zone ID: {tf} (clarity: {c:.0f}%)" *)
| M_EntryTF (tf : Timeframe) (c : Z)       (* f"Entry: {tf} (clarity: {c:.0f}%)" *)
| M_Exception (e : exn).                   (* str(e) *)

Record EntrySetup := mkEntrySetup {
  direction : SignalDirection;
  entry_type : EntryType;
  entry_price : Q;
  stop_loss : Q;
  take_profit : Q;
  risk_reward_ratio : Q;
  confidence : Z;
  entry_zone : Zone;
  confirmations : list Msg
}.

Definition risk_pips (s : EntrySetup) : Q := Qabs (entry_price s - stop_loss s).
Definition reward_pips (s : EntrySetup) : Q := Qabs (take_profit s - entry_price s).

Record ClarityResult := mkClarityResult {
  score : Z;
  is_clear : bool;
  trend_consistency : Q;
  zone_clarity : Q;
  structure_clarity : Q;
  cr_reasoning : list Msg
}.

Record ZoneResult := mkZoneResult {
  tradable_zones : list Zone;
  unmitigated_supply : list Zone;
  unmitigated_demand : list Zone;
  all_zones : list Zone;
  zr_reasoning : list Msg
}.

Record RefinementResult := mkRefinementResult {
  refined_zone : option Zone;
  original_zone : Zone;
  was_refined : bool;
  rr_reasoning : list Msg
}.

Record EntryResult := mkEntryResult {
  has_valid_entry : bool;
  setup : option EntrySetup;
  er_reasoning : list Msg
}.

(** [SMCClarityConfig] *)
Record SMCClarityConfig := mkSMCClarityConfig {
  min_clarity_score : Z;
  min_zones_required : Z;
  max_zones_for_clarity : Z;
  min_swing_points_required : Z;
  min_trend_consistency : Q;
  min_candles : Z;
  swing_lookback : Z;
  zone_max_age_hours : Q;
  use_recency_weighting : bool;
  use_swing_size_weighting : bool;
  filter_overlapping_zones_cfg : bool;
  min_rr_ratio : Q;
  min_entry_confidence : Z
}.

Definition DEFAULT_SMC_CONFIG : SMCClarityConfig :=
  mkSMCClarityConfig 60 1 5 4 (6#10) 20 5 168 true true true (3#2) 60.

Definition zlen {A} (l : list A) : Z := Z.of_nat (List.length l).

(* ------------------------------------------------------------------ *)
(** ** Swing points ([detect_swing_points], [classify_swing_points]) *)

(** The inner [for j in range(1, lookback + 1)] loop, with the short-circuit
    of [or]: [candles[i + j]] is read only when the first comparison fails. *)
Definition swing_flags (candles : list Candle) (i lookback : Z) : res (bool * bool) :=
  fold_m (fun (st : bool * bool) j =>
    let* ci := Py.index candles i in
    let* cm := Py.index candles (i - j) in
    let* hcond := (if qle (high ci) (high cm) then Ok true
                   else let* cp := Py.index candles (i + j) in Ok (qle (high ci) (high cp))) in
    let* lcond := (if qle (low cm) (low ci) then Ok true
                   else let* cp := Py.index candles (i + j) in Ok (qle (low cp) (low ci))) in
    Ok (if hcond then false else fst st, if lcond then false else snd st))
    (Py.range 1 (lookback + 1)) (true, true).

Definition detect_swing_points (candles : list Candle) (lookback : Z) : res (list SwingPoint) :=
  if zlen candles <? lookback * 2 + 1 then Ok []
  else fold_m (fun acc i =>
         let* fl := swing_flags candles i lookback in
         let* acc1 := (if fst fl then
                         let* ci := Py.index candles i in
                         Ok (acc ++ [mkSwingPoint (high ci) i true (timestamp ci) None 0])
                       else Ok acc) in
         if snd fl then
           let* ci := Py.index candles i in
           Ok (acc1 ++ [mkSwingPoint (low ci) i false (timestamp ci) None 0])
         else Ok acc1)
       (Py.range lookback (zlen candles - lookback)) [].

(** Floats with the two infinities used as seeds. *)
Inductive ExtQ := NegInf | Fin (q : Q) | PosInf.

(** [q > e] and [q < e] *)
Definition gt_ext (q : Q) (e : ExtQ) : bool :=
  match e with NegInf => true | Fin r => qlt r q | PosInf => false end.
Definition lt_ext (q : Q) (e : ExtQ) : bool :=
  match e with NegInf => false | Fin r => qlt q r | PosInf => true end.

(** The running trackers of [classify_swing_points]. *)
Record ClassifyState := mkClassifyState {
  last_higher_high : ExtQ;
  last_lower_low : ExtQ;
  last_higher_low : ExtQ;
  last_lower_high : ExtQ;
  prev_high_price : option Q;
  prev_low_price : option Q
}.

Definition classify_init : ClassifyState :=
  mkClassifyState NegInf PosInf NegInf PosInf None None.

Definition classify_step (st : ClassifyState) (sp : SwingPoint) : ClassifyState * SwingPoint :=
  let p := price sp in
  if is_high sp then
    let size := match prev_high_price st with Some q => Qabs (p - q) | None => 0%Q end in
    let '(st', t) :=
      if gt_ext p (last_higher_high st) then
        (mkClassifyState (Fin p) (last_lower_low st) (last_higher_low st) (Fin p)
                         (Some p) (prev_low_price st), HH)
      else if lt_ext p (last_lower_high st) then
        (mkClassifyState (last_higher_high st) (last_lower_low st) (last_higher_low st) (Fin p)
                         (Some p) (prev_low_price st), LH)
      else
        (mkClassifyState (last_higher_high st) (last_lower_low st) (last_higher_low st)
                         (last_lower_high st) (Some p) (prev_low_price st), LH) in
    (st', mkSwingPoint p (index sp) true (sp_timestamp sp) (Some t) size)
  else
    let size := match prev_low_price st with Some q => Qabs (p - q) | None => 0%Q end in
    let '(st', t) :=
      if lt_ext p (last_lower_low st) then
        (mkClassifyState (last_higher_high st) (Fin p) (Fin p) (last_lower_high st)
                         (prev_high_price st) (Some p), LL)
      else if gt_ext p (last_higher_low st) then
        (mkClassifyState (last_higher_high st) (last_lower_low st) (Fin p) (last_lower_high st)
                         (prev_high_price st) (Some p), HL)
      else
        (mkClassifyState (last_higher_high st) (last_lower_low st) (last_higher_low st)
                         (last_lower_high st) (prev_high_price st) (Some p), HL) in
    (st', mkSwingPoint p (index sp) false (sp_timestamp sp) (Some t) size).

Fixpoint classify_from (st : ClassifyState) (sps : list SwingPoint) : list SwingPoint :=
  match sps with
  | [] => []
  | sp :: t => let '(st', sp') := classify_step st sp in sp' :: classify_from st' t
  end.

Definition classify_swing_points (swing_points : list SwingPoint) : list SwingPoint :=
  match swing_points with
  | [] => swing_points
  | _ => classify_from classify_init swing_points
  end.

(* ------------------------------------------------------------------ *)
(** ** Trend and clarity components *)

Definition has_type (t : SwingType) (s : SwingPoint) : bool :=
  match swing_type s with Some t' => SwingType_eqb t' t | None => false end.

Definition determine_trend (candles : list Candle) (swing_points : list SwingPoint)
  : TrendDirection :=
  if (List.length swing_points <? 4)%nat then SIDEWAYS
  else
    let recent := last_n swing_points 6 in
    let hh_count := count (has_type HH) recent in
    let hl_count := count (has_type HL) recent in
    let lh_count := count (has_type LH) recent in
    let ll_count := count (has_type LL) recent in
    if (1 <=? hh_count)%nat && (1 <=? hl_count)%nat
       && (lh_count + ll_count <? hh_count + hl_count)%nat then BULLISH
    else if (1 <=? ll_count)%nat && (1 <=? lh_count)%nat
       && (hh_count + hl_count <? ll_count + lh_count)%nat then BEARISH
    else SIDEWAYS.

Definition is_bull_type (s : SwingPoint) : bool := has_type HH s || has_type HL s.
Definition is_bear_type (s : SwingPoint) : bool := has_type LL s || has_type LH s.

Definition calculate_weighted_trend_consistency (swing_points : list SwingPoint)
  (trend : TrendDirection) (use_recency use_size_weight : bool) : Q :=
  if (List.length swing_points <? 4)%nat then 0%Q
  else
    let recent_swings := last_n swing_points 8 in
    let n := inject_Z (zlen recent_swings) in
    let sizes := map swing_size recent_swings in
    (* max(..., default=1.0) or 1.0 *)
    let m := match sizes with [] => 1%Q | s0 :: rest => Py.max_list s0 rest end in
    let max_swing_size := if qeq m 0 then 1%Q else m in
    let '(_, weighted_score, total_weight) :=
      fold_left (fun (acc : Z * Q * Q) swing =>
        let '(i, ws, tw) := acc in
        let recency_weight := if use_recency then (inject_Z (i + 1) / n)%Q else 1%Q in
        let size_weight := if use_size_weight && qlt 0 (swing_size swing)
                           then (swing_size swing / max_swing_size)%Q else 1%Q in
        let combined_weight := (recency_weight * ((1#2) + (1#2) * size_weight))%Q in
        let aligned := match trend with
                       | BULLISH => is_bull_type swing
                       | BEARISH => is_bear_type swing
                       | SIDEWAYS => true
                       end in
        (i + 1, (ws + (if aligned then combined_weight else 0))%Q, (tw + combined_weight)%Q))
        recent_swings (0, 0%Q, 0%Q) in
    if qlt 0 total_weight then (weighted_score / total_weight)%Q else 0%Q.

(** [calculate_trend_consistency]: the unweighted share of trend-aligned
    swings among the last eight. *)
Definition calculate_trend_consistency (swing_points : list SwingPoint) (trend : TrendDirection)
  : Q :=
  if (List.length swing_points <? 4)%nat then 0%Q
  else
    let recent_swings := last_n swing_points 8 in
    let n := inject_Z (zlen recent_swings) in
    match trend with
    | BULLISH => (inject_Z (Z.of_nat (count is_bull_type recent_swings)) / n)%Q
    | BEARISH => (inject_Z (Z.of_nat (count is_bear_type recent_swings)) / n)%Q
    | SIDEWAYS =>
        let hh_hl := count is_bull_type recent_swings in
        let ll_lh := count is_bear_type recent_swings in
        let balance := (inject_Z (Z.abs (Z.of_nat hh_hl - Z.of_nat ll_lh)) / n)%Q in
        (1 - balance)%Q
    end.

(** [calculate_swing_quality_score]; the unused [avg_size] is left out
    (it cannot raise: [swing_sizes] is non-empty there). *)
Definition calculate_swing_quality_score (swing_points : list SwingPoint) : Q :=
  if (List.length swing_points <? 2)%nat then 0%Q
  else
    let recent_swings := last_n swing_points 10 in
    let swing_sizes := filter (fun q => qlt 0 q) (map swing_size recent_swings) in
    match swing_sizes with
    | [] => (1#2)%Q
    | s0 :: rest =>
        let max_size := Py.max_list s0 rest in
        let consistency := if qlt 0 max_size
                           then (1 - (Py.max_list s0 rest - Py.min_list s0 rest) / max_size)%Q
                           else (1#2)%Q in
        Py.min 1 ((1#2) + (1#2) * consistency)
    end.

Definition strength_eqb (a b : Strength) : bool :=
  match a, b with strong, strong | moderate, moderate | weak, weak => true | _, _ => false end.

Definition calculate_zone_clarity (zones : list Zone) (max_zones : Z) : Q :=
  if (List.length zones =? 0)%nat then 0%Q
  else if max_zones <? zlen zones then (3#10)%Q
  else
    let strong_zones := count (fun z => strength_eqb (strength z) strong) zones in
    let moderate_zones := count (fun z => strength_eqb (strength z) moderate) zones in
    let quality_score := ((inject_Z (Z.of_nat strong_zones) * 1
                           + inject_Z (Z.of_nat moderate_zones) * (6#10))
                          / inject_Z (zlen zones))%Q in
    let supply_zones := count (fun z => ZoneType_eqb (type z) SUPPLY) zones in
    let demand_zones := count (fun z => ZoneType_eqb (type z) DEMAND) zones in
    let balance_score := if (0 <? supply_zones)%nat && (0 <? demand_zones)%nat
                         then 1%Q else (1#2)%Q in
    Py.min 1 (quality_score * (7#10) + balance_score * (3#10)).

Definition is_high_kind (s : SwingPoint) : bool := has_type HH s || has_type LH s.

Fixpoint alternations (prev : SwingPoint) (l : list SwingPoint) : nat :=
  match l with
  | [] => 0
  | curr :: t =>
      (if Bool.eqb (is_high_kind prev) (is_high_kind curr) then 0 else 1)
      + alternations curr t
  end.

Definition calculate_structure_clarity (swing_points : list SwingPoint) (min_swings : Z) : Q :=
  if zlen swing_points <? min_swings then 0%Q
  else
    let recent_swings := last_n swing_points 10 in
    match recent_swings with
    | [] => 0%Q
    | s0 :: rest =>
        if (1 <? List.length recent_swings)%nat
        then (inject_Z (Z.of_nat (alternations s0 rest)) / inject_Z (zlen recent_swings - 1))%Q
        else 0%Q
    end.

(* ------------------------------------------------------------------ *)
(** ** Zones ([filter_overlapping_zones], [detect_zones], [refine_zone]) *)

(** [strength_order = {"strong": 3, "moderate": 2, "weak": 1}] *)
Definition strength_order (s : Strength) : Z :=
  match s with strong => 3 | moderate => 2 | weak => 1 end.

(** The sort key [(strength_order.get(z.strength, 0), -z.origin_candle_index)]. *)
Definition zone_key (z : Zone) : Z * Z := (strength_order (strength z), - origin_candle_index z).

(** Lexicographic [<] on the key tuples. *)
Definition key_lt (a b : Z * Z) : bool :=
  (fst a <? fst b) || ((fst a =? fst b) && (snd a <? snd b)).

(** [sorted(..., reverse=True)] is stable: elements with equal keys keep
    their input order.  Insertion after every element whose key is not
    smaller. *)
Fixpoint insert_desc (z : Zone) (l : list Zone) : list Zone :=
  match l with
  | [] => [z]
  | y :: t => if key_lt (zone_key y) (zone_key z) then z :: l else y :: insert_desc z t
  end.

Definition sort_zones_desc (zones : list Zone) : list Zone :=
  fold_left (fun acc z => insert_desc z acc) zones [].

(** The greedy loop over [sorted_zones]. *)
Definition keep_non_overlapping (sorted_zones : list Zone) : list Zone :=
  fold_left (fun filtered zone =>
               if existsb (fun existing => overlaps_with zone existing) filtered
               then filtered else filtered ++ [zone])
            sorted_zones [].

Definition filter_overlapping_zones (zones : list Zone) : list Zone :=
  if (List.length zones <=? 1)%nat then zones
  else keep_non_overlapping (sort_zones_desc zones).

(** The order [sorted_zones] is meant to follow: [a] before [b] when [a]
    has a higher strength rank, or the same rank and an origin index no
    larger than [b]'s. *)
Definition zone_ge (a b : Zone) : Prop :=
  strength_order (strength b) < strength_order (strength a) \/
  (strength_order (strength a) = strength_order (strength b) /\
   origin_candle_index a <= origin_candle_index b).

(** Two zones whose ranges do not intersect. *)
Definition no_overlap (a b : Zone) : Prop := overlaps_with a b = false.

(** Forward mitigation scan from [i + 1]. *)
Definition demand_mitigated (candles : list Candle) (i : Z) (bottom : Q) : bool :=
  existsb (fun c => qlt (low c) bottom) (skipn (Z.to_nat (i + 1)) candles).
Definition supply_mitigated (candles : list Candle) (i : Z) (top : Q) : bool :=
  existsb (fun c => qlt top (high c)) (skipn (Z.to_nat (i + 1)) candles).

(** One iteration of [for i in range(2, len(candles) - 1)]. *)
Definition zone_at (candles : list Candle) (zones : list Zone) (i : Z) : res (list Zone) :=
  let* candle := Py.index candles i in
  let* prev_candle := Py.index candles (i - 1) in
  if qlt (body_ratio candle) (6#10) then Ok zones
  else if negb (qlt (body_size prev_candle * (3#2)) (body_size candle)) then Ok zones
  else
    let st := if qlt (7#10) (body_ratio candle) then strong else moderate in
    if is_bullish candle then
      let* low2 := (if 2 <=? i then let* c2 := Py.index candles (i - 2) in Ok (low c2)
                    else Ok (low prev_candle)) in
      let bottom := Py.min (low prev_candle) low2 in
      let m := demand_mitigated candles i bottom in
      Ok (zones ++ [mkZone (high prev_candle) bottom DEMAND st (i - 1) 0 m (timestamp prev_candle)])
    else if is_bearish candle then
      let* high2 := (if 2 <=? i then let* c2 := Py.index candles (i - 2) in Ok (high c2)
                     else Ok (high prev_candle)) in
      let top := Py.max (high prev_candle) high2 in
      let m := supply_mitigated candles i top in
      Ok (zones ++ [mkZone top (low prev_candle) SUPPLY st (i - 1) 0 m (timestamp prev_candle)])
    else Ok zones.

Definition is_tradable (control : string) (current_price : Q) (current_timestamp : Z)
  (zone : Zone) : bool :=
  if mitigated zone then false
  else
    let freshness := if 0 <? current_timestamp
                     then freshness_score zone current_timestamp 168 else 1%Q in
    if qlt freshness (1#10) then false
    else
      match type zone with
      | DEMAND =>
          (String.eqb control "buyers" || String.eqb control "neutral")
          && qlt (Qabs (current_price - mid_price zone)) (zone_size zone * 3)
      | SUPPLY =>
          (String.eqb control "sellers" || String.eqb control "neutral")
          && qlt (Qabs (current_price - mid_price zone)) (zone_size zone * 3)
      end.

Definition detect_zones (candles : list Candle) (control : string) (current_price : Q)
  (filter_overlaps : bool) : res ZoneResult :=
  if zlen candles <? 10 then Ok (mkZoneResult [] [] [] [] [M_InsufficientCandles])
  else
    let* lastc := Py.index candles (-1) in
    let current_timestamp := timestamp lastc in
    let* zones0 := fold_m (zone_at candles) (Py.range 2 (zlen candles - 1)) [] in
    let zones := if filter_overlaps then filter_overlapping_zones zones0 else zones0 in
    let us := filter (fun z => ZoneType_eqb (type z) SUPPLY && negb (mitigated z)) zones in
    let ud := filter (fun z => ZoneType_eqb (type z) DEMAND && negb (mitigated z)) zones in
    let tradable := filter (is_tradable control current_price current_timestamp) zones in
    Ok (mkZoneResult tradable us ud zones
          [M_FoundZones (List.length zones);
           M_Unmitigated (List.length us) (List.length ud);
           M_TradableZones (List.length tradable)]).

Definition refine_zone (major_zone : Zone) (zone_candles refinement_candles : list Candle)
  : res RefinementResult :=
  match refinement_candles with
  | [] => Ok (mkRefinementResult None major_zone false [M_NoRefinementCandles])
  | _ =>
    let b := bottom_price major_zone in
    let t := top_price major_zone in
    let zone_candles_ltf :=
      filter (fun c => (qle b (close c) && qle (close c) t) || (qle b (open c) && qle (open c) t))
             refinement_candles in
    if (List.length zone_candles_ltf <? 3)%nat
    then Ok (mkRefinementResult None major_zone false [M_NotEnoughLTF])
    else
      let* bounds := (match type major_zone with
                      | DEMAND =>
                          let* rb := min_map low zone_candles_ltf in
                          let* rt := min_map high (last_n zone_candles_ltf 3) in
                          Ok (rt, rb)
                      | SUPPLY =>
                          let* rt := max_map high zone_candles_ltf in
                          let* rb := max_map low (last_n zone_candles_ltf 3) in
                          Ok (rt, rb)
                      end) in
      let '(rt0, rb0) := bounds in
      let '(refined_top, refined_bottom) := if qle rt0 rb0 then (rb0, rt0) else (rt0, rb0) in
      if qeq (zone_size major_zone) 0 then Err ZeroDivisionError
      else
        let zone_reduction := (1 - (refined_top - refined_bottom) / zone_size major_zone)%Q in
        if qlt zone_reduction (1#10)
        then Ok (mkRefinementResult None major_zone false [M_NoSignificantReduction])
        else
          let refined := Zone_new refined_top refined_bottom (type major_zone)
                           (strength major_zone) (origin_candle_index major_zone) in
          Ok (mkRefinementResult (Some refined) major_zone true
                [M_RefinedBy zone_reduction; M_Original b t;
                 M_Refined refined_bottom refined_top])
  end.

(* ------------------------------------------------------------------ *)
(** ** Clarity of one timeframe ([analyze_clarity]) *)

Definition analyze_clarity (candles : list Candle) (timeframe : Timeframe)
  (cfg : SMCClarityConfig) : res ClarityResult :=
  if zlen candles <? min_candles cfg
  then Ok (mkClarityResult 0 false 0 0 0 [M_InsufficientCandleData])
  else
    let* swing_points := detect_swing_points candles (swing_lookback cfg) in
    let classified_swings := classify_swing_points swing_points in
    let trend := determine_trend candles classified_swings in
    let tc := calculate_weighted_trend_consistency classified_swings trend
                (use_recency_weighting cfg) (use_swing_size_weighting cfg) in
    let swing_quality := calculate_swing_quality_score classified_swings in
    let* lastc := Py.index candles (-1) in
    let* zones := detect_zones candles "neutral" (close lastc) (filter_overlapping_zones_cfg cfg) in
    let unmitigated := filter (fun z => negb (mitigated z)) (all_zones zones) in
    let zc := calculate_zone_clarity unmitigated (max_zones_for_clarity cfg) in
    let sc := calculate_structure_clarity classified_swings (min_swing_points_required cfg) in
    let sc_score := Py.round (tc * 30 + zc * 30 + sc * 25 + swing_quality * 15) in
    let clear := (min_clarity_score cfg <=? sc_score)
                 && (min_swing_points_required cfg <=? zlen classified_swings)
                 && (min_zones_required cfg <=? zlen unmitigated) in
    Ok (mkClarityResult sc_score clear tc zc sc
          [M_TrendConsistency tc; M_SwingQuality swing_quality;
           M_ZoneClarity zc (List.length unmitigated); M_StructureClarity sc]).

(* ------------------------------------------------------------------ *)
(** ** Entry detection ([detect_entry]) *)

(** One confirmation test: append the reason, add the points, and
    optionally switch the entry type. *)
Definition confirm (cond : bool) (m : Msg) (pts : Z) (et : option EntryType)
  (acc : list Msg * Z * EntryType) : list Msg * Z * EntryType :=
  let '(cs, c, e) := acc in
  if cond then (cs ++ [m], c + pts, match et with Some e' => e' | None => e end) else acc.

Definition buy_confirmations (last_candle prev_candle : Candle) (acc : list Msg * Z * EntryType)
  : list Msg * Z * EntryType :=
  let acc := confirm (is_bullish last_candle && qle (1#2) (body_ratio last_candle))
               M_StrongBullishMomentum 10 None acc in
  let acc := confirm (qlt (high prev_candle) (close last_candle))
               M_ClosedAboveHigh 10 (Some CHOCH) acc in
  let acc := confirm (qlt (body_size last_candle) (lower_wick last_candle))
               M_BullishRejection 5 None acc in
  confirm (qlt (low last_candle) (low prev_candle) && qlt (close prev_candle) (close last_candle))
    M_SweepRecovery 15 (Some LIQUIDITY_SWEEP) acc.

Definition sell_confirmations (last_candle prev_candle : Candle) (acc : list Msg * Z * EntryType)
  : list Msg * Z * EntryType :=
  let acc := confirm (is_bearish last_candle && qle (1#2) (body_ratio last_candle))
               M_StrongBearishMomentum 10 None acc in
  let acc := confirm (qlt (close last_candle) (low prev_candle))
               M_ClosedBelowLow 10 (Some CHOCH) acc in
  let acc := confirm (qlt (body_size last_candle) (upper_wick last_candle))
               M_BearishRejection 5 None acc in
  confirm (qlt (high prev_candle) (high last_candle) && qlt (close last_candle) (close prev_candle))
    M_SweepDrop 15 (Some LIQUIDITY_SWEEP) acc.

(** [stop_loss] of [detect_entry]. *)
Definition entry_stop_loss (zone : Zone) (direction : SignalDirection) : Q :=
  match direction with
  | BUY => (bottom_price zone - zone_size zone * (1#2))%Q
  | SELL => (top_price zone + zone_size zone * (1#2))%Q
  end.

(** [take_profit] of [detect_entry]; [target_price and ...] uses Python
    truthiness, so a target of [0.0] counts as absent. *)
Definition entry_take_profit (direction : SignalDirection) (entry_price stop_loss : Q)
  (target_price : option Q) (all_zones : list Zone) : Q :=
  match direction with
  | BUY =>
      let use_target := match target_price with
                        | Some t => negb (qeq t 0) && qlt entry_price t
                        | None => false
                        end in
      match target_price, use_target with
      | Some t, true => t
      | _, _ =>
          let nearest_supply :=
            filter (fun z => ZoneType_eqb (type z) SUPPLY && qlt entry_price (bottom_price z))
                   all_zones in
          match nearest_supply with
          | z0 :: rest => Py.min_list (bottom_price z0) (map bottom_price rest)
          | [] => let risk := (entry_price - stop_loss)%Q in (entry_price + risk * (5#2))%Q
          end
      end
  | SELL =>
      let use_target := match target_price with
                        | Some t => negb (qeq t 0) && qlt t entry_price
                        | None => false
                        end in
      match target_price, use_target with
      | Some t, true => t
      | _, _ =>
          let nearest_demand :=
            filter (fun z => ZoneType_eqb (type z) DEMAND && qlt (top_price z) entry_price)
                   all_zones in
          match nearest_demand with
          | z0 :: rest => Py.max_list (top_price z0) (map top_price rest)
          | [] => let risk := (stop_loss - entry_price)%Q in (entry_price - risk * (5#2))%Q
          end
      end
  end.

Definition detect_entry (candles : list Candle) (zone : Zone) (direction : SignalDirection)
  (target_price : option Q) (all_zones : list Zone) : res EntryResult :=
  if zlen candles <? 5 then Ok (mkEntryResult false None [M_InsufficientCandles])
  else
    let* last_candle := Py.index candles (-1) in
    let current_price := close last_candle in
    let price_at_zone := price_in_zone zone current_price in
    let price_near_zone :=
      qlt (Qabs (current_price - top_price zone)) (zone_size zone * (1#2))
      || qlt (Qabs (current_price - bottom_price zone)) (zone_size zone * (1#2)) in
    if negb (price_at_zone || price_near_zone)
    then Ok (mkEntryResult false None [M_PriceNotAtZone])
    else
      let* prev_candle := Py.index candles (-2) in
      let acc0 := if price_at_zone then ([M_PriceAtZone (type zone)], 60, ZONE_TOUCH)
                  else ([], 50, ZONE_TOUCH) in
      let '(confirmations, confidence, et) :=
        match direction with
        | BUY => buy_confirmations last_candle prev_candle acc0
        | SELL => sell_confirmations last_candle prev_candle acc0
        end in
      if confidence <? 60
      then Ok (mkEntryResult false None [M_ConfidenceTooLow confidence])
      else
        let entry_price := current_price in
        let stop_loss := entry_stop_loss zone direction in
        let take_profit := entry_take_profit direction entry_price stop_loss target_price all_zones in
        let risk := Qabs (entry_price - stop_loss) in
        let reward := Qabs (take_profit - entry_price) in
        let rr_ratio := if qlt 0 risk then (reward / risk)%Q else 0%Q in
        if qlt rr_ratio (3#2)
        then Ok (mkEntryResult false None [M_RRTooLow rr_ratio])
        else
          let s := mkEntrySetup direction et entry_price stop_loss take_profit rr_ratio
                     (Z.min confidence 95) zone confirmations in
          Ok (mkEntryResult true (Some s)
                ([M_EntryDetected et; M_ConfidenceRR confidence rr_ratio] ++ confirmations)).

(* ------------------------------------------------------------------ *)
(** ** The strategy ([SMCStrategy], [BaseStrategy]) *)

Record MultiTimeframeData := mkMultiTimeframeData {
  d1 : list Candle; h4 : list Candle; h2 : list Candle; h1 : list Candle;
  m30 : list Candle; m15 : list Candle; m5 : list Candle; m3 : list Candle;
  m1 : list Candle
}.

Record InstrumentData := mkInstrumentData {
  symbol : string;
  asset_class : string;
  current_price : Q;
  data : MultiTimeframeData
}.

Record TimeframeSelection := mkTimeframeSelection {
  daily_context_tf : Timeframe;
  major_zone_tf : Timeframe;
  zone_identification_tf : Timeframe;
  entry_refinement_tf : Timeframe;
  daily_context_clarity : Z;
  major_zone_clarity : Z;
  zone_identification_clarity : Z;
  entry_refinement_clarity : Z;
  ts_is_clear : bool;
  ts_reasoning : list Msg
}.

Record MarketContext := mkMarketContext {
  h4_trend_direction : TrendDirection;
  d1_trend_direction : TrendDirection;
  nearest_supply_target : option Q;
  nearest_demand_target : option Q;
  mc_swing_points : list SwingPoint;
  mc_unmitigated_supply : list Zone;
  mc_unmitigated_demand : list Zone;
  mc_reasoning : list Msg
}.

(** [f"{self.id}_{int(time.time())}_{uuid.uuid4().hex[:8]}"], kept as its
    three interpolated parts. *)
Record SignalId := mkSignalId { sid_strategy : string; sid_time : Z; sid_hex : string }.

Record StrategySignal := mkStrategySignal {
  sig_id : SignalId;
  sig_strategy_id : string;
  sig_strategy_name : string;
  sig_symbol : string;
  sig_asset_class : string;
  sig_direction : SignalDirection;
  sig_entry_type : EntryType;
  sig_entry_price : Q;
  sig_stop_loss : Q;
  sig_take_profit : Q;
  sig_risk_reward_ratio : Q;
  sig_confidence : Z;
  sig_timeframe : Timeframe;
  sig_market_context : MarketContext;
  sig_entry_setup : EntrySetup;
  sig_zones : list (string * list Zone);
  sig_reasoning : list Msg;
  sig_created_at : Z;
  sig_expires_at : Z
}.

Record StrategyResult := mkStrategyResult {
  strategy_id : string;
  signals : list StrategySignal;
  pending_setups : list EntrySetup;
  errors : list Msg;
  analysis_time_ms : Z
}.

Record StrategyConfig := mkStrategyConfig {
  sc_id : string;
  sc_name : string;
  sc_description : string;
  min_confidence : Z;
  max_signals_per_scan : Z;
  enabled : bool
}.

Definition SMC_CONFIG : StrategyConfig :=
  mkStrategyConfig "smc_v2" "Smart Money Concepts"
    "Multi-timeframe SMC analysis with adaptive timeframe selection" 60 3 true.

(** An [SMCStrategy] object: [BaseStrategy.__init__(SMC_CONFIG)] plus
    [self.smc_config]. *)
Record SMCStrategy := mkSMCStrategy { base_config : StrategyConfig; smc_config : SMCClarityConfig }.

(** [SMCStrategy(config)]: [config or DEFAULT_SMC_CONFIG]. *)
Definition SMCStrategy_new (config : option SMCClarityConfig) : SMCStrategy :=
  mkSMCStrategy SMC_CONFIG (match config with Some c => c | None => DEFAULT_SMC_CONFIG end).

(** *** Clock, uuid and the mutable result lists *)

(** The outside world: the successive readings of [time.time()] (seconds)
    and of [uuid.uuid4().hex]. *)
Record World := mkWorld { clock : nat -> Q; uuid_hex : nat -> string }.

(** [n_clock]/[n_uuid] count the readings so far; [st_signals] and
    [st_pending] are the lists [signals] and [pending_setups] of [analyze],
    appended to in place (and so kept when an exception is caught). *)
Record St := mkSt {
  n_clock : nat;
  n_uuid : nat;
  st_signals : list StrategySignal;
  st_pending : list EntrySetup
}.

Definition init_st : St := mkSt 0 0 [] [].

Definition M (A : Type) : Type := World -> St -> res A * St.

Definition mret {A} (a : A) : M A := fun _ s => (Ok a, s).
Definition mbind {A B} (c : M A) (k : A -> M B) : M B :=
  fun w s => match c w s with
             | (Ok a, s') => k a w s'
             | (Err e, s') => (Err e, s')
             end.

Notation "x <- c ;; k" := (mbind c (fun x => k))
  (at level 61, c at next level, right associativity).
Notation "c ;;; k" := (mbind c (fun _ => k)) (at level 61, right associativity).

Definition lift {A} (r : res A) : M A := fun _ s => (r, s).
Definition time_time : M Q :=
  fun w s => (Ok (clock w (n_clock s)), mkSt (S (n_clock s)) (n_uuid s) (st_signals s) (st_pending s)).
Definition uuid4_hex : M string :=
  fun w s => (Ok (uuid_hex w (n_uuid s)), mkSt (n_clock s) (S (n_uuid s)) (st_signals s) (st_pending s)).
Definition get_st : M St := fun _ s => (Ok s, s).
Definition push_signal (x : StrategySignal) : M unit :=
  fun _ s => (Ok tt, mkSt (n_clock s) (n_uuid s) (st_signals s ++ [x]) (st_pending s)).
Definition push_pending (x : EntrySetup) : M unit :=
  fun _ s => (Ok tt, mkSt (n_clock s) (n_uuid s) (st_signals s) (st_pending s ++ [x])).
(** [try: ... except Exception as e]: the exception becomes a value. *)
Definition try_ {A} (c : M A) : M (res A) :=
  fun w s => let '(r, s') := c w s in (Ok r, s').

(** *** [BaseStrategy] helpers *)

(** [create_signal_id]: [int(time.time())] is read before [uuid.uuid4()]. *)
Definition create_signal_id (strat : SMCStrategy) : M SignalId :=
  t <- time_time ;;
  hex <- uuid4_hex ;;
  mret (mkSignalId (sc_id (base_config strat)) (trunc t) (substring 0 8 hex)).

(** [calculate_expiry_time(hours=4.0)] *)
Definition calculate_expiry_time (hours : Q) : M Z :=
  t <- time_time ;;
  mret (trunc ((t + hours * 3600) * 1000)).

(** *** [SMCStrategy] methods *)

(** [ClarityResult(0, False, 0, 1.0, False, [])]: the positional [False]
    lands in [structure_clarity], i.e. the number 0. *)
Definition empty_clarity : ClarityResult := mkClarityResult 0 false 0 1 0 [].

Definition clarity_of (cfg : SMCClarityConfig) (candles : list Candle) (tf : Timeframe)
  : res ClarityResult :=
  match candles with [] => Ok empty_clarity | _ => analyze_clarity candles tf cfg end.

Definition _select_timeframes (strat : SMCStrategy) (d : MultiTimeframeData)
  : res TimeframeSelection :=
  let cfg := smc_config strat in
  let* d1_clarity := clarity_of cfg (d1 d) TF_1D in
  let* h4_clarity := clarity_of cfg (h4 d) TF_4H in
  let* m15_clarity := clarity_of cfg (m15 d) TF_15M in
  let* m5_clarity := clarity_of cfg (m5 d) TF_5M in
  let major_zone_tf := if 50 <=? score h4_clarity then TF_4H else TF_2H in
  let zone_id_tf := if 50 <=? score m15_clarity then TF_15M else TF_30M in
  let entry_tf := if 50 <=? score m5_clarity then TF_5M else TF_3M in
  let clear := (40 <=? score d1_clarity) && (40 <=? score h4_clarity)
               && (40 <=? score m15_clarity) in
  Ok (mkTimeframeSelection TF_1D major_zone_tf zone_id_tf entry_tf
        (score d1_clarity) (score h4_clarity) (score m15_clarity) (score m5_clarity)
        clear (cr_reasoning d1_clarity ++ cr_reasoning h4_clarity)).

Definition _get_major_zone_candles (d : MultiTimeframeData) (tf : Timeframe) : list Candle :=
  match tf with TF_4H => h4 d | TF_2H => h2 d | TF_1H => h1 d | _ => h4 d end.

Definition _get_zone_id_candles (d : MultiTimeframeData) (tf : Timeframe) : list Candle :=
  match tf with TF_30M => m30 d | TF_15M => m15 d | _ => m15 d end.

Definition _get_refinement_candles (d : MultiTimeframeData) (tf : Timeframe) : list Candle :=
  match tf with TF_5M => m5 d | TF_3M => m3 d | TF_1M => m1 d | _ => m5 d end.

Definition _build_signal (strat : SMCStrategy) (inst : InstrumentData) (entry_result : EntryResult)
  (h4_trend : TrendDirection) (zones_result : ZoneResult) (refinement_result : RefinementResult)
  (tf_selection : TimeframeSelection) (swing_points : list SwingPoint) : M StrategySignal :=
  match setup entry_result with
  | None => lift (Err AssertionError)
  | Some s =>
      let market_context :=
        mkMarketContext h4_trend h4_trend None None swing_points
          (unmitigated_supply zones_result) (unmitigated_demand zones_result)
          (zr_reasoning zones_result) in
      let all_reasoning :=
        [M_Context h4_trend (daily_context_clarity tf_selection);
         M_MajorZones (major_zone_tf tf_selection) (major_zone_clarity tf_selection);
         M_ZoneID (zone_identification_tf tf_selection) (zone_identification_clarity tf_selection);
         M_EntryTF (entry_refinement_tf tf_selection) (entry_refinement_clarity tf_selection)]
        ++ ts_reasoning tf_selection ++ zr_reasoning zones_result
        ++ rr_reasoning refinement_result ++ er_reasoning entry_result in
      sid <- create_signal_id strat ;;
      t <- time_time ;;
      exp <- calculate_expiry_time 4 ;;
      mret (mkStrategySignal sid (sc_id (base_config strat)) (sc_name (base_config strat))
              (symbol inst) (asset_class inst) (direction s) (entry_type s)
              (entry_price s) (stop_loss s) (take_profit s) (risk_reward_ratio s)
              (confidence s) (entry_refinement_tf tf_selection) market_context s
              [("h4"%string, all_zones zones_result); ("m15"%string, tradable_zones zones_result);
               ("m5"%string, []); ("m1"%string, [])]
              all_reasoning (trunc (t * 1000)) exp)
  end.

(** [nearest_target] of the candidate-zone loop. *)
Definition nearest_target_for (direction : SignalDirection) (zr : ZoneResult) (cp : Q)
  : option Q :=
  match direction with
  | BUY =>
      match unmitigated_supply zr with
      | [] => None
      | _ => match filter (fun z => qlt cp (bottom_price z)) (unmitigated_supply zr) with
             | [] => None
             | z0 :: rest => Some (Py.min_list (bottom_price z0) (map bottom_price rest))
             end
      end
  | SELL =>
      match unmitigated_demand zr with
      | [] => None
      | _ => match filter (fun z => qlt (top_price z) cp) (unmitigated_demand zr) with
             | [] => None
             | z0 :: rest => Some (Py.max_list (top_price z0) (map top_price rest))
             end
      end
  end.

(** [for major_zone in major_zones_result.tradable_zones[:3]: ...] *)
Fixpoint zone_loop (strat : SMCStrategy) (inst : InstrumentData) (h4_trend : TrendDirection)
  (mzr : ZoneResult) (tf_selection : TimeframeSelection) (swing_points : list SwingPoint)
  (zones : list Zone) : M unit :=
  match zones with
  | [] => mret tt
  | major_zone :: rest =>
      let d := data inst in
      let zone_id_candles := _get_zone_id_candles d (zone_identification_tf tf_selection) in
      let refinement_candles := _get_refinement_candles d (entry_refinement_tf tf_selection) in
      refinement_result <- lift (refine_zone major_zone zone_id_candles refinement_candles) ;;
      let zone_to_use := match refined_zone refinement_result with
                         | Some z => z | None => major_zone end in
      let direction := match type major_zone with DEMAND => BUY | SUPPLY => SELL end in
      let nearest_target := nearest_target_for direction mzr (current_price inst) in
      entry_result <- lift (detect_entry refinement_candles zone_to_use direction
                              nearest_target (all_zones mzr)) ;;
      (if negb (has_valid_entry entry_result) then
         match setup entry_result with
         | Some s => if 40 <=? confidence s then push_pending s else mret tt
         | None => mret tt
         end
       else
         match setup entry_result with
         | Some s =>
             if min_confidence (base_config strat) <=? confidence s then
               sig <- _build_signal strat inst entry_result h4_trend mzr refinement_result
                        tf_selection swing_points ;;
               push_signal sig
             else if 50 <=? confidence s then push_pending s
             else mret tt
         | None => mret tt
         end) ;;;
      zone_loop strat inst h4_trend mzr tf_selection swing_points rest
  end.

Definition early_result (strat : SMCStrategy) (start_time : Q) : M StrategyResult :=
  t <- time_time ;;
  mret (mkStrategyResult (sc_id (base_config strat)) [] [] [] (trunc ((t - start_time) * 1000))).

(** The body of the [try] block: [Some r] for the two early [return]s. *)
Definition analyze_body (strat : SMCStrategy) (inst : InstrumentData) (start_time : Q)
  : M (option StrategyResult) :=
  let d := data inst in
  tf_selection <- lift (_select_timeframes strat d) ;;
  if negb (ts_is_clear tf_selection) then
    r <- early_result strat start_time ;; mret (Some r)
  else
    let context_candles := match d1 d with [] => h4 d | _ => d1 d end in
    swing_points <- lift (detect_swing_points context_candles (swing_lookback (smc_config strat))) ;;
    let h4_trend := determine_trend context_candles swing_points in
    let control := match h4_trend with
                   | BULLISH => "buyers" | BEARISH => "sellers" | SIDEWAYS => "neutral"
                   end%string in
    let major_zone_candles := _get_major_zone_candles d (major_zone_tf tf_selection) in
    mzr <- lift (detect_zones major_zone_candles control (current_price inst)
                   (filter_overlapping_zones_cfg (smc_config strat))) ;;
    match tradable_zones mzr with
    | [] => r <- early_result strat start_time ;; mret (Some r)
    | tz =>
        zone_loop strat inst h4_trend mzr tf_selection swing_points (firstn 3 tz) ;;;
        mret None
    end.

(** [SMCStrategy.analyze] (logging left out: it does not touch the result). *)
Definition analyze (strat : SMCStrategy) (inst : InstrumentData) : M StrategyResult :=
  start_time <- time_time ;;
  r <- try_ (analyze_body strat inst start_time) ;;
  match r with
  | Ok (Some early) => mret early
  | Ok None | Err _ =>
      let errs := match r with Err e => [M_Exception e] | _ => [] end in
      t <- time_time ;;
      s <- get_st ;;
      mret (mkStrategyResult (sc_id (base_config strat)) (st_signals s) (st_pending s) errs
              (trunc ((t - start_time) * 1000)))
  end.

(** One call of [analyze] in a world, from a fresh strategy call. *)
Definition run_analyze (strat : SMCStrategy) (inst : InstrumentData) (w : World)
  : res StrategyResult := fst (analyze strat inst w init_st).

(** A computation that leaves the [pending_setups] list as it found it, and
    one whose normal result satisfies [P]. *)
Definition keeps_pending {A} (c : M A) : Prop :=
  forall w s, st_pending (snd (c w s)) = st_pending s.
Definition returns {A} (P : A -> Prop) (c : M A) : Prop :=
  forall w s, match fst (c w s) with Ok a => P a | Err _ => True end.

(** A signal with the fields read from the clock or from uuid4 blanked out:
    the time and hex parts of its id, [created_at] and [expires_at]. *)
Definition erase_signal (x : StrategySignal) : StrategySignal :=
  mkStrategySignal (mkSignalId (sid_strategy (sig_id x)) 0 EmptyString)
    (sig_strategy_id x) (sig_strategy_name x) (sig_symbol x) (sig_asset_class x)
    (sig_direction x) (sig_entry_type x) (sig_entry_price x) (sig_stop_loss x)
    (sig_take_profit x) (sig_risk_reward_ratio x) (sig_confidence x) (sig_timeframe x)
    (sig_market_context x) (sig_entry_setup x) (sig_zones x) (sig_reasoning x) 0 0.

(** A result with its signals erased as above and [analysis_time_ms] blanked. *)
Definition erase_result (r : StrategyResult) : StrategyResult :=
  mkStrategyResult (strategy_id r) (map erase_signal (signals r)) (pending_setups r)
    (errors r) 0.

Definition erase_run (r : res StrategyResult) : res StrategyResult :=
  match r with Ok a => Ok (erase_result a) | Err e => Err e end.

(** Two states whose result lists agree up to the clock and uuid fields. *)
Definition st_rel (s1 s2 : St) : Prop :=
  map erase_signal (st_signals s1) = map erase_signal (st_signals s2) /\
  st_pending s1 = st_pending s2.

Definition res_rel {A} (R : A -> A -> Prop) (r1 r2 : res A) : Prop :=
  match r1, r2 with
  | Ok a, Ok b => R a b
  | Err e1, Err e2 => e1 = e2
  | _, _ => False
  end.

(** [c1] and [c2], run in any two worlds from related states, give results
    related by [R] and related states. *)
Definition agree {A} (R : A -> A -> Prop) (c1 c2 : M A) : Prop :=
  forall w1 w2 s1 s2, st_rel s1 s2 ->
    res_rel R (fst (c1 w1 s1)) (fst (c2 w2 s2)) /\ st_rel (snd (c1 w1 s1)) (snd (c2 w2 s2)).

(* ------------------------------------------------------------------ *)
(** ** [BaseStrategy.validate_setup] and [StrategyRegistry] ([base.py]) *)

(** [validate_setup(setup, data)] of a strategy built on [config]
    ([self.min_confidence] is [config.min_confidence]). *)
Definition validate_setup (config : StrategyConfig) (setup : EntrySetup)
  (d : MultiTimeframeData) : res bool :=
  if qlt (risk_reward_ratio setup) (3#2) then Ok false
  else if confidence setup <? min_confidence config then Ok false
  else match m1 d with
       | [] => Ok true
       | _ =>
           let* c := Py.index (m1 d) (-1) in
           let current_price := close c in
           let zone := entry_zone setup in
           Ok (qle (bottom_price zone * (995#1000)) current_price
               && qle current_price (top_price zone * (1005#1000)))
       end.

(** A registered strategy as the registry sees it: its [name], its
    [enabled] flag, and what awaiting its [analyze(instrument)] gives (the
    result, or the exception raised). *)
Record RegisteredStrategy := mkRegisteredStrategy {
  rs_name : string;
  rs_enabled : bool;
  rs_analyze : InstrumentData -> res StrategyResult
}.

(** The lines of the combined [errors] list: an error string reported by a
    strategy, or [f"{strategy.name}: {str(e)}"] for one that raised. *)
Inductive ErrorLine :=
| StrategyError (m : Msg)
| StrategyFailed (name : string) (e : exn).

(** The [StrategyResult(strategy_id="combined", ...)] built by
    [run_all_strategies]. *)
Record CombinedResult := mkCombinedResult {
  comb_strategy_id : string;
  comb_signals : list StrategySignal;
  comb_pending : list EntrySetup;
  comb_errors : list ErrorLine;
  comb_time : Z
}.

(** [self._strategies], in registration order. *)
Definition StrategyRegistry := list RegisteredStrategy.

Definition StrategyRegistry_new : StrategyRegistry := [].

Definition register (reg : StrategyRegistry) (strategy : RegisteredStrategy) : StrategyRegistry :=
  reg ++ [strategy].

Definition get_enabled_strategies (reg : StrategyRegistry) : list RegisteredStrategy :=
  filter rs_enabled reg.

(** One iteration of the loop of [run_all_strategies]. *)
Definition run_one (inst : InstrumentData)
  (acc : list StrategySignal * list EntrySetup * list ErrorLine * Z) (strategy : RegisteredStrategy)
  : list StrategySignal * list EntrySetup * list ErrorLine * Z :=
  let '(all_signals, all_pending, all_errors, total_time) := acc in
  match rs_analyze strategy inst with
  | Ok result =>
      (all_signals ++ signals result, all_pending ++ pending_setups result,
       all_errors ++ map StrategyError (errors result), total_time + analysis_time_ms result)
  | Err e => (all_signals, all_pending, all_errors ++ [StrategyFailed (rs_name strategy) e], total_time)
  end.

Definition run_all_strategies (reg : StrategyRegistry) (inst : InstrumentData) : CombinedResult :=
  let '(all_signals, all_pending, all_errors, total_time) :=
    fold_left (run_one inst) (get_enabled_strategies reg) ([], [], [], 0) in
  mkCombinedResult "combined" all_signals all_pending all_errors total_time.

Record RegistryStats := mkRegistryStats {
  total_strategies : nat;
  enabled_strategies : nat;
  strategy_names : list string
}.

Definition get_stats (reg : StrategyRegistry) : RegistryStats :=
  mkRegistryStats (List.length reg) (List.length (get_enabled_strategies reg)) (map rs_name reg).

(* ------------------------------------------------------------------ *)
(** ** Predicates used by the further properties *)

(** A candle whose open and close lie between its low and high. *)
Definition well_formed_candle (c : Candle) : Prop :=
  (low c <= open c <= high c)%Q /\ (low c <= close c <= high c)%Q.

(** A zone whose bottom is at most its top. *)
Definition well_formed_zone (z : Zone) : Prop := (bottom_price z <= top_price z)%Q.

(** What one step of the candle loop may append. *)
Definition zone_from (candles : list Candle) (z : Zone) : Prop :=
  1 <= origin_candle_index z <= zlen candles - 3 /\
  exists c, Py.index candles (origin_candle_index z) = Ok c /\
    created_at z = timestamp c /\ touches z = 0 /\
    match type z with
    | DEMAND => top_price z = high c /\ (bottom_price z <= low c)%Q
    | SUPPLY => bottom_price z = low c /\ (high c <= top_price z)%Q
    end.


(** [c] appends at most [n] signals, each satisfying [P]. *)
Definition grows (P : StrategySignal -> Prop) (n : nat) {A} (c : M A) : Prop :=
  forall w s, Forall P (st_signals s) ->
    Forall P (st_signals (snd (c w s))) /\
    (List.length (st_signals (snd (c w s))) <= List.length (st_signals s) + n)%nat.

(** The shape of every signal [analyze] emits. *)
Definition signal_ok (strat : SMCStrategy) (x : StrategySignal) : Prop :=
  let s := sig_entry_setup x in
  sig_direction x = direction s /\ sig_entry_price x = entry_price s /\
  sig_stop_loss x = stop_loss s /\ sig_take_profit x = take_profit s /\
  sig_risk_reward_ratio x = risk_reward_ratio s /\ sig_confidence x = confidence s /\
  (3#2 <= risk_reward_ratio s)%Q /\ (0 < risk_pips s)%Q /\
  60 <= confidence s <= 95 /\ min_confidence (base_config strat) <= confidence s /\
  h4_trend_direction (sig_market_context x) = SIDEWAYS /\
  d1_trend_direction (sig_market_context x) = SIDEWAYS.

(* ------------------------------------------------------------------ *)
(** ** Concrete inputs used by the examples below *)

Definition candle_at (ts : Z) (o h l c : Q) : Candle := mkCandle ts o h l c 0.

(** Spec scenario E: a DEMAND zone [1.0970, 1.1010] (stop [1.0950]) and a
    last close of [1.1000] inside it, with no confirming candle pattern. *)
Definition scenE_candles : list Candle :=
  [candle_at 1 1 (12#10) 1 1; candle_at 2 1 (12#10) 1 1; candle_at 3 1 (12#10) 1 1;
   candle_at 4 1 (12#10) 1 1; candle_at 5 (11#10) (11#10) (11#10) (11#10)].
Definition scenE_zone : Zone := Zone_new (11010#10000) (10970#10000) DEMAND moderate 3.

(** A SUPPLY zone above scenario E's entry that price already traded through. *)
Definition mitigated_supply : Zone := mkZone (13#10) (12#10) SUPPLY strong 1 0 true 1.

(** Spec scenario D: [1.1000, 1.2000] refined by three lower-timeframe
    candles to [1.1900, 1.1950]. *)
Definition scenD_zone : Zone := mkZone (12#10) (11#10) DEMAND strong 7 2 false 1700000000000.
Definition scenD_ltf : list Candle :=
  [candle_at 1 (1192#1000) (1195#1000) (119#100) (1192#1000);
   candle_at 2 (1192#1000) (1195#1000) (119#100) (1192#1000);
   candle_at 3 (1192#1000) (1195#1000) (119#100) (1192#1000)].

(** A configuration whose entry gates are stricter than the built-in ones. *)
Definition strict_entry_config : SMCClarityConfig :=
  mkSMCClarityConfig 60 1 5 4 (6#10) 20 5 168 true true true 3 70.

Definition empty_mtf : MultiTimeframeData := mkMultiTimeframeData [] [] [] [] [] [] [] [] [].
Definition empty_instrument : InstrumentData := mkInstrumentData "EURUSD" "forex" (11#10) empty_mtf.

(** Two overlapping moderate DEMAND zones, originated at candles 1 and 2. *)
Definition older_zone : Zone := mkZone 2 1 DEMAND moderate 1 0 false 0.
Definition newer_zone : Zone := mkZone (5#2) (3#2) DEMAND moderate 2 0 false 0.

(** Two worlds whose clocks advance at different speeds. *)
Definition still_world : World := mkWorld (fun _ => 1700000000%Q) (fun _ => "0123456789abcdef"%string).
Definition busy_world : World :=
  mkWorld (fun n => (1700000000 + inject_Z (Z.of_nat n))%Q) (fun _ => "fedcba9876543210"%string).

(** Twelve hourly candles: a demand base, a rally, a supply base, a drop
    back and a quiet range. *)
Definition hour_ms (k : Z) : Z := 1700000000000 + k * 3600000.
Definition demo_candles : list Candle :=
  [candle_at (hour_ms 0) 1 (101#100) (99#100) 1;
   candle_at (hour_ms 1) 1 (101#100) (99#100) (1005#1000);
   candle_at (hour_ms 2) (1005#1000) (106#100) 1 (1055#1000);
   candle_at (hour_ms 3) (105#100) (1052#1000) (1048#1000) (105#100);
   candle_at (hour_ms 4) (105#100) (1052#1000) (1048#1000) (105#100);
   candle_at (hour_ms 5) (105#100) (1052#1000) (1048#1000) (105#100);
   candle_at (hour_ms 6) (105#100) (1051#1000) 1 (1005#1000);
   candle_at (hour_ms 7) (101#100) (1012#1000) (1008#1000) (101#100);
   candle_at (hour_ms 8) (101#100) (1012#1000) (1008#1000) (101#100);
   candle_at (hour_ms 9) (101#100) (1012#1000) (1008#1000) (101#100);
   candle_at (hour_ms 10) (101#100) (1012#1000) (1008#1000) (101#100);
   candle_at (hour_ms 11) (101#100) (1012#1000) (1008#1000) (101#100)].
Definition demo_config : SMCClarityConfig :=
  mkSMCClarityConfig 60 1 5 4 (6#10) 10 2 168 true true true (3#2) 60.

(* ================================================================== *)
(** * Properties *)

(** ** Sanity checks of the embedding on the spec's scenarios *)

Example scenE_take_profit :
  match detect_entry scenE_candles scenE_zone BUY None [] with
  | Ok r => match setup r with
            | Some s => Qeq_bool (stop_loss s) (10950#10000) && Qeq_bool (take_profit s) (11125#10000)
                        && Qeq_bool (risk_reward_ratio s) (5#2) && has_valid_entry r
            | None => false
            end
  | Err _ => false
  end = true.
Proof. vm_compute. reflexivity. Qed.

Example scenB_empty :
  detect_zones [] "neutral" 1 true = Ok (mkZoneResult [] [] [] [] [M_InsufficientCandles]) /\
  detect_entry [] scenE_zone BUY None [] = Ok (mkEntryResult false None [M_InsufficientCandles]).
Proof. split; reflexivity. Qed.

(** ** C7: trend from the counts of the last six swings *)

Section Trend.
Variables (candles : list Candle) (sps : list SwingPoint).

Let recent := last_n sps 6.
Let hh := count (has_type HH) recent.
Let hl := count (has_type HL) recent.
Let lh := count (has_type LH) recent.
Let ll := count (has_type LL) recent.

(** C7: [determine_trend] is Bullish iff there are at least four swings and,
    among the last six, at least one HH and one HL with HH+HL > LH+LL;
    Bearish iff at least four swings and at least one LL and one LH with
    LL+LH > HH+HL; Sideways otherwise (in particular with fewer than four
    swings). *)
Theorem determine_trend_spec :
  (determine_trend candles sps = BULLISH <->
     (4 <= List.length sps)%nat /\ (1 <= hh)%nat /\ (1 <= hl)%nat /\ (lh + ll < hh + hl)%nat) /\
  (determine_trend candles sps = BEARISH <->
     (4 <= List.length sps)%nat /\ (1 <= ll)%nat /\ (1 <= lh)%nat /\ (hh + hl < ll + lh)%nat) /\
  (determine_trend candles sps = SIDEWAYS <->
     (List.length sps < 4)%nat \/
     (~ ((1 <= hh)%nat /\ (1 <= hl)%nat /\ (lh + ll < hh + hl)%nat) /\
      ~ ((1 <= ll)%nat /\ (1 <= lh)%nat /\ (hh + hl < ll + lh)%nat))).
Proof.
  unfold determine_trend; fold recent hh hl lh ll.
  destruct (Nat.ltb_spec (List.length sps) 4) as [Hn|Hn].
  { repeat split; intros; try discriminate; try lia; auto. }
  destruct (Nat.leb_spec 1 hh); destruct (Nat.leb_spec 1 hl);
  destruct (Nat.ltb_spec (lh + ll) (hh + hl));
  destruct (Nat.leb_spec 1 ll); destruct (Nat.leb_spec 1 lh);
  destruct (Nat.ltb_spec (hh + hl) (ll + lh)); cbn [andb];
  repeat split; intros; try discriminate; try lia; try tauto.
Qed.

End Trend.

(** ** C8: insufficient data gives a neutral result, never an exception *)

(** C8: fewer than [2 * lookback + 1] candles give no swing points; fewer
    than 10 candles give a [ZoneResult] with four empty zone lists and the
    reasoning "Insufficient candles"; fewer than 5 candles give a rejected
    entry with the reasoning "Insufficient candles". *)
Theorem insufficient_data_neutral (candles : list Candle) (lookback : Z) (control : string)
  (cp : Q) (filter_overlaps : bool) (zone : Zone) (dir : SignalDirection)
  (target : option Q) (zones : list Zone) :
  (zlen candles < lookback * 2 + 1 -> detect_swing_points candles lookback = Ok []) /\
  (zlen candles < 10 ->
     detect_zones candles control cp filter_overlaps
     = Ok (mkZoneResult [] [] [] [] [M_InsufficientCandles])) /\
  (zlen candles < 5 ->
     detect_entry candles zone dir target zones
     = Ok (mkEntryResult false None [M_InsufficientCandles])).
Proof.
  repeat split; intros Hlen.
  - unfold detect_swing_points. apply Z.ltb_lt in Hlen. now rewrite Hlen.
  - unfold detect_zones. apply Z.ltb_lt in Hlen. now rewrite Hlen.
  - unfold detect_entry. apply Z.ltb_lt in Hlen. now rewrite Hlen.
Qed.

Lemma insufficient_data_neutral_witness :
  (zlen (@nil Candle) < 5 * 2 + 1 /\ detect_swing_points [] 5 = Ok []) /\
  (zlen (@nil Candle) < 10 /\
   detect_zones [] "neutral" 1 true = Ok (mkZoneResult [] [] [] [] [M_InsufficientCandles])) /\
  (zlen (@nil Candle) < 5 /\
   detect_entry [] scenE_zone BUY None [] = Ok (mkEntryResult false None [M_InsufficientCandles])).
Proof.
  destruct (insufficient_data_neutral [] 5 "neutral" 1 true scenE_zone BUY None [])
    as [A [B C]].
  split; [split; [reflexivity | apply A; reflexivity] |].
  split; [split; [reflexivity | apply B; reflexivity] |].
  split; [reflexivity | apply C; reflexivity].
Defined.

(** Case analysis on the [let*], [if] and pair [match] of a hypothesis
    [H : <code> = Ok r]. *)
Ltac split_res H :=
  repeat match type of H with
  | context [bind (Ok _) _] => cbn [bind] in H
  | context [bind (Err _) _] => cbn [bind] in H
  | context [bind ?x _] => let E := fresh "E" in destruct x eqn:E
  | context [if ?b then _ else _] => let E := fresh "E" in destruct b eqn:E
  | context [match ?x with pair _ _ => _ end] => let E := fresh "E" in destruct x eqn:E
  end;
  try discriminate H.

(** ** C9: a refined zone is a fresh [Zone] *)

(** C9: an accepted refinement keeps the type, strength and origin index of
    the major zone, and leaves [touches], [mitigated] and [created_at] at
    their defaults; so its age is 0 hours and its freshness 1 at every
    timestamp (for any positive maximum age, e.g. the default 168). *)
Theorem refine_zone_fresh (major : Zone) (zone_candles ltf : list Candle)
  (r : RefinementResult) (z : Zone) :
  refine_zone major zone_candles ltf = Ok r ->
  refined_zone r = Some z ->
  was_refined r = true /\
  type z = type major /\ strength z = strength major /\
  origin_candle_index z = origin_candle_index major /\
  created_at z = 0 /\ touches z = 0 /\ mitigated z = false /\
  (forall now, get_age_hours z now = 0%Q) /\
  (forall now max_age, (0 < max_age)%Q -> freshness_score z now max_age == 1).
Proof.
  intros Hr Hz. unfold refine_zone in Hr.
  destruct ltf as [|c ltf']; [injection Hr as <-; discriminate|].
  split_res Hr; injection Hr as <-; cbn in Hz; try discriminate Hz;
  injection Hz as <-; cbn; (repeat split; auto);
  intros now max_age Hpos; unfold freshness_score, get_age_hours; cbn;
  (destruct (qle max_age 0) eqn:Hq;
   [apply Qle_bool_iff in Hq; exfalso; apply (Qlt_not_le _ _ Hpos Hq)
   | unfold Qdiv; rewrite Qmult_0_l; reflexivity]).
Qed.

Lemma refine_zone_fresh_witness :
  exists r z, refine_zone scenD_zone [] scenD_ltf = Ok r /\ refined_zone r = Some z /\
    freshness_score z 1800000000000 168 == 1 /\ created_at scenD_zone <> 0.
Proof.
  eexists; eexists. split; [vm_compute; reflexivity|]. split; [vm_compute; reflexivity|].
  split; [|discriminate].
  refine (proj2 (proj2 (proj2 (proj2 (proj2 (proj2 (proj2 (proj2
           (refine_zone_fresh scenD_zone [] scenD_ltf _ _ _ _)))))))) _ _ _).
  - vm_compute; reflexivity.
  - vm_compute; reflexivity.
  - reflexivity.
Defined.

(** ** Shape of [detect_entry]'s results *)

Lemma qlt_true (x y : Q) : qlt x y = true -> (x < y)%Q.
Proof.
  unfold qlt. intros H. apply negb_true_iff in H.
  apply Qnot_le_lt. intros Hle. apply Qle_bool_iff in Hle. congruence.
Qed.

Lemma qlt_false (x y : Q) : qlt x y = false -> (y <= x)%Q.
Proof. unfold qlt. intros H. apply negb_false_iff in H. now apply Qle_bool_iff. Qed.

Lemma index_from_end {A} (l : list A) (k : nat) :
  (0 < k)%nat -> (k <= List.length l)%nat -> exists a, Py.index l (- Z.of_nat k) = Ok a.
Proof.
  intros Hk Hl. unfold Py.index.
  replace (- Z.of_nat k <? 0) with true by (symmetry; apply Z.ltb_lt; lia).
  replace ((- Z.of_nat k + Z.of_nat (List.length l) <? 0)
           || (Z.of_nat (List.length l) <=? - Z.of_nat k + Z.of_nat (List.length l)))
    with false by (symmetry; apply orb_false_iff; split; [apply Z.ltb_ge | apply Z.leb_gt]; lia).
  destruct (nth_error l _) eqn:E; [eauto|].
  apply nth_error_None in E. lia.
Qed.

Lemma detect_entry_total (candles : list Candle) (zone : Zone) (dir : SignalDirection)
  (target : option Q) (zones : list Zone) :
  exists r, detect_entry candles zone dir target zones = Ok r.
Proof.
  unfold detect_entry.
  destruct (zlen candles <? 5) eqn:Hn; [eauto|].
  apply Z.ltb_ge in Hn. unfold zlen in Hn.
  destruct (index_from_end candles 1) as [lc Hlc]; [lia | lia |].
  destruct (index_from_end candles 2) as [pc Hpc]; [lia | lia |].
  change (-1) with (- Z.of_nat 1). rewrite Hlc. cbn [bind].
  destruct (negb _); [eauto|].
  change (-2) with (- Z.of_nat 2). rewrite Hpc. cbn [bind].
  match goal with |- context [match ?x with pair _ _ => _ end] => destruct x as [[cs c] et] end.
  destruct (c <? 60); [eauto|].
  destruct (qlt _ (3#2)); eauto.
Qed.

Lemma detect_entry_rejects (candles : list Candle) (zone : Zone) (dir : SignalDirection)
  (target : option Q) (zones : list Zone) (r : EntryResult) :
  detect_entry candles zone dir target zones = Ok r ->
  has_valid_entry r = false -> setup r = None.
Proof.
  intros H Hv. unfold detect_entry in H. split_res H; injection H as <-; cbn in *;
  easy.
Qed.

Lemma detect_entry_accepts (candles : list Candle) (zone : Zone) (dir : SignalDirection)
  (target : option Q) (zones : list Zone) (r : EntryResult) :
  detect_entry candles zone dir target zones = Ok r ->
  has_valid_entry r = true ->
  exists lc s,
    Py.index candles (-1) = Ok lc /\ setup r = Some s /\
    direction s = dir /\ entry_price s = close lc /\
    stop_loss s = entry_stop_loss zone dir /\
    take_profit s = entry_take_profit dir (close lc) (entry_stop_loss zone dir) target zones /\
    (3#2 <= risk_reward_ratio s)%Q /\ 60 <= confidence s <= 95 /\ (0 < risk_pips s)%Q.
Proof.
  intros H Hv. unfold detect_entry in H. split_res H; injection H as <-; cbn in Hv;
    try discriminate Hv.
  all: repeat match goal with
         | E : qlt _ (3#2) = false |- _ => apply qlt_false in E
         | E : (_ <? 60) = false |- _ => apply Z.ltb_ge in E
         | E : qlt 0 _ = true |- _ => apply qlt_true in E
         | E : qlt 0 _ = false |- _ => clear E
       end.
  all: try (exfalso; match goal with E : (3#2 <= 0)%Q |- _ => vm_compute in E; now apply E end).
  all: do 2 eexists; repeat split; try eassumption; cbn; try lia.
Qed.

(** ** C10: a zero risk never divides, and is rejected *)

(** C10: [detect_entry] never raises, and when the stop-loss it computes
    for the zone and direction is at distance 0 from the entry price (the
    last close), the risk/reward ratio is taken as 0, below the 1.5 gate:
    the entry is rejected ([has_valid_entry = false], no setup). *)
Theorem detect_entry_zero_risk_rejected (candles : list Candle) (zone : Zone)
  (dir : SignalDirection) (target : option Q) (zones : list Zone) :
  exists r, detect_entry candles zone dir target zones = Ok r /\
    forall lc, Py.index candles (-1) = Ok lc ->
      Qabs (close lc - entry_stop_loss zone dir) == 0 ->
      has_valid_entry r = false /\ setup r = None.
Proof.
  destruct (detect_entry_total candles zone dir target zones) as [r Hr].
  exists r. split; [exact Hr|]. intros lc Hlc Hrisk.
  destruct (has_valid_entry r) eqn:Hv.
  - exfalso. destruct (detect_entry_accepts _ _ _ _ _ _ Hr Hv)
      as (lc' & s & Hlc' & _ & _ & Hep & Hsl & _ & _ & _ & Hpos).
    rewrite Hlc in Hlc'. injection Hlc' as <-.
    unfold risk_pips in Hpos. rewrite Hep, Hsl, Hrisk in Hpos.
    exact (Qlt_irrefl 0 Hpos).
  - split; [reflexivity|]. exact (detect_entry_rejects _ _ _ _ _ _ Hr Hv).
Qed.

(** ** C1: the entry gates *)

(** C1 (as stated, with the configured gates): refuted.  [detect_entry]
    takes no configuration; with [min_rr_ratio = 3] and
    [min_entry_confidence = 70] it still accepts scenario E, whose ratio is
    2.5 and confidence 60. *)
Lemma entry_gates_ignore_config :
  ~ (forall (cfg : SMCClarityConfig) candles zone dir target zones r s,
       detect_entry candles zone dir target zones = Ok r ->
       has_valid_entry r = true -> setup r = Some s ->
       (min_rr_ratio cfg <= risk_reward_ratio s)%Q /\
       min_entry_confidence cfg <= confidence s /\ confidence s <= 95).
Proof.
  intros H.
  destruct (detect_entry_total scenE_candles scenE_zone BUY None []) as [r Hr].
  pose proof Hr as Hr'. vm_compute in Hr'. injection Hr' as <-.
  destruct (H strict_entry_config _ _ _ _ _ _ _ Hr eq_refl eq_refl) as [Hrr Hc].
  vm_compute in Hrr. now apply Hrr.
Qed.

(** C1 (amended): whenever [detect_entry] accepts, its setup has
    [risk_reward_ratio >= 1.5] and [60 <= confidence <= 95]: the gates are the
    built-in constants 1.5 and 60 (the defaults of [min_rr_ratio] and
    [min_entry_confidence]), whatever [SMCClarityConfig] is in use. *)
Theorem detect_entry_gates (candles : list Candle) (zone : Zone) (dir : SignalDirection)
  (target : option Q) (zones : list Zone) (r : EntryResult) (s : EntrySetup) :
  detect_entry candles zone dir target zones = Ok r ->
  has_valid_entry r = true -> setup r = Some s ->
  (min_rr_ratio DEFAULT_SMC_CONFIG <= risk_reward_ratio s)%Q /\
  min_entry_confidence DEFAULT_SMC_CONFIG <= confidence s /\ confidence s <= 95.
Proof.
  intros Hr Hv Hs.
  destruct (detect_entry_accepts _ _ _ _ _ _ Hr Hv)
    as (lc & s' & _ & Hs' & _ & _ & _ & _ & Hrr & Hc & _).
  rewrite Hs in Hs'. injection Hs' as <-. cbn. split; [exact Hrr | lia].
Qed.

Lemma detect_entry_gates_witness :
  exists r s, detect_entry scenE_candles scenE_zone BUY None [] = Ok r /\
    has_valid_entry r = true /\ setup r = Some s /\
    (min_rr_ratio DEFAULT_SMC_CONFIG <= risk_reward_ratio s)%Q /\
    min_entry_confidence DEFAULT_SMC_CONFIG <= confidence s /\ confidence s <= 95.
Proof.
  destruct (detect_entry_total scenE_candles scenE_zone BUY None []) as [r Hr].
  pose proof Hr as Hr'. vm_compute in Hr'. injection Hr' as Hr'.
  destruct (setup r) as [s|] eqn:Hs; [|rewrite <- Hr' in Hs; discriminate Hs].
  exists r, s. split; [exact Hr|].
  assert (Hv : has_valid_entry r = true) by (rewrite <- Hr'; reflexivity).
  split; [exact Hv|]. split; [exact Hs|].
  exact (detect_entry_gates _ _ _ _ _ r s Hr Hv Hs).
Defined.

(** ** C5: the take-profit fallback *)

(** C5: with no target and only a SUPPLY zone above the entry that is
    already mitigated, [detect_entry] still takes that zone's bottom (1.2)
    as the take-profit, instead of the fallback [entry + 2.5 * risk = 1.1125]
    that applies when no unmitigated SUPPLY zone lies above the entry. *)
Theorem detect_entry_targets_mitigated_supply :
  exists r s,
    detect_entry scenE_candles scenE_zone BUY None [mitigated_supply] = Ok r /\
    has_valid_entry r = true /\ setup r = Some s /\
    mitigated mitigated_supply = true /\
    take_profit s == 12#10 /\
    ~ (take_profit s == entry_price s + (5#2) * Qabs (entry_price s - stop_loss s)).
Proof.
  eexists; eexists. split; [vm_compute; reflexivity|].
  split; [reflexivity|]. split; [reflexivity|]. split; [reflexivity|].
  split; [reflexivity|]. vm_compute. discriminate.
Qed.

Lemma detect_entry_zero_risk_rejected_witness :
  exists r lc, detect_entry scenE_candles (Zone_new (11#10) (11#10) DEMAND moderate 3) BUY None [] = Ok r /\
    Py.index scenE_candles (-1) = Ok lc /\
    Qabs (close lc - entry_stop_loss (Zone_new (11#10) (11#10) DEMAND moderate 3) BUY) == 0 /\
    has_valid_entry r = false /\ setup r = None.
Proof.
  destruct (detect_entry_zero_risk_rejected scenE_candles (Zone_new (11#10) (11#10) DEMAND moderate 3)
              BUY None []) as [r [Hr H]].
  exists r, (candle_at 5 (11#10) (11#10) (11#10) (11#10)).
  assert (Hlc : Py.index scenE_candles (-1) = Ok (candle_at 5 (11#10) (11#10) (11#10) (11#10)))
    by reflexivity.
  assert (Hz : Qabs (close (candle_at 5 (11#10) (11#10) (11#10) (11#10))
                     - entry_stop_loss (Zone_new (11#10) (11#10) DEMAND moderate 3) BUY) == 0)
    by reflexivity.
  split; [exact Hr|]. split; [exact Hlc|]. split; [exact Hz|].
  exact (H _ Hlc Hz).
Defined.

(** ** C6: swing quality *)

Lemma max_list_in (x : Q) (xs : list Q) : In (Py.max_list x xs) (x :: xs).
Proof.
  unfold Py.max_list. revert x; induction xs as [|y t IH]; intros x; [now left|].
  cbn [fold_left].
  destruct (IH (Py.max x y)) as [E|E].
  - rewrite <- E. unfold Py.max. destruct (qlt x y); [right; left | left]; reflexivity.
  - right; right; exact E.
Qed.

Lemma max_list_ge (x : Q) (xs : list Q) : forall y, In y (x :: xs) -> (y <= Py.max_list x xs)%Q.
Proof.
  unfold Py.max_list. revert x; induction xs as [|z t IH]; intros x y Hy.
  - destruct Hy as [<-|[]]. apply Qle_refl.
  - cbn [fold_left].
    assert (Hx : (x <= Py.max x z)%Q /\ (z <= Py.max x z)%Q).
    { unfold Py.max. destruct (qlt x z) eqn:E.
      - split; [apply Qlt_le_weak, qlt_true, E | apply Qle_refl].
      - split; [apply Qle_refl | apply qlt_false, E]. }
    destruct Hy as [<-|[<-|Hy]].
    + eapply Qle_trans; [apply Hx|]. apply IH; now left.
    + eapply Qle_trans; [apply Hx|]. apply IH; now left.
    + apply IH; now right.
Qed.

Lemma min_list_in (x : Q) (xs : list Q) : In (Py.min_list x xs) (x :: xs).
Proof.
  unfold Py.min_list. revert x; induction xs as [|y t IH]; intros x; [now left|].
  cbn [fold_left].
  destruct (IH (Py.min x y)) as [E|E].
  - rewrite <- E. unfold Py.min. destruct (qlt y x); [right; left | left]; reflexivity.
  - right; right; exact E.
Qed.

Lemma min_list_le (x : Q) (xs : list Q) : forall y, In y (x :: xs) -> (Py.min_list x xs <= y)%Q.
Proof.
  unfold Py.min_list. revert x; induction xs as [|z t IH]; intros x y Hy.
  - destruct Hy as [<-|[]]. apply Qle_refl.
  - cbn [fold_left].
    assert (Hx : (Py.min x z <= x)%Q /\ (Py.min x z <= z)%Q).
    { unfold Py.min. destruct (qlt z x) eqn:E.
      - split; [apply Qlt_le_weak, qlt_true, E | apply Qle_refl].
      - split; [apply Qle_refl | apply qlt_false, E]. }
    destruct Hy as [<-|[<-|Hy]].
    + eapply Qle_trans; [|apply Hx]. apply IH; now left.
    + eapply Qle_trans; [|apply Hx]. apply IH; now left.
    + apply IH; now right.
Qed.

Lemma py_min_one (v : Q) : (v <= 1)%Q -> Py.min 1 v == v.
Proof.
  intros Hv. unfold Py.min. destruct (qlt v 1) eqn:E; [reflexivity|].
  apply qlt_false in E. apply Qle_antisym; assumption.
Qed.

(** C6 (as stated): refuted.  The classified swings of one high and one low
    both have size 0; the score is then 0.5, not 0. *)
Lemma swing_quality_unsized_not_zero :
  ~ (forall sps : list SwingPoint,
       filter (fun q => negb (qeq q 0)) (map swing_size (last_n sps 10)) = [] ->
       calculate_swing_quality_score sps == 0).
Proof.
  intros H.
  specialize (H (classify_swing_points [mkSwingPoint 2 3 true 0 None 0;
                                        mkSwingPoint 1 6 false 0 None 0]) eq_refl).
  vm_compute in H. discriminate H.
Qed.

Lemma half_quality_le_one (d : Q) : (0 <= d)%Q -> ((1#2) + (1#2) * (1 - d) <= 1)%Q.
Proof.
  intros H. setoid_replace ((1#2) + (1#2) * (1 - d))%Q with (1 + - ((1#2) * d))%Q by ring.
  rewrite <- (Qplus_0_r 1) at 2. apply Qplus_le_r.
  apply (Qle_trans _ (- 0)%Q); [|apply Qle_refl].
  apply Qopp_le_compat, Qmult_le_0_compat; [vm_compute; discriminate | exact H].
Qed.

(** C6 (amended): with fewer than two swings the score is 0; otherwise,
    over the last 10 swings restricted to those of positive size, it is 0.5
    when there are none, and [0.5 + 0.5 * (1 - (max - min) / max)] with the
    maximum and minimum of those sizes when there are some. *)
Theorem swing_quality_spec (sps : list SwingPoint) :
  let sizes := filter (fun q => qlt 0 q) (map swing_size (last_n sps 10)) in
  ((List.length sps < 2)%nat -> calculate_swing_quality_score sps = 0%Q) /\
  ((2 <= List.length sps)%nat -> sizes = [] -> calculate_swing_quality_score sps = (1#2)%Q) /\
  ((2 <= List.length sps)%nat -> forall mx mn, In mx sizes -> In mn sizes ->
     (forall x, In x sizes -> (x <= mx)%Q /\ (mn <= x)%Q) ->
     calculate_swing_quality_score sps == (1#2) + (1#2) * (1 - (mx - mn) / mx)).
Proof.
  cbv zeta. unfold calculate_swing_quality_score. cbv zeta.
  remember (filter (fun q => qlt 0 q) (map swing_size (last_n sps 10))) as sizes eqn:Es.
  split; [|split].
  - intros H. apply Nat.ltb_lt in H. now rewrite H.
  - intros H Hs. apply Nat.ltb_ge in H. rewrite H, Hs. reflexivity.
  - intros H mx mn Hmx Hmn Hb. apply Nat.ltb_ge in H. rewrite H.
    destruct sizes as [|s0 rest]; [destruct Hmx|].
    set (M := Py.max_list s0 rest). set (m := Py.min_list s0 rest).
    assert (HMin : In M (s0 :: rest)) by apply max_list_in.
    assert (Hmin : In m (s0 :: rest)) by apply min_list_in.
    assert (HM : mx == M).
    { apply Qle_antisym; [apply max_list_ge, Hmx | apply Hb, HMin]. }
    assert (Hm : mn == m).
    { apply Qle_antisym; [apply Hb, Hmin | apply min_list_le, Hmn]. }
    assert (HMpos : (0 < M)%Q).
    { assert (Hf : In M (filter (fun q => qlt 0 q) (map swing_size (last_n sps 10))))
        by (rewrite <- Es; exact HMin).
      apply filter_In in Hf. apply qlt_true, Hf. }
    assert (HmM : (m <= M)%Q) by (apply max_list_ge, Hmin).
    replace (qlt 0 M) with true by (symmetry; apply negb_true_iff;
      destruct (Qle_bool M 0) eqn:E; [apply Qle_bool_iff in E; exfalso;
      exact (Qlt_not_le _ _ HMpos E) | reflexivity]).
    assert (Hd : (0 <= (M - m) / M)%Q).
    { apply Qle_shift_div_l; [exact HMpos|]. rewrite Qmult_0_l.
      apply (Qplus_le_l _ _ m). ring_simplify. exact HmM. }
    rewrite py_min_one by (apply half_quality_le_one, Hd).
    rewrite HM, Hm. reflexivity.
Qed.

Lemma swing_quality_spec_witness :
  (2 <= List.length [mkSwingPoint 2 3 true 0 (Some HH) 4; mkSwingPoint 1 6 false 0 (Some LL) 2])%nat /\
  calculate_swing_quality_score
    [mkSwingPoint 2 3 true 0 (Some HH) 4; mkSwingPoint 1 6 false 0 (Some LL) 2]
  == (1#2) + (1#2) * (1 - (4 - 2) / 4).
Proof.
  split; [cbn; lia|].
  apply (proj2 (proj2 (swing_quality_spec
    [mkSwingPoint 2 3 true 0 (Some HH) 4; mkSwingPoint 1 6 false 0 (Some LL) 2])));
    [cbn; lia | cbn; auto | cbn; auto |].
  intros x Hx. cbn in Hx. destruct Hx as [<-|[<-|[]]]; split; vm_compute; discriminate.
Defined.

(** ** C4: overlap filtering *)

Lemma key_lt_false_ge (a b : Zone) : key_lt (zone_key a) (zone_key b) = false <-> zone_ge a b.
Proof.
  unfold key_lt, zone_key, zone_ge; cbn [fst snd].
  destruct (Z.ltb_spec (strength_order (strength a)) (strength_order (strength b)));
  destruct (Z.eqb_spec (strength_order (strength a)) (strength_order (strength b)));
  destruct (Z.ltb_spec (- origin_candle_index a) (- origin_candle_index b));
  cbn; split; intros; try discriminate; try lia; reflexivity.
Qed.

Lemma key_lt_true_ge (a b : Zone) : key_lt (zone_key a) (zone_key b) = true -> zone_ge b a.
Proof.
  unfold key_lt, zone_key, zone_ge; cbn [fst snd].
  destruct (Z.ltb_spec (strength_order (strength a)) (strength_order (strength b)));
  destruct (Z.eqb_spec (strength_order (strength a)) (strength_order (strength b)));
  destruct (Z.ltb_spec (- origin_candle_index a) (- origin_candle_index b));
  cbn; intros; try discriminate; lia.
Qed.

Lemma zone_ge_trans (a b c : Zone) : zone_ge a b -> zone_ge b c -> zone_ge a c.
Proof. unfold zone_ge. lia. Qed.

Lemma overlaps_with_sym (a b : Zone) : overlaps_with a b = overlaps_with b a.
Proof. unfold overlaps_with. now rewrite orb_comm. Qed.

Lemma insert_desc_In (z w : Zone) (l : list Zone) : In w (insert_desc z l) <-> w = z \/ In w l.
Proof.
  induction l as [|y t IH]; cbn; [intuition congruence|].
  destruct (key_lt (zone_key y) (zone_key z)); cbn; [intuition congruence|].
  rewrite IH. intuition congruence.
Qed.

Lemma insert_desc_sorted (z : Zone) (l : list Zone) :
  StronglySorted zone_ge l -> StronglySorted zone_ge (insert_desc z l).
Proof.
  induction l as [|y t IH]; intros Hs; cbn.
  - constructor; constructor.
  - apply StronglySorted_inv in Hs as [Ht Hy].
    destruct (key_lt (zone_key y) (zone_key z)) eqn:E.
    + apply key_lt_true_ge in E. constructor; [constructor; assumption|].
      constructor; [exact E|]. eapply Forall_impl; [|exact Hy].
      intros w Hw. eapply zone_ge_trans; eassumption.
    + apply key_lt_false_ge in E. constructor; [apply IH, Ht|].
      apply Forall_forall. intros w Hw. apply insert_desc_In in Hw as [->|Hw]; [exact E|].
      eapply Forall_forall; eassumption.
Qed.

Lemma sort_zones_desc_props (zones acc : list Zone) :
  StronglySorted zone_ge acc ->
  StronglySorted zone_ge (fold_left (fun acc z => insert_desc z acc) zones acc) /\
  (forall w, In w (fold_left (fun acc z => insert_desc z acc) zones acc) <-> In w zones \/ In w acc).
Proof.
  revert acc; induction zones as [|z t IH]; intros acc Hs; cbn.
  - split; [exact Hs | tauto].
  - destruct (IH (insert_desc z acc) (insert_desc_sorted z acc Hs)) as [H1 H2].
    split; [exact H1|]. intros w. rewrite H2, insert_desc_In. intuition congruence.
Qed.

Lemma StronglySorted_snoc {A} (R : A -> A -> Prop) (l : list A) (z : A) :
  StronglySorted R l -> (forall k, In k l -> R k z) -> StronglySorted R (l ++ [z]).
Proof.
  induction l as [|y t IH]; intros Hs Hk; cbn.
  - constructor; constructor.
  - apply StronglySorted_inv in Hs as [Ht Hy]. constructor.
    + apply IH; [exact Ht | intros k Hin; apply Hk; now right].
    + apply Forall_app; split; [exact Hy|]. constructor; [apply Hk; now left | constructor].
Qed.

Lemma ForallOrdPairs_snoc {A} (P : A -> A -> Prop) (l : list A) (z : A) :
  ForallOrdPairs P l -> (forall k, In k l -> P k z) -> ForallOrdPairs P (l ++ [z]).
Proof.
  induction l as [|y t IH]; intros Hs Hk; cbn.
  - constructor; constructor.
  - inversion Hs as [|y' t' Hy Ht]; subst. constructor.
    + apply Forall_app; split; [exact Hy|]. constructor; [apply Hk; now left | constructor].
    + apply IH; [exact Ht | intros k Hin; apply Hk; now right].
Qed.

Lemma greedy_props (l kept : list Zone) :
  StronglySorted zone_ge l -> StronglySorted zone_ge kept -> ForallOrdPairs no_overlap kept ->
  (forall k w, In k kept -> In w l -> zone_ge k w) ->
  let out := fold_left (fun filtered zone =>
               if existsb (fun existing => overlaps_with zone existing) filtered
               then filtered else filtered ++ [zone]) l kept in
  StronglySorted zone_ge out /\ ForallOrdPairs no_overlap out /\
  (forall k, In k kept -> In k out) /\ (forall w, In w out -> In w kept \/ In w l) /\
  (forall z, In z l -> In z out \/ exists k, In k out /\ overlaps_with z k = true /\ zone_ge k z).
Proof.
  revert kept; induction l as [|z t IH]; intros kept Hl Hs Hno Hge; cbn.
  - repeat split; auto; intros z [].
  - apply StronglySorted_inv in Hl as [Ht Hz].
    destruct (existsb (fun existing => overlaps_with z existing) kept) eqn:E.
    + destruct (IH kept Ht Hs Hno (fun k w Hk Hw => Hge k w Hk (or_intror Hw)))
        as (H1 & H2 & H3 & H4 & H5).
      repeat split; auto.
      * intros w Hw. destruct (H4 w Hw); auto.
      * intros y [<-|Hy]; [|auto]. right.
        apply existsb_exists in E as [k [Hk Hov]].
        exists k. split; [now apply H3|]. split; [exact Hov|]. apply Hge; [exact Hk | now left].
    + assert (Hnz : forall k, In k kept -> overlaps_with k z = false).
      { intros k Hk. rewrite overlaps_with_sym. destruct (overlaps_with z k) eqn:Ov; [|reflexivity].
        assert (existsb (fun existing => overlaps_with z existing) kept = true)
          by (apply existsb_exists; eauto). congruence. }
      assert (Hs' : StronglySorted zone_ge (kept ++ [z])).
      { apply StronglySorted_snoc; [exact Hs|]. intros k Hk. apply Hge; [exact Hk | now left]. }
      assert (Hno' : ForallOrdPairs no_overlap (kept ++ [z])) by (apply ForallOrdPairs_snoc; auto).
      assert (Hge' : forall k w, In k (kept ++ [z]) -> In w t -> zone_ge k w).
      { intros k w Hk Hw. apply in_app_or in Hk as [Hk|[<-|[]]].
        - apply Hge; [exact Hk | now right].
        - eapply Forall_forall; eassumption. }
      destruct (IH (kept ++ [z]) Ht Hs' Hno' Hge') as (H1 & H2 & H3 & H4 & H5).
      repeat split; auto.
      * intros k Hk. apply H3, in_or_app. now left.
      * intros w Hw. destruct (H4 w Hw) as [Hw'|Hw'].
        -- apply in_app_or in Hw' as [Hw'|[<-|[]]]; auto.
        -- auto.
      * intros y [<-|Hy]; [|auto]. left. apply H3, in_or_app. right. now left.
Qed.

(** C4 (counterexample): two overlapping zones of equal strength, originated at
    candles 1 and 2. Whatever their input order, [filter_overlapping_zones]
    keeps the OLDER one (origin 1), not the most recent one. *)
Lemma filter_overlapping_keeps_oldest :
  overlaps_with older_zone newer_zone = true /\
  strength older_zone = strength newer_zone /\
  origin_candle_index older_zone < origin_candle_index newer_zone /\
  filter_overlapping_zones [older_zone; newer_zone] = [older_zone] /\
  filter_overlapping_zones [newer_zone; older_zone] = [older_zone].
Proof. vm_compute. repeat split; reflexivity. Qed.

(** C4 (amended): the output of [filter_overlapping_zones] has no two
    overlapping zones, is ordered by strength rank descending and, within a
    rank, by origin index ascending (oldest first), contains only input zones,
    and every input zone is either kept or overlaps a kept zone that comes no
    later than it in that order (the strongest, then OLDEST, representative). *)
Theorem filter_overlapping_zones_spec (zones : list Zone) :
  ForallOrdPairs (fun a b => overlaps_with a b = false) (filter_overlapping_zones zones) /\
  StronglySorted zone_ge (filter_overlapping_zones zones) /\
  (forall z, In z (filter_overlapping_zones zones) -> In z zones) /\
  (forall z, In z zones ->
     In z (filter_overlapping_zones zones) \/
     exists k, In k (filter_overlapping_zones zones) /\ overlaps_with z k = true /\ zone_ge k z).
Proof.
  unfold filter_overlapping_zones.
  destruct (Nat.leb_spec (List.length zones) 1) as [Hle|Hgt].
  - assert (Hs : StronglySorted zone_ge zones /\
                 ForallOrdPairs (fun a b => overlaps_with a b = false) zones).
    { destruct zones as [|a [|b t]]; cbn in Hle; [| |lia];
        split; repeat constructor. }
    destruct Hs as [Hs Hp]. repeat split; auto.
  - destruct (sort_zones_desc_props zones [] (SSorted_nil _)) as [Hs Hin].
    fold (sort_zones_desc zones) in Hs, Hin.
    destruct (greedy_props (sort_zones_desc zones) [] Hs (SSorted_nil _) (FOP_nil _)
                (fun k w Hk _ => match Hk with end)) as (H1 & H2 & H3 & H4 & H5).
    unfold keep_non_overlapping. repeat split.
    + exact H2.
    + exact H1.
    + intros z Hz. destruct (H4 z Hz) as [[]|Hz']. apply Hin in Hz' as [Hz'|[]]. exact Hz'.
    + intros z Hz. apply H5, Hin. now left.
Qed.

(** Witness for C4: on the two zones of the counterexample, the kept zone is
    the older one. *)
Lemma filter_overlapping_zones_spec_witness :
  filter_overlapping_zones [newer_zone; older_zone] = [older_zone] /\
  StronglySorted zone_ge (filter_overlapping_zones [newer_zone; older_zone]).
Proof.
  split; [vm_compute; reflexivity|].
  apply (filter_overlapping_zones_spec [newer_zone; older_zone]).
Defined.

(** ** C3: no pending setups *)

Lemma keeps_ret {A} (a : A) : keeps_pending (mret a).
Proof. intros w s. reflexivity. Qed.

Lemma keeps_bind {A B} (c : M A) (k : A -> M B) :
  keeps_pending c -> (forall a, keeps_pending (k a)) -> keeps_pending (mbind c k).
Proof.
  intros Hc Hk w s. unfold mbind. specialize (Hc w s).
  destruct (c w s) as [[a|e] s']; cbn in *; [rewrite Hk|]; exact Hc.
Qed.

Lemma keeps_lift_bind {A B} (r : res A) (k : A -> M B) :
  (forall a, r = Ok a -> keeps_pending (k a)) -> keeps_pending (mbind (lift r) k).
Proof. intros Hk w s. unfold mbind, lift. destruct r as [a|e]; [now apply Hk | reflexivity]. Qed.

Lemma keeps_time : keeps_pending time_time.
Proof. intros w s. reflexivity. Qed.

Lemma keeps_uuid : keeps_pending uuid4_hex.
Proof. intros w s. reflexivity. Qed.

Lemma keeps_push_signal (x : StrategySignal) : keeps_pending (push_signal x).
Proof. intros w s. reflexivity. Qed.

Lemma keeps_lift {A} (r : res A) : keeps_pending (lift r).
Proof. intros w s. reflexivity. Qed.

Create HintDb keeps.
#[local] Hint Resolve keeps_ret keeps_time keeps_uuid keeps_push_signal keeps_lift : keeps.

Ltac keeps_auto :=
  repeat (apply keeps_bind; [|intro]); auto with keeps.

Lemma keeps_build_signal strat inst er h4 mzr rr tf sps :
  keeps_pending (_build_signal strat inst er h4 mzr rr tf sps).
Proof.
  unfold _build_signal. destruct (setup er); [|apply keeps_lift].
  unfold create_signal_id, calculate_expiry_time. keeps_auto.
Qed.

Lemma keeps_early_result strat t : keeps_pending (early_result strat t).
Proof. unfold early_result. keeps_auto. Qed.

Lemma zone_loop_keeps_pending strat inst h4 mzr tf sps zones :
  min_confidence (base_config strat) <= 60 ->
  keeps_pending (zone_loop strat inst h4 mzr tf sps zones).
Proof.
  intros Hmin. induction zones as [|z zs IH]; cbn [zone_loop]; [apply keeps_ret|].
  apply keeps_lift_bind; intros rr _.
  apply keeps_lift_bind; intros er Her.
  apply keeps_bind; [|intros; exact IH].
  destruct (has_valid_entry er) eqn:Hv; cbn [negb].
  - destruct (detect_entry_accepts _ _ _ _ _ _ Her Hv)
      as (lc & s & Hacc).
    destruct Hacc as (_ & Hs & Hacc). destruct Hacc as (_ & _ & _ & _ & _ & Hc & _).

    rewrite Hs, (proj2 (Z.leb_le _ _)) by lia.
    apply keeps_bind; [apply keeps_build_signal | intros; apply keeps_push_signal].
  - rewrite (detect_entry_rejects _ _ _ _ _ _ Her Hv). apply keeps_ret.
Qed.

Lemma analyze_body_keeps_pending strat inst t :
  min_confidence (base_config strat) <= 60 -> keeps_pending (analyze_body strat inst t).
Proof.
  intros Hmin. unfold analyze_body.
  apply keeps_lift_bind; intros tf _.
  destruct (negb _); [apply keeps_bind; [apply keeps_early_result | intros; apply keeps_ret]|].
  apply keeps_lift_bind; intros sps _.
  apply keeps_lift_bind; intros mzr _.
  destruct (tradable_zones mzr).
  - apply keeps_bind; [apply keeps_early_result | intros; apply keeps_ret].
  - apply keeps_bind; [apply zone_loop_keeps_pending, Hmin | intros; apply keeps_ret].
Qed.

Lemma returns_bind {A B} (Q : A -> Prop) (P : B -> Prop) (c : M A) (k : A -> M B) :
  returns Q c -> (forall a, Q a -> returns P (k a)) -> returns P (mbind c k).
Proof.
  intros Hc Hk w s. unfold mbind. specialize (Hc w s).
  destruct (c w s) as [[a|e] s']; cbn in *; [apply Hk, Hc | exact I].
Qed.

Lemma returns_any {A} (c : M A) : returns (fun _ => True) c.
Proof. intros w s. destruct (fst (c w s)); exact I. Qed.

Lemma returns_ret {A} (P : A -> Prop) (a : A) : P a -> returns P (mret a).
Proof. intros Ha w s. exact Ha. Qed.

Lemma returns_early_result strat t :
  returns (fun r => pending_setups r = []) (early_result strat t).
Proof. intros w s. reflexivity. Qed.

Lemma analyze_body_early_no_pending strat inst t :
  returns (fun o => match o with Some r => pending_setups r = [] | None => True end)
    (analyze_body strat inst t).
Proof.
  unfold analyze_body.
  apply (returns_bind _ _ _ _ (returns_any _)); intros tf _.
  destruct (negb _).
  { apply (returns_bind _ _ _ _ (returns_early_result strat t)); intros r Hr.
    now apply returns_ret. }
  apply (returns_bind _ _ _ _ (returns_any _)); intros sps _.
  apply (returns_bind _ _ _ _ (returns_any _)); intros mzr _.
  destruct (tradable_zones mzr).
  - apply (returns_bind _ _ _ _ (returns_early_result strat t)); intros r Hr.
    now apply returns_ret.
  - apply (returns_bind _ _ _ _ (returns_any _)); intros.
    now apply returns_ret.
Qed.

(** C3: with the shipped [SMC_CONFIG] (min_confidence 60), and whatever the
    clarity configuration, instrument and world, [analyze] returns normally
    and its [pending_setups] list is empty. *)
Theorem analyze_no_pending_setups (cfg : option SMCClarityConfig) (inst : InstrumentData)
  (w : World) :
  exists r, run_analyze (SMCStrategy_new cfg) inst w = Ok r /\ pending_setups r = [].
Proof.
  assert (Hmin : min_confidence (base_config (SMCStrategy_new cfg)) <= 60)
    by (cbn; lia).
  unfold run_analyze, analyze, mbind, try_, time_time, get_st, mret.
  match goal with |- context [analyze_body ?a ?b ?c ?d ?e] =>
    pose proof (analyze_body_keeps_pending a b c Hmin d e) as Hk;
    pose proof (analyze_body_early_no_pending a b c d e) as Hr;
    destruct (analyze_body a b c d e) as [rb s2]
  end.
  cbn [fst snd] in Hk, Hr.
  destruct rb as [o|e]; [destruct o as [early|]|]; cbv beta iota; cbn [fst];
    eexists; split; try reflexivity; cbn; assumption.
Qed.

(** ** C2: reproducibility *)

Lemma agree_bind {A B} (RA : A -> A -> Prop) (RB : B -> B -> Prop) c1 c2 k1 k2 :
  agree RA c1 c2 -> (forall a b, RA a b -> agree RB (k1 a) (k2 b)) ->
  agree RB (mbind c1 k1) (mbind c2 k2).
Proof.
  intros Hc Hk w1 w2 s1 s2 Hs. specialize (Hc w1 w2 s1 s2 Hs). unfold mbind.
  destruct (c1 w1 s1) as [[a|e1] s1'], (c2 w2 s2) as [[b|e2] s2'];
    cbn in *; destruct Hc as [Hr Hs']; try contradiction.
  - apply Hk; assumption.
  - split; assumption.
Qed.

Lemma agree_ret {A} (R : A -> A -> Prop) a b : R a b -> agree R (mret a) (mret b).
Proof. intros H w1 w2 s1 s2 Hs. split; assumption. Qed.

Lemma agree_lift {A} (R : A -> A -> Prop) (r : res A) :
  (forall a, R a a) -> agree R (lift r) (lift r).
Proof. intros HR w1 w2 s1 s2 Hs. split; [destruct r; cbn; auto | exact Hs]. Qed.

Lemma agree_lift_eq {A} (r : res A) : agree eq (lift r) (lift r).
Proof. apply agree_lift. reflexivity. Qed.

Lemma agree_time : agree (fun _ _ => True) time_time time_time.
Proof. intros w1 w2 s1 s2 Hs. split; [exact I | exact Hs]. Qed.

Lemma agree_uuid : agree (fun _ _ => True) uuid4_hex uuid4_hex.
Proof. intros w1 w2 s1 s2 Hs. split; [exact I | exact Hs]. Qed.

Lemma agree_push_signal x1 x2 :
  erase_signal x1 = erase_signal x2 -> agree (fun _ _ => True) (push_signal x1) (push_signal x2).
Proof.
  intros Hx w1 w2 s1 s2 [Hsig Hp]. split; [exact I|].
  unfold st_rel; cbn. rewrite !map_app, Hsig. cbn [map]. rewrite Hx. split; [reflexivity | exact Hp].
Qed.

Lemma agree_push_pending x : agree (fun _ _ => True) (push_pending x) (push_pending x).
Proof.
  intros w1 w2 s1 s2 [Hsig Hp]. split; [exact I|].
  unfold st_rel; cbn. rewrite Hp. split; [exact Hsig | reflexivity].
Qed.

Lemma agree_get_st : agree st_rel get_st get_st.
Proof. intros w1 w2 s1 s2 Hs. split; exact Hs. Qed.

Lemma agree_try {A} (R : A -> A -> Prop) c1 c2 :
  agree R c1 c2 -> agree (res_rel R) (try_ c1) (try_ c2).
Proof.
  intros Hc w1 w2 s1 s2 Hs. specialize (Hc w1 w2 s1 s2 Hs). unfold try_.
  destruct (c1 w1 s1) as [r1 s1'], (c2 w2 s2) as [r2 s2']. exact Hc.
Qed.

Lemma agree_create_signal_id strat :
  agree (fun a b => sid_strategy a = sid_strategy b) (create_signal_id strat) (create_signal_id strat).
Proof.
  unfold create_signal_id.
  apply (agree_bind _ _ _ _ _ _ agree_time); intros t1 t2 _.
  apply (agree_bind _ _ _ _ _ _ agree_uuid); intros h1 h2 _.
  apply agree_ret. reflexivity.
Qed.

Lemma agree_expiry (hours : Q) :
  agree (fun _ _ => True) (calculate_expiry_time hours) (calculate_expiry_time hours).
Proof.
  unfold calculate_expiry_time.
  apply (agree_bind _ _ _ _ _ _ agree_time); intros t1 t2 _.
  apply agree_ret. exact I.
Qed.

Lemma agree_build_signal strat inst er h4 mzr rr tf sps :
  agree (fun a b => erase_signal a = erase_signal b)
    (_build_signal strat inst er h4 mzr rr tf sps) (_build_signal strat inst er h4 mzr rr tf sps).
Proof.
  unfold _build_signal. destruct (setup er) as [s|]; [|apply agree_lift; reflexivity].
  apply (agree_bind _ _ _ _ _ _ (agree_create_signal_id strat)); intros id1 id2 Hid.
  apply (agree_bind _ _ _ _ _ _ agree_time); intros t1 t2 _.
  apply (agree_bind _ _ _ _ _ _ (agree_expiry 4)); intros e1 e2 _.
  apply agree_ret. unfold erase_signal; cbn. rewrite Hid. reflexivity.
Qed.

Lemma agree_zone_loop strat inst h4 mzr tf sps zones :
  agree (fun _ _ => True) (zone_loop strat inst h4 mzr tf sps zones)
    (zone_loop strat inst h4 mzr tf sps zones).
Proof.
  induction zones as [|z zs IH]; cbn [zone_loop]; [apply agree_ret; exact I|].
  apply (agree_bind _ _ _ _ _ _ (agree_lift_eq _)); intros rr ? <-.
  apply (agree_bind _ _ _ _ _ _ (agree_lift_eq _)); intros er ? <-.
  apply (agree_bind (fun _ _ => True)); [|intros; exact IH].
  destruct (negb (has_valid_entry er)), (setup er) as [s|];
    try (apply agree_ret; exact I).
  - destruct (40 <=? confidence s); [apply agree_push_pending | apply agree_ret; exact I].
  - destruct (min_confidence (base_config strat) <=? confidence s).
    + apply (agree_bind _ _ _ _ _ _ (agree_build_signal _ _ _ _ _ _ _ _)); intros x1 x2 Hx.
      apply agree_push_signal, Hx.
    + destruct (50 <=? confidence s); [apply agree_push_pending | apply agree_ret; exact I].
Qed.

Lemma agree_early_result strat t1 t2 :
  agree (fun a b => erase_result a = erase_result b) (early_result strat t1) (early_result strat t2).
Proof.
  unfold early_result.
  apply (agree_bind _ _ _ _ _ _ agree_time); intros u1 u2 _.
  apply agree_ret. reflexivity.
Qed.

Lemma agree_analyze_body strat inst t1 t2 :
  agree (fun o1 o2 => option_map erase_result o1 = option_map erase_result o2)
    (analyze_body strat inst t1) (analyze_body strat inst t2).
Proof.
  unfold analyze_body.
  apply (agree_bind _ _ _ _ _ _ (agree_lift_eq _)); intros tf ? <-.
  destruct (negb _).
  { apply (agree_bind _ _ _ _ _ _ (agree_early_result strat t1 t2)); intros r1 r2 Hr.
    apply agree_ret. cbn. now rewrite Hr. }
  apply (agree_bind _ _ _ _ _ _ (agree_lift_eq _)); intros sps ? <-.
  apply (agree_bind _ _ _ _ _ _ (agree_lift_eq _)); intros mzr ? <-.
  destruct (tradable_zones mzr).
  - apply (agree_bind _ _ _ _ _ _ (agree_early_result strat t1 t2)); intros r1 r2 Hr.
    apply agree_ret. cbn. now rewrite Hr.
  - apply (agree_bind _ _ _ _ _ _ (agree_zone_loop _ _ _ _ _ _ _)); intros.
    apply agree_ret. reflexivity.
Qed.

Lemma agree_analyze strat inst :
  agree (fun a b => erase_result a = erase_result b) (analyze strat inst) (analyze strat inst).
Proof.
  unfold analyze.
  apply (agree_bind _ _ _ _ _ _ agree_time); intros t1 t2 _.
  apply (agree_bind _ _ _ _ _ _ (agree_try _ _ _ (agree_analyze_body strat inst t1 t2)));
    intros r1 r2 Hr.
  destruct r1 as [[e1|]|x1], r2 as [[e2|]|x2]; cbn in Hr; try discriminate; try contradiction.
  - apply agree_ret. congruence.
  - apply (agree_bind _ _ _ _ _ _ agree_time); intros u1 u2 _.
    apply (agree_bind _ _ _ _ _ _ agree_get_st); intros s1 s2 [Hsig Hp].
    apply agree_ret. unfold erase_result; cbn. now rewrite Hsig, Hp.
  - subst x2.
    apply (agree_bind _ _ _ _ _ _ agree_time); intros u1 u2 _.
    apply (agree_bind _ _ _ _ _ _ agree_get_st); intros s1 s2 [Hsig Hp].
    apply agree_ret. unfold erase_result; cbn. now rewrite Hsig, Hp.
Qed.

(** C2 (counterexample): the same strategy on the same instrument, run in two
    worlds whose clocks differ, returns different results: an immediate early
    return reports [analysis_time_ms] 0 in one and 1000 in the other. *)
Lemma analyze_not_reproducible :
  ~ (forall w1 w2 : World,
       run_analyze (SMCStrategy_new None) empty_instrument w1 =
       run_analyze (SMCStrategy_new None) empty_instrument w2).
Proof.
  intros H. specialize (H still_world busy_world). vm_compute in H. discriminate H.
Qed.

(** C2 (amended): for a fixed strategy and instrument, any two runs of
    [analyze] (in any two worlds, i.e. whatever [time.time()] and [uuid4]
    return) give the same result once [analysis_time_ms] and each signal's
    id time/hex parts, [created_at] and [expires_at] are blanked: signals,
    pending setups, errors and every entry, stop and target field coincide. *)
Theorem analyze_deterministic_up_to_clock (strat : SMCStrategy) (inst : InstrumentData)
  (w1 w2 : World) :
  erase_run (run_analyze strat inst w1) = erase_run (run_analyze strat inst w2).
Proof.
  unfold run_analyze.
  destruct (agree_analyze strat inst w1 w2 init_st init_st (conj eq_refl eq_refl)) as [Hr _].
  destruct (fst (analyze strat inst w1 init_st)), (fst (analyze strat inst w2 init_st));
    cbn in *; try contradiction; congruence.
Qed.

(** Witness for C2: the two runs of the counterexample differ, yet agree once
    the clock-derived fields are blanked. *)
Lemma analyze_deterministic_up_to_clock_witness :
  run_analyze (SMCStrategy_new None) empty_instrument still_world <>
  run_analyze (SMCStrategy_new None) empty_instrument busy_world /\
  erase_run (run_analyze (SMCStrategy_new None) empty_instrument still_world) =
  erase_run (run_analyze (SMCStrategy_new None) empty_instrument busy_world).
Proof.
  split.
  - intros H. vm_compute in H. discriminate H.
  - apply (analyze_deterministic_up_to_clock (SMCStrategy_new None) empty_instrument
             still_world busy_world).
Defined.

(* ------------------------------------------------------------------ *)
(** ** Further properties of the scanner *)

Lemma qle_true (x y : Q) : qle x y = true -> (x <= y)%Q.
Proof. unfold qle. apply Qle_bool_iff. Qed.
Lemma qle_false (x y : Q) : qle x y = false -> (y < x)%Q.
Proof. unfold qle. intros H. apply Qnot_le_lt. intros Hl. apply Qle_bool_iff in Hl. congruence. Qed.
Lemma qle_iff (x y : Q) : qle x y = true <-> (x <= y)%Q.
Proof. unfold qle. apply Qle_bool_iff. Qed.
Lemma qlt_iff (x y : Q) : qlt x y = true <-> (x < y)%Q.
Proof.
  split; [apply qlt_true|]. intros H. destruct (qlt x y) eqn:E; [reflexivity|].
  apply qlt_false in E. lra.
Qed.

Ltac qcase :=
  repeat match goal with
  | |- context [qlt ?x ?y] =>
      let E := fresh "E" in
      destruct (qlt x y) eqn:E; [apply qlt_true in E | apply qlt_false in E]
  | |- context [qle ?x ?y] =>
      let E := fresh "E" in
      destruct (qle x y) eqn:E; [apply qle_true in E | apply qle_false in E]
  end.


(** X2: for a candle whose open and close lie between its low and high, the body ratio lies in [0, 1]. *)
Theorem body_ratio_bounds (c : Candle) :
  well_formed_candle c -> (0 <= body_ratio c <= 1)%Q.
Proof.
  intros [[H1 H2] [H3 H4]]. unfold body_ratio, total_range, body_size, qeq.
  destruct (Qeq_bool (high c - low c) 0) eqn:E; [lra|].
  assert (Hpos : (0 < high c - low c)%Q).
  { destruct (Qlt_le_dec 0 (high c - low c)) as [h|h]; [exact h|].
    assert (high c - low c == 0)%Q by lra. apply Qeq_bool_iff in H. congruence. }
  assert (Hb : (0 <= Qabs (close c - open c) <= high c - low c)%Q).
  { split; [apply Qabs_nonneg|]. apply Qabs_case; intros; lra. }
  split.
  - apply Qle_shift_div_l; [exact Hpos|]. lra.
  - apply Qle_shift_div_r; [exact Hpos|]. lra.
Qed.

Lemma body_ratio_bounds_witness :
  well_formed_candle (candle_at 0 1 (12#10) (9#10) (11#10)) /\
  (0 <= body_ratio (candle_at 0 1 (12#10) (9#10) (11#10)) <= 1)%Q.
Proof.
  split; [|apply body_ratio_bounds]; unfold well_formed_candle; cbn; lra.
Defined.


(** X3: for zones with bottom at most top, [overlaps_with] holds exactly when some price lies in both zones. *)
Theorem overlaps_with_common_price (a b : Zone) :
  well_formed_zone a -> well_formed_zone b ->
  overlaps_with a b = true <->
  exists p, price_in_zone a p = true /\ price_in_zone b p = true.
Proof.
  unfold well_formed_zone, overlaps_with, price_in_zone. intros Ha Hb. split.
  - intros H. apply negb_true_iff, orb_false_iff in H as [H1 H2].
    apply qlt_false in H1. apply qlt_false in H2.
    exists (if qle (bottom_price a) (bottom_price b) then bottom_price b else bottom_price a).
    destruct (qle (bottom_price a) (bottom_price b)) eqn:E;
      [apply qle_true in E | apply qle_false in E];
      rewrite !andb_true_iff, !qle_iff; lra.
  - intros (p & Hpa & Hpb). rewrite andb_true_iff, !qle_iff in Hpa, Hpb.
    apply negb_true_iff, orb_false_iff. qcase; split; auto; lra.
Qed.

Lemma overlaps_with_common_price_witness :
  well_formed_zone older_zone /\ well_formed_zone newer_zone /\
  (overlaps_with older_zone newer_zone = true <->
   exists p, price_in_zone older_zone p = true /\ price_in_zone newer_zone p = true).
Proof.
  split; [|split]; [| |apply overlaps_with_common_price]; unfold well_formed_zone; cbn; lra.
Defined.

(** X4: with a positive maximum age and a zone created no later than the current time, the freshness score lies in [0, 1]. *)
Theorem freshness_score_bounds (z : Zone) (current_timestamp : Z) (max_age_hours : Q) :
  (0 < max_age_hours)%Q -> created_at z <= current_timestamp ->
  (0 <= freshness_score z current_timestamp max_age_hours <= 1)%Q.
Proof.
  intros Hm Hc. unfold freshness_score.
  assert (Hage : (0 <= get_age_hours z current_timestamp)%Q).
  { unfold get_age_hours. destruct (created_at z =? 0); [lra|].
    apply Qle_shift_div_l; [reflexivity|].
    rewrite Qmult_0_l. change 0%Q with (inject_Z 0). rewrite <- Zle_Qle. lia. }
  revert Hage. generalize (get_age_hours z current_timestamp).
  intros age Hage. qcase; [lra|]. split.
  - assert (age / max_age_hours <= 1)%Q by (apply Qle_shift_div_r; lra). lra.
  - assert (0 <= age / max_age_hours)%Q by (apply Qle_shift_div_l; lra). lra.
Qed.

Lemma freshness_score_bounds_witness :
  (0 < 168)%Q /\ created_at scenD_zone <= 1700003600000 /\
  (0 <= freshness_score scenD_zone 1700003600000 168 <= 1)%Q.
Proof.
  split; [|split]; [| |apply freshness_score_bounds]; cbn; (lra || lia).
Defined.
Lemma fold_m_inv {A B} (P : B -> Prop) (f : B -> A -> res B) (l : list A) (b r : B) :
  P b -> (forall b a b', In a l -> P b -> f b a = Ok b' -> P b') ->
  fold_m f l b = Ok r -> P r.
Proof.
  revert b; induction l as [|a t IH]; intros b Hb Hf H; cbn in H.
  - injection H as <-. exact Hb.
  - destruct (f b a) as [b'|e] eqn:E; cbn in H; [|discriminate].
    apply (IH b'); [eapply Hf; eauto; now left | intros; eapply Hf; eauto; now right | exact H].
Qed.

Lemma fold_m_total {A B} (f : B -> A -> res B) (l : list A) (b : B) :
  (forall b a, In a l -> exists b', f b a = Ok b') -> exists r, fold_m f l b = Ok r.
Proof.
  revert b; induction l as [|a t IH]; intros b Hf; cbn; [eauto|].
  destruct (Hf b a (or_introl eq_refl)) as [b' ->]. cbn.
  apply IH. intros; apply Hf; now right.
Qed.

Lemma fold_m_err {A B} (f : B -> A -> res B) (l : list A) (b : B) (e : exn) :
  (forall b a e', f b a = Err e' -> e' = e) ->
  (exists a, In a l /\ forall b, f b a = Err e) ->
  fold_m f l b = Err e.
Proof.
  intros He (a & Ha & Hfa). revert b; induction l as [|x t IH]; intros b; [destruct Ha|].
  cbn. destruct Ha as [->|Ha].
  - rewrite Hfa. reflexivity.
  - destruct (f b x) as [b'|e'] eqn:E; cbn; [apply IH, Ha|]. f_equal. eapply He; eauto.
Qed.

Lemma in_range (a b k : Z) : In k (Py.range a b) <-> a <= k < b.
Proof.
  unfold Py.range. rewrite in_map_iff. split.
  - intros (n & <- & Hn). apply in_seq in Hn. lia.
  - intros Hk. exists (Z.to_nat (k - a)). split; [lia|]. apply in_seq. lia.
Qed.

Lemma index_in_bounds {A} (l : list A) (k : Z) :
  0 <= k < zlen l -> exists a, Py.index l k = Ok a /\ nth_error l (Z.to_nat k) = Some a.
Proof.
  intros Hk. unfold Py.index, zlen in *.
  destruct (Z.ltb_spec k 0); [lia|].
  destruct (Z.ltb_spec k 0); [lia|]. destruct (Z.leb_spec (Z.of_nat (List.length l)) k); [lia|].
  cbn. destruct (nth_error l (Z.to_nat k)) eqn:E; [eauto|].
  apply nth_error_None in E. lia.
Qed.

Lemma index_err {A} (l : list A) (k : Z) (e : exn) : Py.index l k = Err e -> e = IndexError.
Proof.
  unfold Py.index. destruct (_ || _); [congruence|].
  destruct nth_error; congruence.
Qed.

Lemma index_at_length {A} (l : list A) : Py.index l (zlen l) = Err IndexError.
Proof.
  unfold Py.index, zlen. destruct (Z.ltb_spec (Z.of_nat (List.length l)) 0); [lia|].
  rewrite Z.leb_refl, orb_true_r. reflexivity.
Qed.

Lemma swing_flags_total (candles : list Candle) (i lookback : Z) :
  0 <= lookback -> lookback <= i < zlen candles - lookback ->
  exists fl, swing_flags candles i lookback = Ok fl.
Proof.
  intros Hlb Hi. unfold swing_flags. apply fold_m_total. intros st j Hj.
  apply in_range in Hj.
  destruct (index_in_bounds candles i) as (ci & Hci & _); [lia|].
  destruct (index_in_bounds candles (i - j)) as (cm & Hcm & _); [lia|].
  destruct (index_in_bounds candles (i + j)) as (cp & Hcp & _); [lia|].
  rewrite Hci, Hcm. cbn [bind].
  destruct (qle (high ci) (high cm)); cbn [bind]; rewrite ?Hcp; cbn [bind];
  destruct (qle (low cm) (low ci)); cbn [bind]; rewrite ?Hcp; cbn [bind]; eauto.
Qed.

(** X5: with a non-negative lookback, [detect_swing_points] succeeds; every swing point is unclassified, has an index in [lookback, len - lookback), and takes its price (high or low) and timestamp from the candle at that index. *)
Theorem detect_swing_points_total (candles : list Candle) (lookback : Z) :
  0 <= lookback ->
  exists sps, detect_swing_points candles lookback = Ok sps /\
    Forall (fun s => swing_type s = None /\ lookback <= index s < zlen candles - lookback /\
              exists c, Py.index candles (index s) = Ok c /\
                price s = (if is_high s then high c else low c) /\
                sp_timestamp s = timestamp c) sps.
Proof.
  intros Hlb. unfold detect_swing_points.
  destruct (zlen candles <? lookback * 2 + 1) eqn:Hlen; [exists []; split; [reflexivity | constructor]|].
  apply Z.ltb_ge in Hlen.
  set (P := fun sps : list SwingPoint => Forall (fun s => swing_type s = None /\
              lookback <= index s < zlen candles - lookback /\
              exists c, Py.index candles (index s) = Ok c /\
                price s = (if is_high s then high c else low c) /\
                sp_timestamp s = timestamp c) sps).
  match goal with |- exists sps, fold_m ?f ?l ?b = Ok sps /\ _ =>
    assert (Ht : exists r, fold_m f l b = Ok r);
    [apply fold_m_total; intros acc i Hi; apply in_range in Hi|];
    [|destruct Ht as [r Hr]; exists r; split; [exact Hr|];
      apply (fold_m_inv P f l b r (Forall_nil _)); [|exact Hr]] end.
  - destruct (swing_flags_total candles i lookback Hlb Hi) as [fl Hfl].
    destruct (index_in_bounds candles i) as (ci & Hci & _); [lia|].
    rewrite Hfl. cbn [bind]. destruct (fst fl); rewrite ?Hci; cbn [bind];
      destruct (snd fl); rewrite ?Hci; cbn [bind]; eauto.
  - intros acc i acc' Hi Hacc Hstep. apply in_range in Hi.
    destruct (swing_flags candles i lookback) as [fl|] eqn:Hfl; cbn [bind] in Hstep; [|discriminate].
    destruct (index_in_bounds candles i) as (ci & Hci & _); [lia|].
    rewrite Hci in Hstep. cbn [bind] in Hstep.
    unfold P in *.
    destruct (fst fl), (snd fl); cbn [bind] in Hstep; injection Hstep as <-;
      repeat (apply Forall_app; split); auto;
      repeat constructor; cbn; try lia; exists ci; auto.
Qed.

Lemma detect_swing_points_total_witness :
  0 <= 2 /\
  exists sps, detect_swing_points demo_candles 2 = Ok sps /\
    Forall (fun s => swing_type s = None /\ 2 <= index s < zlen demo_candles - 2 /\
              exists c, Py.index demo_candles (index s) = Ok c /\
                price s = (if is_high s then high c else low c) /\
                sp_timestamp s = timestamp c) sps.
Proof.
  split; [lia | apply detect_swing_points_total; lia].
Defined.
Lemma fold_m_err_only {A B} (f : B -> A -> res B) (l : list A) (b : B) (E e : exn) :
  (forall b a e, In a l -> f b a = Err e -> e = E) -> fold_m f l b = Err e -> e = E.
Proof.
  revert b; induction l as [|a t IH]; intros b Hf H; cbn in H; [discriminate|].
  destruct (f b a) as [b'|e'] eqn:Ef; cbn in H.
  - eapply IH; [intros; eapply Hf; [right|]; eauto | exact H].
  - injection H as <-. eapply Hf; [left|]; eauto.
Qed.

Ltac index_errors :=
  repeat match goal with
         | E : (if _ then _ else _) = Err _ |- _ => split_res E
         | E : bind _ _ = Err _ |- _ => split_res E
         | E : Err _ = Err _ |- _ => injection E as <-
         | E : Py.index _ _ = Err _ |- _ => apply index_err in E; subst
         end.

Lemma swing_flags_err (candles : list Candle) (i lookback : Z) (e : exn) :
  swing_flags candles i lookback = Err e -> e = IndexError.
Proof.
  unfold swing_flags. apply fold_m_err_only. intros st j e' _ He.
  split_res He; try (injection He as <-); index_errors; reflexivity.
Qed.

(** X6: with a negative lookback, [detect_swing_points] raises IndexError. *)
Theorem detect_swing_points_negative_lookback (candles : list Candle) (lookback : Z) :
  lookback < 0 -> detect_swing_points candles lookback = Err IndexError.
Proof.
  intros Hlb. unfold detect_swing_points.
  destruct (Z.ltb_spec (zlen candles) (lookback * 2 + 1)); [unfold zlen in *; lia|].
  apply fold_m_err.
  - intros acc i e He. split_res He; try (injection He as <-); index_errors;
      repeat match goal with
             | E : swing_flags _ _ _ = Err _ |- _ => apply swing_flags_err in E; subst
             end; reflexivity.
  - exists (zlen candles). split; [apply in_range; unfold zlen; lia|].
    intros acc. unfold swing_flags.
    replace (Py.range 1 (lookback + 1)) with (@nil Z)
      by (unfold Py.range; replace (Z.to_nat (lookback + 1 - 1)) with 0%nat by lia; reflexivity).
    cbn [fold_m bind fst snd]. rewrite index_at_length. reflexivity.
Qed.

Lemma detect_swing_points_negative_lookback_witness :
  -1 < 0 /\ detect_swing_points demo_candles (-1) = Err IndexError.
Proof.
  split; [lia | apply detect_swing_points_negative_lookback; lia].
Defined.
Lemma in_skipn {A} (n : nat) (l : list A) (x : A) : In x (skipn n l) -> In x l.
Proof.
  revert l; induction n as [|n IH]; intros [|y t] H; cbn in *; auto.
Qed.

Lemma count_unclassified (t : SwingType) (l : list SwingPoint) :
  Forall (fun s => swing_type s = None) l -> count (has_type t) l = 0%nat.
Proof.
  intros H. unfold count. induction H as [|s l Hs _ IH]; [reflexivity|].
  cbn. unfold has_type at 1. rewrite Hs. exact IH.
Qed.

Lemma determine_trend_unclassified (candles : list Candle) (sps : list SwingPoint) :
  Forall (fun s => swing_type s = None) sps -> determine_trend candles sps = SIDEWAYS.
Proof.
  intros H. unfold determine_trend. destruct (_ <? 4)%nat; [reflexivity|].
  assert (Hr : Forall (fun s => swing_type s = None) (last_n sps 6)).
  { apply Forall_forall. intros x Hx. apply in_skipn in Hx.
    eapply Forall_forall in H; eauto. }
  rewrite !(count_unclassified _ _ Hr). reflexivity.
Qed.

Lemma detect_swing_points_unclassified (candles : list Candle) (lookback : Z) (sps : list SwingPoint) :
  detect_swing_points candles lookback = Ok sps -> Forall (fun s => swing_type s = None) sps.
Proof.
  unfold detect_swing_points. destruct (_ <? _).
  - intros H. injection H as <-. constructor.
  - apply fold_m_inv; [constructor|].
    intros acc i acc' _ Hacc Hs. split_res Hs; injection Hs as <-;
      repeat match goal with E : (if _ then _ else _) = Ok _ |- _ => split_res E end;
      repeat match goal with E : Ok _ = Ok _ |- _ => injection E as <- end;
      repeat (apply Forall_app; split); auto; repeat constructor.
Qed.

Lemma detected_swings_trend_sideways (candles : list Candle) (lookback : Z)
  (sps : list SwingPoint) :
  detect_swing_points candles lookback = Ok sps -> determine_trend candles sps = SIDEWAYS.
Proof. intros H. apply determine_trend_unclassified, (detect_swing_points_unclassified _ _ _ H). Qed.



Ltac cbn_sp := cbn [price index is_high sp_timestamp swing_size swing_type is_high_kind
                    has_type SwingType_eqb orb].

Lemma classify_from_props (st : ClassifyState) (sps : list SwingPoint) :
  Forall2 (fun sp c => price c = price sp /\ index c = index sp /\ is_high c = is_high sp /\
             sp_timestamp c = sp_timestamp sp /\ is_high_kind c = is_high sp /\
             (0 <= swing_size c)%Q) sps (classify_from st sps).
Proof.
  revert st; induction sps as [|sp t IH]; intros st; cbn; [constructor|].
  destruct (classify_step st sp) as [st' sp'] eqn:E. constructor; [|apply IH].
  unfold classify_step in E. destruct (is_high sp) eqn:Hh.
  - destruct (gt_ext _ _); [|destruct (lt_ext _ _)]; injection E as <- <-; cbn_sp;
      repeat apply conj; auto; (destruct (prev_high_price st) as [q|]; [apply (Qabs_nonneg (price sp - q)) | discriminate]).
  - destruct (lt_ext _ _); [|destruct (gt_ext _ _)]; injection E as <- <-; cbn_sp;
      repeat apply conj; auto; (destruct (prev_low_price st) as [q|]; [apply (Qabs_nonneg (price sp - q)) | discriminate]).
Qed.
Lemma fold_left_inv {A S} (P : S -> Prop) (f : S -> A -> S) (l : list A) (a : S) :
  P a -> (forall a x, In x l -> P a -> P (f a x)) -> P (fold_left f l a).
Proof.
  revert a; induction l as [|x t IH]; intros a Ha Hf; cbn; [exact Ha|].
  apply IH; [apply Hf; [now left | exact Ha] | intros; apply Hf; [now right | assumption]].
Qed.

Lemma last_n_length {A} (l : list A) (n : nat) :
  List.length (last_n l n) = Nat.min n (List.length l).
Proof. unfold last_n. rewrite length_skipn. lia. Qed.

Lemma in_last_n {A} (l : list A) (n : nat) (x : A) : In x (last_n l n) -> In x l.
Proof. apply in_skipn. Qed.

Lemma Qdiv_unit (a b : Q) : (0 < b)%Q -> (0 <= a <= b)%Q -> (0 <= a / b <= 1)%Q.
Proof.
  intros Hb [H1 H2]. split.
  - apply Qle_shift_div_l; lra.
  - apply Qle_shift_div_r; lra.
Qed.

Lemma count_le {A} (p : A -> bool) (l : list A) : (count p l <= List.length l)%nat.
Proof. unfold count. apply filter_length_le. Qed.

Lemma count_bull_bear (l : list SwingPoint) :
  (count is_bull_type l + count is_bear_type l <= List.length l)%nat.
Proof.
  unfold count. induction l as [|s t IH]; cbn; [lia|].
  unfold is_bull_type at 1, is_bear_type at 1, has_type.
  destruct (swing_type s) as [[]|]; cbn; lia.
Qed.

Lemma inject_Z_nat_le (a b : nat) : (a <= b)%nat -> (inject_Z (Z.of_nat a) <= inject_Z (Z.of_nat b))%Q.
Proof. intros H. rewrite <- Zle_Qle. lia. Qed.

(** X9: the trend consistency score lies in [0, 1]. *)
Theorem trend_consistency_bounds (sps : list SwingPoint) (trend : TrendDirection) :
  (0 <= calculate_trend_consistency sps trend <= 1)%Q.
Proof.
  unfold calculate_trend_consistency.
  destruct (Nat.ltb_spec (List.length sps) 4); [lra|].
  set (recent := last_n sps 8).
  assert (Hlen : (4 <= List.length recent)%nat) by (unfold recent; rewrite last_n_length; lia).
  assert (Hn : (0 < inject_Z (zlen recent))%Q).
  { unfold zlen. change 0%Q with (inject_Z 0). rewrite <- Zlt_Qlt. lia. }
  pose proof (count_bull_bear recent) as Hbb.
  destruct trend.
  - apply Qdiv_unit; [exact Hn|]. split; [change 0%Q with (inject_Z 0); rewrite <- Zle_Qle; lia|].
    apply inject_Z_nat_le. lia.
  - apply Qdiv_unit; [exact Hn|]. split; [change 0%Q with (inject_Z 0); rewrite <- Zle_Qle; lia|].
    apply inject_Z_nat_le. lia.
  - assert (Hb : (0 <= inject_Z (Z.abs (Z.of_nat (count is_bull_type recent) -
                   Z.of_nat (count is_bear_type recent))) / inject_Z (zlen recent) <= 1)%Q).
    { apply Qdiv_unit; [exact Hn|]. split; change 0%Q with (inject_Z 0); rewrite <- Zle_Qle;
        unfold zlen; lia. }
    lra.
Qed.

Lemma weighted_trend_consistency_unit (sps : list SwingPoint) (trend : TrendDirection)
  (use_recency use_size_weight : bool) :
  (0 <= calculate_weighted_trend_consistency sps trend use_recency use_size_weight <= 1)%Q.
Proof.
  unfold calculate_weighted_trend_consistency.
  destruct (Nat.ltb_spec (List.length sps) 4); [lra|].
  set (recent := last_n sps 8).
  assert (Hlen : (4 <= List.length recent)%nat) by (unfold recent; rewrite last_n_length; lia).
  assert (Hn : (0 < inject_Z (zlen recent))%Q).
  { unfold zlen. change 0%Q with (inject_Z 0). rewrite <- Zlt_Qlt. lia. }
  set (m := match map swing_size recent with [] => 1%Q | s0 :: rest => Py.max_list s0 rest end).
  set (mss := if qeq m 0 then 1%Q else m).
  assert (Hmss : forall s, In s recent -> (0 < swing_size s)%Q -> (0 < mss)%Q /\ (swing_size s <= mss)%Q).
  { intros s Hs Hp. assert (Hm : (swing_size s <= m)%Q).
    { unfold m. assert (Hin : In (swing_size s) (map swing_size recent)) by (apply in_map, Hs).
      destruct (map swing_size recent) as [|s0 rest]; [destruct Hin|].
      apply max_list_ge, Hin. }
    unfold mss, qeq. destruct (Qeq_bool m 0) eqn:E.
    - apply Qeq_bool_iff in E. lra.
    - lra. }
  match goal with |- context [fold_left ?f recent ?a] => set (step := f) end.
  set (P := fun acc : Z * Q * Q =>
              0 <= fst (fst acc) /\ (0 <= snd (fst acc))%Q /\ (snd (fst acc) <= snd acc)%Q).
  assert (Hinv : P (fold_left step recent (0, 0%Q, 0%Q))).
  { apply fold_left_inv; [unfold P; cbn; split; [lia|lra]|].
    intros [[i ws] tw] s Hs (Hi & Hws & Hwt). cbn [fst snd] in Hi, Hws, Hwt. unfold step.
    set (rw := if use_recency then (inject_Z (i + 1) / inject_Z (zlen recent))%Q else 1%Q).
    set (sw := if use_size_weight && qlt 0 (swing_size s) then (swing_size s / mss)%Q else 1%Q).
    assert (Hrw : (0 <= rw)%Q).
    { unfold rw. destruct use_recency; [|lra]. apply Qle_shift_div_l; [exact Hn|].
      rewrite Qmult_0_l. change 0%Q with (inject_Z 0). rewrite <- Zle_Qle. lia. }
    assert (Hsw : (0 <= sw)%Q).
    { unfold sw. destruct (use_size_weight && qlt 0 (swing_size s)) eqn:E; [|lra].
      apply andb_true_iff in E as [_ E]. apply qlt_true in E.
      destruct (Hmss s Hs E). apply Qle_shift_div_l; lra. }
    assert (Hcw : (0 <= rw * ((1#2) + (1#2) * sw))%Q).
    { apply Qmult_le_0_compat; lra. }
    unfold P; cbn [fst snd]. fold rw sw.
    destruct (match trend with BULLISH => is_bull_type s | BEARISH => is_bear_type s
              | SIDEWAYS => true end); (split; [lia|split]); lra. }
  destruct (fold_left step recent (0, 0%Q, 0%Q)) as [[i ws] tw].
  destruct Hinv as (_ & Hws & Hwt). cbn in Hws, Hwt.
  destruct (qlt 0 tw) eqn:E; [apply qlt_true in E; apply Qdiv_unit; lra | lra].
Qed.

(** X10: the weighted trend consistency score lies in [0, 1], whatever the weightings. *)
Theorem weighted_trend_consistency_bounds (sps : list SwingPoint) (trend : TrendDirection)
  (use_recency use_size_weight : bool) :
  (0 <= calculate_weighted_trend_consistency sps trend use_recency use_size_weight <= 1)%Q.
Proof. apply weighted_trend_consistency_unit. Qed.

(** X11: for a bullish or bearish trend, the weighted consistency with both weightings off equals the unweighted consistency. *)
Theorem unweighted_consistency_agrees (sps : list SwingPoint) (trend : TrendDirection) :
  trend <> SIDEWAYS ->
  (calculate_weighted_trend_consistency sps trend false false ==
   calculate_trend_consistency sps trend)%Q.
Proof.
  intros Ht. unfold calculate_weighted_trend_consistency, calculate_trend_consistency.
  destruct (Nat.ltb_spec (List.length sps) 4); [reflexivity|].
  set (recent := last_n sps 8).
  assert (Hlen : (4 <= List.length recent)%nat) by (unfold recent; rewrite last_n_length; lia).
  assert (Hn : (0 < inject_Z (zlen recent))%Q).
  { unfold zlen. change 0%Q with (inject_Z 0). rewrite <- Zlt_Qlt. lia. }
  set (al := fun s => match trend with BULLISH => is_bull_type s | BEARISH => is_bear_type s
                                    | SIDEWAYS => true end).
  match goal with |- context [fold_left ?f recent ?a] => set (step := f) end.
  assert (Hf : forall l i ws tw,
     let r := fold_left step l (i, ws, tw) in
     (snd (fst r) == ws + inject_Z (Z.of_nat (count al l)))%Q /\
     (snd r == tw + inject_Z (zlen l))%Q).
  { induction l as [|s t IH]; intros i ws tw; cbn [fold_left].
    - cbn. unfold zlen, count; cbn. split; ring.
    - destruct (IH (i + 1) (ws + (if al s then 1 * ((1#2) + (1#2) * 1) else 0))%Q
                   (tw + 1 * ((1#2) + (1#2) * 1))%Q) as [H1 H2].
      assert (Es : step (i, ws, tw) s =
        (i + 1, (ws + (if al s then 1 * ((1#2) + (1#2) * 1) else 0))%Q,
         (tw + 1 * ((1#2) + (1#2) * 1))%Q)) by reflexivity.
      rewrite Es. split; [eapply Qeq_trans; [exact H1|] | eapply Qeq_trans; [exact H2|]];
        unfold count, zlen; cbn [filter List.length];
        [destruct (al s); cbn [List.length] |];
        rewrite ?Nat2Z.inj_succ; unfold Z.succ; rewrite ?inject_Z_plus; cbn; ring. }
  destruct (Hf recent 0 0%Q 0%Q) as [H1 H2].
  destruct (fold_left step recent (0, 0%Q, 0%Q)) as [[i ws] tw]. cbn in H1, H2.
  rewrite Qplus_0_l in H1, H2.
  assert (Etw : qlt 0 tw = true) by (apply qlt_iff; rewrite H2; exact Hn).
  rewrite Etw, H1, H2.
  destruct trend; [reflexivity | reflexivity | contradiction].
Qed.

Lemma unweighted_consistency_agrees_witness :
  let sps := match detect_swing_points demo_candles 2 with
             | Ok s => classify_swing_points s | Err _ => [] end in
  BULLISH <> SIDEWAYS /\
  (calculate_weighted_trend_consistency sps BULLISH false false ==
   calculate_trend_consistency sps BULLISH)%Q.
Proof.
  intros sps. split; [discriminate | apply unweighted_consistency_agrees; discriminate].
Defined.
Lemma py_min_one_bounds (v : Q) : (0 <= v)%Q -> (0 <= Py.min 1 v <= 1)%Q.
Proof. intros H. unfold Py.min. qcase; lra. Qed.

Lemma swing_quality_bounds (sps : list SwingPoint) :
  (0 <= calculate_swing_quality_score sps <= 1)%Q.
Proof.
  unfold calculate_swing_quality_score.
  destruct (Nat.ltb (List.length sps) 2); [lra|].
  remember (filter (fun q => qlt 0 q) (map swing_size (last_n sps 10))) as sizes eqn:Es.
  destruct sizes as [|s0 rest]; [lra|].
  apply py_min_one_bounds.
  assert (Hpos : forall x, In x (s0 :: rest) -> (0 < x)%Q).
  { intros x Hx. rewrite Es in Hx. apply filter_In in Hx. apply qlt_true, Hx. }
  assert (Hm : (0 < Py.min_list s0 rest)%Q) by (apply Hpos, min_list_in).
  assert (HmM : (Py.min_list s0 rest <= Py.max_list s0 rest)%Q) by (apply max_list_ge, min_list_in).
  qcase; [|lra].
  assert ((Py.max_list s0 rest - Py.min_list s0 rest) / Py.max_list s0 rest <= 1)%Q.
  { apply Qle_shift_div_r; lra. }
  lra.
Qed.

Lemma zone_clarity_bounds (zones : list Zone) (max_zones : Z) :
  (0 <= calculate_zone_clarity zones max_zones <= 1)%Q.
Proof.
  unfold calculate_zone_clarity.
  destruct (Nat.eqb (List.length zones) 0) eqn:E0; [lra|].
  destruct (max_zones <? zlen zones); [lra|].
  apply py_min_one_bounds.
  assert (Hn : (0 < inject_Z (zlen zones))%Q).
  { apply Nat.eqb_neq in E0. unfold zlen. change 0%Q with (inject_Z 0). rewrite <- Zlt_Qlt. lia. }
  set (q := (_ / inject_Z (zlen zones))%Q).
  assert (Hq : (0 <= q)%Q).
  { unfold q. apply Qle_shift_div_l; [exact Hn|]. rewrite Qmult_0_l.
    assert (Hk : forall k : nat, (0 <= inject_Z (Z.of_nat k))%Q)
      by (intros k; change 0%Q with (inject_Z 0); rewrite <- Zle_Qle; lia).
    match goal with |- (0 <= inject_Z (Z.of_nat ?a) * 1 + inject_Z (Z.of_nat ?b) * _)%Q =>
      pose proof (Hk a); pose proof (Hk b) end.
    lra. }
  destruct (_ && _); lra.
Qed.

Lemma alternations_le (p : SwingPoint) (l : list SwingPoint) :
  (alternations p l <= List.length l)%nat.
Proof.
  revert p; induction l as [|c t IH]; intros p; cbn; [lia|].
  specialize (IH c). destruct (Bool.eqb _ _); lia.
Qed.

Lemma structure_clarity_bounds (sps : list SwingPoint) (min_swings : Z) :
  (0 <= calculate_structure_clarity sps min_swings <= 1)%Q.
Proof.
  unfold calculate_structure_clarity.
  destruct (zlen sps <? min_swings); [lra|].
  destruct (last_n sps 10) as [|s0 rest]; [lra|].
  destruct (Nat.ltb_spec 1 (List.length (s0 :: rest))) as [H|H]; [|lra].
  apply Qdiv_unit.
  - unfold zlen. change 0%Q with (inject_Z 0). rewrite <- Zlt_Qlt. lia.
  - split.
    + change 0%Q with (inject_Z 0). rewrite <- Zle_Qle. lia.
    + rewrite <- Zle_Qle. unfold zlen. pose proof (alternations_le s0 rest). cbn [List.length] in *. lia.
Qed.

Lemma round_bounds (x : Q) (a b : Z) :
  (inject_Z a <= x <= inject_Z b)%Q -> a <= Py.round x <= b.
Proof.
  intros [Ha Hb]. unfold Py.round.
  pose proof (Qfloor_le x) as Hf. pose proof (Qlt_floor x) as Hf'.
  assert (Haf : a <= Qfloor x) by (rewrite <- (Qfloor_Z a); apply Qfloor_resp_le, Ha).
  assert (Hfb : Qfloor x <= b) by (rewrite Zle_Qle; lra).
  assert (Hup : (1#2 <= x - inject_Z (Qfloor x))%Q -> Qfloor x < b).
  { intros Hd. destruct (Z.eq_dec (Qfloor x) b) as [E|E]; [|lia].
    rewrite E in Hd. lra. }
  destruct (qlt _ (1#2)) eqn:E1; [lia|]. apply qlt_false in E1.
  specialize (Hup E1).
  destruct (qlt (1#2) _); [lia|]. destruct (Z.even _); lia.
Qed.

(** X12: when [analyze_clarity] succeeds, its score lies in [0, 100] and its trend consistency, zone clarity and structure clarity in [0, 1]. *)
Theorem analyze_clarity_bounds (candles : list Candle) (tf : Timeframe) (cfg : SMCClarityConfig)
  (r : ClarityResult) :
  analyze_clarity candles tf cfg = Ok r ->
  0 <= score r <= 100 /\
  (0 <= trend_consistency r <= 1)%Q /\
  (0 <= zone_clarity r <= 1)%Q /\
  (0 <= structure_clarity r <= 1)%Q.
Proof.
  unfold analyze_clarity. intros H.
  destruct (zlen candles <? min_candles cfg).
  { injection H as <-. cbn. repeat split; lra || lia. }
  destruct (detect_swing_points candles (swing_lookback cfg)) as [sps|e]; cbn in H; [|discriminate].
  destruct (Py.index candles (-1)) as [lastc|e]; cbn in H; [|discriminate].
  destruct (detect_zones _ _ _ _) as [zones|e]; cbn in H; [|discriminate].
  injection H as <-. cbn [score trend_consistency zone_clarity structure_clarity].
  match goal with |- context [calculate_weighted_trend_consistency ?a ?b ?c ?d] =>
    pose proof (weighted_trend_consistency_unit a b c d) end.
  match goal with |- context [calculate_zone_clarity ?a ?b] =>
    pose proof (zone_clarity_bounds a b) end.
  match goal with |- context [calculate_structure_clarity ?a ?b] =>
    pose proof (structure_clarity_bounds a b) end.
  match goal with |- context [calculate_swing_quality_score ?a] =>
    pose proof (swing_quality_bounds a) end.
  split; [|tauto]. apply round_bounds. change (inject_Z 0) with 0%Q. change (inject_Z 100) with 100%Q. split; lra.
Qed.

Lemma analyze_clarity_bounds_witness :
  exists r, analyze_clarity demo_candles TF_4H demo_config = Ok r /\
    0 <= score r <= 100 /\
    (0 <= trend_consistency r <= 1)%Q /\
    (0 <= zone_clarity r <= 1)%Q /\
    (0 <= structure_clarity r <= 1)%Q.
Proof.
  eexists. split; [vm_compute; reflexivity|].
  apply (analyze_clarity_bounds demo_candles TF_4H demo_config). vm_compute; reflexivity.
Defined.
Lemma py_min_le_l (a b : Q) : (Py.min a b <= a)%Q.
Proof. unfold Py.min. qcase; lra. Qed.
Lemma py_max_ge_l (a b : Q) : (a <= Py.max a b)%Q.
Proof. unfold Py.max. qcase; lra. Qed.

Lemma zone_at_spec (candles : list Candle) (zs : list Zone) (i : Z) :
  2 <= i < zlen candles - 1 ->
  exists zs', zone_at candles zs i = Ok zs' /\
    (zs' = zs \/ exists z, zs' = zs ++ [z] /\ zone_from candles z).
Proof.
  intros Hi. unfold zone_at.
  destruct (index_in_bounds candles i) as (c & Hc & _); [lia|].
  destruct (index_in_bounds candles (i - 1)) as (p & Hp & _); [lia|].
  destruct (index_in_bounds candles (i - 2)) as (c2 & Hc2 & _); [lia|].
  rewrite Hc, Hp. cbn [bind].
  destruct (qlt (body_ratio c) _); [eauto|].
  destruct (negb _); [eauto|].
  replace (2 <=? i) with true by (symmetry; apply Z.leb_le; lia).
  rewrite Hc2. cbn [bind].
  destruct (is_bullish c); [|destruct (is_bearish c); [|eauto]];
    eexists; (split; [reflexivity|]); right; eexists; (split; [reflexivity|]);
    unfold zone_from; cbn [origin_candle_index]; (split; [lia|]); exists p; cbn; (split; [exact Hp|]);
    repeat split; auto using py_min_le_l, py_max_ge_l.
Qed.

Lemma zone_loop_spec (candles : list Candle) :
  exists zs, fold_m (zone_at candles) (Py.range 2 (zlen candles - 1)) [] = Ok zs /\
    Forall (zone_from candles) zs.
Proof.
  assert (Ht : exists r, fold_m (zone_at candles) (Py.range 2 (zlen candles - 1)) [] = Ok r).
  { apply fold_m_total. intros zs i Hi. apply in_range in Hi.
    destruct (zone_at_spec candles zs i Hi) as (zs' & H & _). eauto. }
  destruct Ht as [r Hr]. exists r. split; [exact Hr|].
  apply (fold_m_inv (Forall (zone_from candles)) (zone_at candles) (Py.range 2 (zlen candles - 1)) [] r (Forall_nil _)); [|exact Hr].
  intros zs i zs' Hi Hzs Hstep. apply in_range in Hi.
  destruct (zone_at_spec candles zs i Hi) as (zs'' & H & [->|(z & -> & Hz)]);
    rewrite H in Hstep; injection Hstep as <-; [exact Hzs|].
  apply Forall_app; split; [exact Hzs | constructor; [exact Hz | constructor]].
Qed.

Lemma filter_overlapping_zones_props (zones : list Zone) :
  ForallOrdPairs no_overlap (filter_overlapping_zones zones) /\
  (forall z, In z (filter_overlapping_zones zones) -> In z zones).
Proof.
  unfold filter_overlapping_zones.
  destruct (Nat.leb_spec (List.length zones) 1) as [Hle|Hgt].
  - split; [|auto]. destruct zones as [|a [|b t]]; cbn in Hle; [| |lia]; repeat constructor.
  - destruct (sort_zones_desc_props zones [] (SSorted_nil _)) as [Hs Hin].
    fold (sort_zones_desc zones) in Hs, Hin.
    destruct (greedy_props (sort_zones_desc zones) [] Hs (SSorted_nil _) (FOP_nil _)
                (fun k w Hk _ => match Hk with end)) as (H1 & H2 & H3 & H4 & H5).
    unfold keep_non_overlapping. split; [exact H2|].
    intros z Hz. destruct (H4 z Hz) as [[]|Hz']. apply Hin in Hz' as [Hz'|[]]. exact Hz'.
Qed.

(** The zones of [detect_zones] and how its result lists relate. *)
Lemma detect_zones_props (candles : list Candle) (control : string) (cp : Q) (fo : bool) :
  exists zr, detect_zones candles control cp fo = Ok zr /\
    Forall (zone_from candles) (all_zones zr) /\
    (fo = true -> ForallOrdPairs no_overlap (all_zones zr)) /\
    (exists ts, tradable_zones zr = filter (is_tradable control cp ts) (all_zones zr)) /\
    unmitigated_supply zr = filter (fun z => ZoneType_eqb (type z) SUPPLY && negb (mitigated z)) (all_zones zr) /\
    unmitigated_demand zr = filter (fun z => ZoneType_eqb (type z) DEMAND && negb (mitigated z)) (all_zones zr).
Proof.
  unfold detect_zones.
  destruct (Z.ltb_spec (zlen candles) 10).
  { eexists; split; [reflexivity|]. cbn. split; [constructor|]. split; [intros; constructor|].
    split; [exists 0; reflexivity|]. split; reflexivity. }
  destruct (index_from_end candles 1) as [lastc Hl]; [lia | unfold zlen in *; lia|].
  change (- Z.of_nat 1) with (-1) in Hl. rewrite Hl. cbn [bind].
  destruct (zone_loop_spec candles) as (zs & Hzs & Hf). rewrite Hzs. cbn [bind].
  eexists; split; [reflexivity|]. cbn [all_zones tradable_zones unmitigated_supply unmitigated_demand].
  repeat split; eauto.
  - destruct fo; [|exact Hf]. apply Forall_forall. intros z Hz.
    apply (filter_overlapping_zones_props zs) in Hz. eapply Forall_forall; eauto.
  - intros ->. apply filter_overlapping_zones_props.
Qed.
Lemma index_In {A} (l : list A) (k : Z) (a : A) : Py.index l k = Ok a -> In a l.
Proof.
  unfold Py.index. destruct (_ || _); [discriminate|].
  destruct (nth_error l _) eqn:E; [|discriminate]. intros H; injection H as <-.
  eapply nth_error_In; eauto.
Qed.

(** X13: [detect_zones] always succeeds; every zone it finds originates at a candle of index in [1, len - 3], takes its creation time from that candle, has no touches, and a demand zone tops at (a supply zone bottoms at) that candle's high (low) and contains its low (high). *)
Theorem detect_zones_origin (candles : list Candle) (control : string) (cp : Q) (fo : bool) :
  exists zr, detect_zones candles control cp fo = Ok zr /\
    forall z, In z (all_zones zr) ->
      1 <= origin_candle_index z <= zlen candles - 3 /\
      exists c, Py.index candles (origin_candle_index z) = Ok c /\
        created_at z = timestamp c /\ touches z = 0 /\
        match type z with
        | DEMAND => top_price z = high c /\ (bottom_price z <= low c)%Q
        | SUPPLY => bottom_price z = low c /\ (high c <= top_price z)%Q
        end.
Proof.
  destruct (detect_zones_props candles control cp fo) as (zr & Hzr & Hf & _).
  exists zr. split; [exact Hzr|]. intros z Hz. exact (proj1 (Forall_forall _ _) Hf z Hz).
Qed.

(** X14: on candles whose low is at most their high, every zone [detect_zones] returns has bottom at most top. *)
Theorem detect_zones_bottom_le_top (candles : list Candle) (control : string) (cp : Q) (fo : bool)
  (zr : ZoneResult) :
  Forall (fun c => (low c <= high c)%Q) candles ->
  detect_zones candles control cp fo = Ok zr ->
  forall z, In z (all_zones zr) -> (bottom_price z <= top_price z)%Q.
Proof.
  intros Hc H z Hz.
  destruct (detect_zones_props candles control cp fo) as (zr' & Hzr & Hf & _).
  rewrite H in Hzr. injection Hzr as <-.
  destruct (proj1 (Forall_forall _ _) Hf z Hz) as (_ & c & Hi & _ & _ & Ht).
  pose proof (proj1 (Forall_forall _ _) Hc c (index_In _ _ _ Hi)).
  cbv beta in *. destruct (type z); destruct Ht as [E L]; rewrite E in *; lra.
Qed.

Lemma detect_zones_bottom_le_top_witness :
  Forall (fun c => (low c <= high c)%Q) demo_candles /\
  exists zr, detect_zones demo_candles "neutral" (101#100) true = Ok zr /\
    forall z, In z (all_zones zr) -> (bottom_price z <= top_price z)%Q.
Proof.
  assert (Hc : Forall (fun c => (low c <= high c)%Q) demo_candles)
    by (repeat constructor; cbn; lra).
  split; [exact Hc|].
  eexists. split; [vm_compute; reflexivity|].
  apply (detect_zones_bottom_le_top demo_candles "neutral" (101#100) true); [exact Hc|].
  vm_compute; reflexivity.
Defined.

(** X15: with overlap filtering on, no two zones [detect_zones] returns overlap. *)
Theorem detect_zones_no_overlap (candles : list Candle) (control : string) (cp : Q)
  (zr : ZoneResult) :
  detect_zones candles control cp true = Ok zr ->
  ForallOrdPairs (fun a b => overlaps_with a b = false) (all_zones zr).
Proof.
  intros H. destruct (detect_zones_props candles control cp true) as (zr' & Hzr & _ & Hno & _).
  rewrite H in Hzr. injection Hzr as <-. exact (Hno eq_refl).
Qed.

Lemma detect_zones_no_overlap_witness :
  exists zr, detect_zones demo_candles "neutral" (101#100) true = Ok zr /\
    ForallOrdPairs (fun a b => overlaps_with a b = false) (all_zones zr).
Proof.
  eexists. split; [vm_compute; reflexivity|].
  apply (detect_zones_no_overlap demo_candles "neutral" (101#100)). vm_compute; reflexivity.
Defined.

(** X16: every tradable zone of [detect_zones] is one of its zones, unmitigated, of positive height, within three zone sizes of the current price, and on a side the control allows. *)
Theorem detect_zones_tradable (candles : list Candle) (control : string) (cp : Q) (fo : bool)
  (zr : ZoneResult) :
  detect_zones candles control cp fo = Ok zr ->
  forall z, In z (tradable_zones zr) ->
    In z (all_zones zr) /\ mitigated z = false /\
    (bottom_price z < top_price z)%Q /\
    (Qabs (cp - mid_price z) < zone_size z * 3)%Q /\
    match type z with
    | DEMAND => control = "buyers"%string \/ control = "neutral"%string
    | SUPPLY => control = "sellers"%string \/ control = "neutral"%string
    end.
Proof.
  intros H z Hz.
  destruct (detect_zones_props candles control cp fo) as (zr' & Hzr & _ & _ & (ts & Ht) & _).
  rewrite H in Hzr. injection Hzr as <-. rewrite Ht in Hz.
  apply filter_In in Hz as [Hin Htr]. split; [exact Hin|].
  unfold is_tradable in Htr.
  destruct (mitigated z); [discriminate|]. split; [reflexivity|].
  destruct (qlt _ (1#10)); [discriminate|].
  assert (Hd : forall b, b && qlt (Qabs (cp - mid_price z)) (zone_size z * 3) = true ->
            b = true /\ (bottom_price z < top_price z)%Q /\
            (Qabs (cp - mid_price z) < zone_size z * 3)%Q).
  { intros b Hb. apply andb_true_iff in Hb as [Hb Hl]. apply qlt_true in Hl.
    pose proof (Qabs_nonneg (cp - mid_price z)). unfold zone_size in *.
    repeat split; [exact Hb | lra | exact Hl]. }
  destruct (type z); apply Hd in Htr as (Hb & Hlt & Hl); (split; [exact Hlt|]); (split; [exact Hl|]);
    apply orb_true_iff in Hb as [Hb|Hb]; apply String.eqb_eq in Hb; auto.
Qed.

Lemma detect_zones_tradable_witness :
  exists zr, detect_zones demo_candles "neutral" (101#100) true = Ok zr /\
    tradable_zones zr <> [] /\
    forall z, In z (tradable_zones zr) ->
      In z (all_zones zr) /\ mitigated z = false /\
      (bottom_price z < top_price z)%Q /\
      (Qabs ((101#100) - mid_price z) < zone_size z * 3)%Q /\
      match type z with
      | DEMAND => "neutral"%string = "buyers"%string \/ "neutral"%string = "neutral"%string
      | SUPPLY => "neutral"%string = "sellers"%string \/ "neutral"%string = "neutral"%string
      end.
Proof.
  eexists. split; [vm_compute; reflexivity|]. split; [vm_compute; discriminate|].
  apply (detect_zones_tradable demo_candles "neutral" (101#100) true). vm_compute; reflexivity.
Defined.

Lemma refine_zone_filter_count (z : Zone) (ltf : list Candle) :
  List.length (filter (fun c => (qle (bottom_price z) (close c) && qle (close c) (top_price z))
                               || (qle (bottom_price z) (open c) && qle (open c) (top_price z))) ltf)
  = count (fun c => price_in_zone z (close c) || price_in_zone z (open c)) ltf.
Proof. reflexivity. Qed.

(** X17: [refine_zone] on a zone of zero height with at least three lower-timeframe candles in it raises ZeroDivisionError. *)
Theorem refine_zone_zero_height (z : Zone) (zone_candles ltf : list Candle) :
  (top_price z == bottom_price z)%Q ->
  (3 <= count (fun c => price_in_zone z (close c) || price_in_zone z (open c)) ltf)%nat ->
  refine_zone z zone_candles ltf = Err ZeroDivisionError.
Proof.
  intros Hz Hc. unfold refine_zone.
  destruct ltf as [|c0 t]; [cbn in Hc; lia|].
  rewrite refine_zone_filter_count.
  destruct (Nat.ltb_spec (count (fun c => price_in_zone z (close c) || price_in_zone z (open c)) (c0 :: t)) 3);
    [lia|].
  unfold count in *.
  remember (filter _ (c0 :: t)) as L eqn:EL.
  assert (HL3 : last_n L 3 <> []).
  { unfold last_n. intros E. apply (f_equal (@List.length _)) in E.
    rewrite length_skipn in E. cbn in E. lia. }
  destruct L as [|x l]; [cbn in *; lia|].
  destruct (last_n (x :: l) 3) as [|y m]; [congruence|].
  replace (qeq (zone_size z) 0) with true
    by (symmetry; apply Qeq_bool_iff; unfold zone_size; lra).
  destruct (type z); cbn [min_map max_map bind];
    match goal with |- match (if ?b then _ else _) with pair _ _ => _ end = _ =>
      destruct b end; reflexivity.
Qed.

Lemma refine_zone_zero_height_witness :
  let z := mkZone 1 1 DEMAND moderate 1 0 false 0 in
  let ltf := [candle_at 1 1 1 1 1; candle_at 2 1 1 1 1; candle_at 3 1 1 1 1] in
  (top_price z == bottom_price z)%Q /\
  (3 <= count (fun c => price_in_zone z (close c) || price_in_zone z (open c)) ltf)%nat /\
  refine_zone z [] ltf = Err ZeroDivisionError.
Proof.
  intros z ltf.
  assert (Hz : (top_price z == bottom_price z)%Q) by reflexivity.
  assert (Hc : (3 <= count (fun c => price_in_zone z (close c) || price_in_zone z (open c)) ltf)%nat)
    by (apply Nat.leb_le; vm_compute; reflexivity).
  split; [exact Hz|]. split; [exact Hc|].
  exact (refine_zone_zero_height z [] ltf Hz Hc).
Defined.

(** X18: a zone that [refine_zone] refines keeps bottom at most top and is at most nine tenths of the original size. *)
Theorem refine_zone_shrinks (z : Zone) (zone_candles ltf : list Candle) (r : RefinementResult)
  (z' : Zone) :
  (bottom_price z <= top_price z)%Q ->
  refine_zone z zone_candles ltf = Ok r -> refined_zone r = Some z' ->
  (bottom_price z' <= top_price z')%Q /\
  (zone_size z' <= (9#10) * zone_size z)%Q.
Proof.
  intros Hw H Hr. unfold refine_zone in H.
  destruct ltf as [|c0 t]; [injection H as <-; discriminate|].
  destruct (Nat.ltb _ 3); [injection H as <-; discriminate|].
  destruct (match type z with DEMAND => _ | SUPPLY => _ end) as [[rt0 rb0]|e];
    cbn [bind] in H; [|discriminate].
  assert (Hb : forall rt rb, (if qle rt0 rb0 then (rb0, rt0) else (rt0, rb0)) = (rt, rb) ->
                 (rb <= rt)%Q).
  { intros rt rb E. destruct (qle rt0 rb0) eqn:Q; injection E as <- <-;
      [apply qle_true in Q | apply qle_false in Q]; lra. }
  destruct (if qle rt0 rb0 then (rb0, rt0) else (rt0, rb0)) as [rt rb] eqn:E.
  specialize (Hb rt rb eq_refl).
  destruct (qeq (zone_size z) 0) eqn:Ez; [discriminate|].
  assert (Hpos : (0 < zone_size z)%Q).
  { unfold qeq in Ez. unfold zone_size in *.
    destruct (Qlt_le_dec 0 (top_price z - bottom_price z)) as [L|L]; [exact L|].
    assert (Qeq_bool (top_price z - bottom_price z) 0 = true) by (apply Qeq_bool_iff; lra).
    congruence. }
  destruct (qlt (1 - (rt - rb) / zone_size z) (1#10)) eqn:Er.
  { injection H as <-. discriminate. }
  injection H as <-. cbn in Hr. injection Hr as <-. cbn [top_price bottom_price zone_size Zone_new].
  apply qlt_false in Er. unfold Zone_new; cbn [top_price bottom_price]. split; [exact Hb|].
  assert (Hd : ((rt - rb) / zone_size z <= 9#10)%Q) by lra.
  apply (Qmult_le_compat_r _ _ (zone_size z)) in Hd; [|lra].
  assert (Hq : ((rt - rb) / zone_size z * zone_size z == rt - rb)%Q)
    by (field; intros E0; rewrite E0 in Hpos; discriminate).
  rewrite Hq in Hd. unfold zone_size in *. unfold Zone_new; cbn [top_price bottom_price]. lra.
Qed.

Lemma refine_zone_shrinks_witness :
  exists r z', refine_zone scenD_zone [] scenD_ltf = Ok r /\ refined_zone r = Some z' /\
    (bottom_price scenD_zone <= top_price scenD_zone)%Q /\
    (bottom_price z' <= top_price z')%Q /\
    (zone_size z' <= (9#10) * zone_size scenD_zone)%Q.
Proof.
  eexists; eexists. split; [vm_compute; reflexivity|]. split; [vm_compute; reflexivity|].
  split; [cbn; lra|].
  eapply (refine_zone_shrinks scenD_zone [] scenD_ltf); [cbn; lra | vm_compute; reflexivity
    | vm_compute; reflexivity].
Defined.
Lemma detect_entry_accepts_at_zone (candles : list Candle) (zone : Zone) (dir : SignalDirection)
  (target : option Q) (zones : list Zone) (r : EntryResult) :
  detect_entry candles zone dir target zones = Ok r ->
  has_valid_entry r = true ->
  exists lc s,
    Py.index candles (-1) = Ok lc /\ setup r = Some s /\
    (price_in_zone zone (close lc)
     || qlt (Qabs (close lc - top_price zone)) (zone_size zone * (1#2))
     || qlt (Qabs (close lc - bottom_price zone)) (zone_size zone * (1#2))) = true /\
    (0 < risk_pips s)%Q /\
    risk_reward_ratio s = (reward_pips s / risk_pips s)%Q.
Proof.
  intros H Hv. unfold detect_entry in H.
  destruct (zlen candles <? 5); [injection H as <-; discriminate|].
  destruct (Py.index candles (-1)) as [lc|e] eqn:Hlc; cbn [bind] in H; [|discriminate].
  destruct (negb _) eqn:Hn; [injection H as <-; discriminate|].
  apply negb_false_iff in Hn.
  destruct (Py.index candles (-2)) as [pc|e]; cbn [bind] in H; [|discriminate].
  destruct (match dir with BUY => _ | SELL => _ end) as [[cs c] et].
  destruct (c <? 60); [injection H as <-; discriminate|].
  set (risk := Qabs (close lc - entry_stop_loss zone dir)) in H.
  set (tp := entry_take_profit dir (close lc) (entry_stop_loss zone dir) target zones) in H.
  destruct (qlt 0 risk) eqn:Er.
  - destruct (qlt (Qabs (tp - close lc) / risk) (3#2)); [injection H as <-; discriminate|].
    injection H as <-. do 2 eexists. split; [reflexivity|]. split; [reflexivity|].
    rewrite orb_assoc in Hn. split; [exact Hn|].
    unfold risk_pips, reward_pips; cbn [entry_price stop_loss take_profit risk_reward_ratio].
    split; [apply qlt_true, Er | reflexivity].
  - change (qlt 0 (3#2)) with true in H. injection H as <-. discriminate.
Qed.

Lemma entry_take_profit_buy (e sl : Q) (target : option Q) (zones : list Zone) :
  (sl < e)%Q -> (e < entry_take_profit BUY e sl target zones)%Q.
Proof.
  intros Hs. unfold entry_take_profit.
  assert (Hz : (e < match filter (fun z => ZoneType_eqb (type z) SUPPLY && qlt e (bottom_price z)) zones with
                   | z0 :: rest => Py.min_list (bottom_price z0) (map bottom_price rest)
                   | [] => e + (e - sl) * (5#2) end)%Q).
  { destruct (filter _ zones) as [|z0 rest] eqn:Ef; [lra|].
    pose proof (min_list_in (bottom_price z0) (map bottom_price rest)) as Hin.
    change (bottom_price z0 :: map bottom_price rest) with (map bottom_price (z0 :: rest)) in Hin.
    apply in_map_iff in Hin as (z & <- & Hz).
    rewrite <- Ef in Hz. apply filter_In in Hz as [_ Hz].
    apply andb_true_iff in Hz as [_ Hz]. apply qlt_true, Hz. }
  destruct target as [t|]; [|exact Hz].
  destruct (negb (qeq t 0) && qlt e t) eqn:E; [|exact Hz].
  apply andb_true_iff in E as [_ E]. apply qlt_true, E.
Qed.

Lemma entry_take_profit_sell (e sl : Q) (target : option Q) (zones : list Zone) :
  (e < sl)%Q -> (entry_take_profit SELL e sl target zones < e)%Q.
Proof.
  intros Hs. unfold entry_take_profit.
  assert (Hz : (match filter (fun z => ZoneType_eqb (type z) DEMAND && qlt (top_price z) e) zones with
                   | z0 :: rest => Py.max_list (top_price z0) (map top_price rest)
                   | [] => e - (sl - e) * (5#2) end < e)%Q).
  { destruct (filter _ zones) as [|z0 rest] eqn:Ef; [lra|].
    pose proof (max_list_in (top_price z0) (map top_price rest)) as Hin.
    change (top_price z0 :: map top_price rest) with (map top_price (z0 :: rest)) in Hin.
    apply in_map_iff in Hin as (z & <- & Hz).
    rewrite <- Ef in Hz. apply filter_In in Hz as [_ Hz].
    apply andb_true_iff in Hz as [_ Hz]. apply qlt_true, Hz. }
  destruct target as [t|]; [|exact Hz].
  destruct (negb (qeq t 0) && qlt t e) eqn:E; [|exact Hz].
  apply andb_true_iff in E as [_ E]. apply qlt_true, E.
Qed.

(** X19: for a valid entry of [detect_entry], a buy has stop below entry below take profit and a sell the reverse. *)
Theorem detect_entry_sides (candles : list Candle) (zone : Zone) (dir : SignalDirection)
  (target : option Q) (zones : list Zone) (r : EntryResult) (s : EntrySetup) :
  (bottom_price zone <= top_price zone)%Q ->
  detect_entry candles zone dir target zones = Ok r ->
  has_valid_entry r = true -> setup r = Some s ->
  match dir with
  | BUY => (stop_loss s < entry_price s < take_profit s)%Q
  | SELL => (take_profit s < entry_price s < stop_loss s)%Q
  end.
Proof.
  intros Hw H Hv Hs.
  destruct (detect_entry_accepts _ _ _ _ _ _ H Hv)
    as (lc & s1 & Hlc & Hs1 & _ & Hep & Hsl & Htp & _).
  destruct (detect_entry_accepts_at_zone _ _ _ _ _ _ H Hv)
    as (lc' & s2 & Hlc' & Hs2 & Hn & Hpos & _).
  rewrite Hs in Hs1, Hs2. injection Hs1 as <-. injection Hs2 as <-.
  rewrite Hlc in Hlc'. injection Hlc' as <-.
  unfold risk_pips in Hpos. rewrite Hep, Hsl in Hpos. rewrite Hep, Hsl, Htp.
  assert (Hsz : (0 <= zone_size zone)%Q) by (unfold zone_size; lra).
  apply orb_true_iff in Hn as [Hn|Hn]; [apply orb_true_iff in Hn as [Hn|Hn]|].
  all: try (apply qlt_true, Qabs_Qlt_condition in Hn).
  all: try (unfold price_in_zone in Hn; apply andb_true_iff in Hn as [Hn1 Hn2];
            apply qle_true in Hn1; apply qle_true in Hn2).
  all: destruct dir; unfold entry_stop_loss in *; unfold zone_size in *.
  all: match goal with
       | |- (?sl < ?e < _)%Q =>
           assert (Hlt : (sl < e)%Q)
             by (apply Qabs_Qlt_condition in Hpos || idtac;
                 destruct (Qlt_le_dec sl e) as [L|L]; [exact L|];
                 exfalso; rewrite Qabs_neg in Hpos; lra);
           split; [exact Hlt | apply entry_take_profit_buy; exact Hlt]
       | |- (_ < ?e < ?sl)%Q =>
           assert (Hlt : (e < sl)%Q)
             by (destruct (Qlt_le_dec e sl) as [L|L]; [exact L|];
                 exfalso; rewrite Qabs_pos in Hpos; lra);
           split; [apply entry_take_profit_sell; exact Hlt | exact Hlt]
       end.
Qed.

Lemma detect_entry_sides_witness :
  exists r s, detect_entry scenE_candles scenE_zone BUY None [] = Ok r /\
    has_valid_entry r = true /\ setup r = Some s /\
    (bottom_price scenE_zone <= top_price scenE_zone)%Q /\
    (stop_loss s < entry_price s < take_profit s)%Q.
Proof.
  eexists; eexists. split; [vm_compute; reflexivity|]. split; [vm_compute; reflexivity|].
  split; [vm_compute; reflexivity|].
  assert (Hz : (bottom_price scenE_zone <= top_price scenE_zone)%Q)
    by (unfold scenE_zone, Zone_new; cbn; lra).
  split; [exact Hz|].
  eapply (detect_entry_sides scenE_candles scenE_zone BUY None []); [exact Hz|..];
    vm_compute; reflexivity.
Defined.
Section Grows.
Variable P : StrategySignal -> Prop.

Lemma grows_ret {A} (a : A) : grows P 0 (mret a).
Proof. intros w s H. cbn. split; [exact H | lia]. Qed.

Lemma grows_weaken {A} (n m : nat) (c : M A) : (n <= m)%nat -> grows P n c -> grows P m c.
Proof. intros Hnm Hc w s H. destruct (Hc w s H). split; [assumption | lia]. Qed.

Lemma grows_bind {A B} (n m : nat) (c : M A) (k : A -> M B) :
  grows P n c -> (forall a, grows P m (k a)) -> grows P (n + m) (mbind c k).
Proof.
  intros Hc Hk w s H. unfold mbind. destruct (Hc w s H) as [H1 H2].
  destruct (c w s) as [[a|e] s']; cbn in *.
  - destruct (Hk a w s' H1). split; [assumption | lia].
  - split; [assumption | lia].
Qed.

Lemma grows_bind_returns {A B} (Q : A -> Prop) (n m : nat) (c : M A) (k : A -> M B) :
  grows P n c -> returns Q c -> (forall a, Q a -> grows P m (k a)) -> grows P (n + m) (mbind c k).
Proof.
  intros Hc Hr Hk w s H. unfold mbind. destruct (Hc w s H) as [H1 H2]. specialize (Hr w s).
  destruct (c w s) as [[a|e] s']; cbn in *.
  - destruct (Hk a Hr w s' H1). split; [assumption | lia].
  - split; [assumption | lia].
Qed.

Lemma grows_lift_bind {A B} (m : nat) (r : res A) (k : A -> M B) :
  (forall a, r = Ok a -> grows P m (k a)) -> grows P m (mbind (lift r) k).
Proof.
  intros Hk w s H. unfold mbind, lift. destruct r as [a|e]; [now apply Hk|].
  cbn. split; [exact H | lia].
Qed.

Lemma grows_time : grows P 0 time_time.
Proof. intros w s H. cbn. split; [exact H | lia]. Qed.

Lemma grows_uuid : grows P 0 uuid4_hex.
Proof. intros w s H. cbn. split; [exact H | lia]. Qed.

Lemma grows_lift {A} (r : res A) : grows P 0 (lift r).
Proof. intros w s H. cbn. split; [exact H | lia]. Qed.

Lemma grows_push_pending (x : EntrySetup) : grows P 0 (push_pending x).
Proof. intros w s H. cbn. split; [exact H | lia]. Qed.

Lemma grows_push_signal (x : StrategySignal) : P x -> grows P 1 (push_signal x).
Proof.
  intros Hx w s H. cbn. split.
  - apply Forall_app; split; [exact H | constructor; [exact Hx | constructor]].
  - rewrite length_app. cbn. lia.
Qed.

Lemma grows_try {A} (n : nat) (c : M A) : grows P n c -> grows P n (try_ c).
Proof.
  intros Hc w s H. unfold try_. destruct (Hc w s H) as [H1 H2].
  destruct (c w s) as [r s']. exact (conj H1 H2).
Qed.

End Grows.

Lemma grows_build_signal P strat inst er h4 mzr rr tf sps :
  grows P 0 (_build_signal strat inst er h4 mzr rr tf sps).
Proof.
  unfold _build_signal. destruct (setup er); [|apply grows_lift].
  unfold create_signal_id, calculate_expiry_time.
  repeat (apply (grows_bind P 0 0); [|intro]); auto using grows_ret, grows_time, grows_uuid.
Qed.

Lemma returns_build_signal strat inst er h4 mzr rr tf sps s :
  setup er = Some s ->
  returns (fun x => sig_entry_setup x = s /\ sig_direction x = direction s /\
             sig_entry_price x = entry_price s /\ sig_stop_loss x = stop_loss s /\
             sig_take_profit x = take_profit s /\ sig_risk_reward_ratio x = risk_reward_ratio s /\
             sig_confidence x = confidence s /\
             h4_trend_direction (sig_market_context x) = h4 /\
             d1_trend_direction (sig_market_context x) = h4)
    (_build_signal strat inst er h4 mzr rr tf sps).
Proof.
  intros Hs. unfold _build_signal. rewrite Hs.
  apply (returns_bind _ _ _ _ (returns_any _)); intros sid _.
  apply (returns_bind _ _ _ _ (returns_any _)); intros t _.
  apply (returns_bind _ _ _ _ (returns_any _)); intros exp _.
  apply returns_ret. cbn. repeat split.
Qed.

Lemma zone_loop_signals strat inst mzr tf sps zones :
  grows (signal_ok strat) (List.length zones) (zone_loop strat inst SIDEWAYS mzr tf sps zones).
Proof.
  induction zones as [|z zs IH]; cbn [zone_loop List.length]; [apply grows_ret|].
  apply grows_lift_bind; intros rr _.
  apply grows_lift_bind; intros er Her.
  change (S (List.length zs)) with (1 + List.length zs)%nat.
  apply grows_bind; [|intros; exact IH].
  destruct (has_valid_entry er) eqn:Hv; cbn [negb].
  - destruct (detect_entry_accepts _ _ _ _ _ _ Her Hv)
      as (lc & s & _ & Hs & _ & _ & _ & _ & Hrr & Hc & Hrisk).
    rewrite Hs. destruct (Z.leb_spec (min_confidence (base_config strat)) (confidence s)) as [Hm|Hm].
    + change 1%nat with (0 + 1)%nat.
      apply (grows_bind_returns _ _ 0 1 _ _ (grows_build_signal _ _ _ _ _ _ _ _ _)
               (returns_build_signal _ _ _ _ _ _ _ _ s Hs)).
      intros x (Hx & Hd & He & Hsl & Htp & Hr & Hcf & Hh4 & Hd1).
      apply grows_push_signal. unfold signal_ok. rewrite Hx. repeat split; assumption || lia.
    + apply (grows_weaken _ 0); [lia|].
      destruct (50 <=? confidence s); [apply grows_push_pending | apply grows_ret].
  - apply (grows_weaken _ 0); [lia|].
    destruct (setup er); [destruct (40 <=? confidence e); [apply grows_push_pending|]|];
      apply grows_ret.
Qed.

Lemma analyze_body_signals strat inst t :
  grows (signal_ok strat) 3 (analyze_body strat inst t).
Proof.
  unfold analyze_body.
  apply grows_lift_bind; intros tf _.
  destruct (negb _).
  { apply (grows_weaken _ (0 + 0)); [lia|]. apply grows_bind; [|intros; apply grows_ret].
    unfold early_result. apply (grows_bind _ 0 0); [apply grows_time | intros; apply grows_ret]. }
  apply grows_lift_bind; intros sps Hsps.
  rewrite (detected_swings_trend_sideways _ _ _ Hsps).
  apply grows_lift_bind; intros mzr _.
  destruct (tradable_zones mzr) as [|z tz].
  - apply (grows_weaken _ (0 + 0)); [lia|]. apply grows_bind; [|intros; apply grows_ret].
    unfold early_result. apply (grows_bind _ 0 0); [apply grows_time | intros; apply grows_ret].
  - apply (grows_weaken _ (List.length (firstn 3 (z :: tz)) + 0));
      [rewrite length_firstn; lia|].
    apply grows_bind; [apply zone_loop_signals | intros; apply grows_ret].
Qed.

Lemma analyze_body_early_no_signals strat inst t :
  returns (fun o => match o with Some r => signals r = [] | None => True end)
    (analyze_body strat inst t).
Proof.
  assert (He : returns (fun r => signals r = []) (early_result strat t)) by (intros w s; reflexivity).
  unfold analyze_body.
  apply (returns_bind _ _ _ _ (returns_any _)); intros tf _.
  destruct (negb _).
  { apply (returns_bind _ _ _ _ He); intros r Hr. now apply returns_ret. }
  apply (returns_bind _ _ _ _ (returns_any _)); intros sps _.
  apply (returns_bind _ _ _ _ (returns_any _)); intros mzr _.
  destruct (tradable_zones mzr).
  - apply (returns_bind _ _ _ _ He); intros r Hr. now apply returns_ret.
  - apply (returns_bind _ _ _ _ (returns_any _)); intros. now apply returns_ret.
Qed.

(** X22: [analyze] always returns a result with at most three signals, each copying its setup, with risk-reward at least 1.5, positive risk, confidence in [60, 95] and at least the strategy minimum. *)
Theorem analyze_signals_ok (strat : SMCStrategy) (inst : InstrumentData) (w : World) :
  exists r, run_analyze strat inst w = Ok r /\
    (List.length (signals r) <= 3)%nat /\ Forall (signal_ok strat) (signals r).
Proof.
  unfold run_analyze, analyze, mbind, try_, time_time, get_st, mret.
  match goal with |- context [analyze_body ?a ?b ?c ?d ?e] =>
    pose proof (analyze_body_signals a b c d e (Forall_nil _)) as Hg;
    pose proof (analyze_body_early_no_signals a b c d e) as Hr;
    destruct (analyze_body a b c d e) as [rb s2]
  end.
  cbn [fst snd st_signals List.length] in Hg, Hr. destruct Hg as [Hf Hl].
  destruct rb as [o|e]; [destruct o as [early|]|]; cbv beta iota; cbn [fst];
    eexists; (split; [reflexivity|]); cbn.
  - rewrite Hr. split; [cbn; lia | constructor].
  - split; assumption.
  - split; assumption.
Qed.
Lemma detect_entry_entry_zone (candles : list Candle) (zone : Zone) (dir : SignalDirection)
  (target : option Q) (zones : list Zone) (r : EntryResult) (s : EntrySetup) :
  detect_entry candles zone dir target zones = Ok r -> setup r = Some s -> entry_zone s = zone.
Proof.
  intros H Hs. unfold detect_entry in H. split_res H; injection H as <-; cbn in Hs;
    try discriminate Hs; injection Hs as <-; reflexivity.
Qed.

Lemma index_last {A} (c0 : A) (rest : list A) :
  Py.index (c0 :: rest) (-1) = Ok (last (c0 :: rest) c0).
Proof.
  unfold Py.index. cbn [List.length].
  replace (-1 <? 0) with true by reflexivity.
  replace ((-1 + Z.of_nat (S (List.length rest)) <? 0) || (Z.of_nat (S (List.length rest)) <=? -1 + Z.of_nat (S (List.length rest))))
    with false by (symmetry; apply orb_false_iff; split; [apply Z.ltb_ge | apply Z.leb_gt]; lia).
  replace (Z.to_nat (-1 + Z.of_nat (S (List.length rest)))) with (List.length rest) by lia.
  assert (Hn : forall d, nth_error (c0 :: rest) (List.length rest) = Some (last (c0 :: rest) d)).
  { revert c0; induction rest as [|c1 t IH]; intros c0 d; [reflexivity|].
    cbn [List.length nth_error]. rewrite (IH c1 d). reflexivity. }
  rewrite (Hn c0). reflexivity.
Qed.

(** X23: for a valid entry of [detect_entry] and a minimum confidence of at most 60, [validate_setup] accepts when there are no M1 candles and otherwise checks the last M1 close against the zone widened by half a percent. *)
Theorem validate_setup_after_detect_entry (config : StrategyConfig) (candles : list Candle)
  (zone : Zone) (dir : SignalDirection) (target : option Q) (zones : list Zone)
  (r : EntryResult) (s : EntrySetup) (d : MultiTimeframeData) :
  min_confidence config <= 60 ->
  detect_entry candles zone dir target zones = Ok r ->
  has_valid_entry r = true -> setup r = Some s ->
  validate_setup config s d =
    match m1 d with
    | [] => Ok true
    | c0 :: rest =>
        let c := last (c0 :: rest) c0 in
        Ok (qle (bottom_price zone * (995#1000)) (close c)
            && qle (close c) (top_price zone * (1005#1000)))
    end.
Proof.
  intros Hmin H Hv Hs.
  destruct (detect_entry_accepts _ _ _ _ _ _ H Hv) as (lc & s' & _ & Hs' & _ & _ & _ & _ & Hrr & Hc & _).
  rewrite Hs in Hs'. injection Hs' as <-.
  rewrite <- (detect_entry_entry_zone _ _ _ _ _ _ _ H Hs).
  unfold validate_setup.
  replace (qlt (risk_reward_ratio s) (3#2)) with false
    by (symmetry; destruct (qlt _ _) eqn:E; [apply qlt_true in E; lra | reflexivity]).
  replace (confidence s <? min_confidence config) with false by (symmetry; apply Z.ltb_ge; lia).
  destruct (m1 d) as [|c0 rest] eqn:Em; [reflexivity|].
  assert (Hl := index_last c0 rest).
  rewrite Hl. reflexivity.
Qed.

Lemma validate_setup_after_detect_entry_witness :
  let d := mkMultiTimeframeData [] [] [] [] [] [] [] [] [candle_at 9 (11#10) (11#10) (11#10) (11#10)] in
  min_confidence SMC_CONFIG <= 60 /\
  exists r s, detect_entry scenE_candles scenE_zone BUY None [] = Ok r /\
    has_valid_entry r = true /\ setup r = Some s /\
    validate_setup SMC_CONFIG s d =
      match m1 d with
      | [] => Ok true
      | c0 :: rest =>
          let c := last (c0 :: rest) c0 in
          Ok (qle (bottom_price scenE_zone * (995#1000)) (close c)
              && qle (close c) (top_price scenE_zone * (1005#1000)))
      end.
Proof.
  intros d. split; [vm_compute; discriminate|].
  eexists; eexists. split; [vm_compute; reflexivity|]. split; [vm_compute; reflexivity|].
  split; [vm_compute; reflexivity|].
  eapply (validate_setup_after_detect_entry SMC_CONFIG scenE_candles scenE_zone BUY None []);
    [vm_compute; discriminate | vm_compute; reflexivity..].
Defined.

(** X24: a setup with risk-reward at least 1.5, enough confidence and a non-negative zone, whose last M1 close lies in its entry zone, passes [validate_setup]. *)
Theorem validate_setup_in_zone (config : StrategyConfig) (s : EntrySetup) (d : MultiTimeframeData)
  (c0 : Candle) (rest : list Candle) :
  (3#2 <= risk_reward_ratio s)%Q -> min_confidence config <= confidence s ->
  m1 d = c0 :: rest ->
  (0 <= bottom_price (entry_zone s))%Q ->
  price_in_zone (entry_zone s) (close (last (c0 :: rest) c0)) = true ->
  validate_setup config s d = Ok true.
Proof.
  intros Hrr Hc Hm Hb Hin. unfold validate_setup.
  replace (qlt (risk_reward_ratio s) (3#2)) with false
    by (symmetry; destruct (qlt _ _) eqn:E; [apply qlt_true in E; lra | reflexivity]).
  replace (confidence s <? min_confidence config) with false by (symmetry; apply Z.ltb_ge; lia).
  rewrite Hm.
  assert (Hl := index_last c0 rest).
  rewrite Hl. cbn [bind].
  unfold price_in_zone in Hin. apply andb_true_iff in Hin as [H1 H2].
  apply qle_true in H1. apply qle_true in H2.
  f_equal. apply andb_true_iff. split; apply qle_iff; lra.
Qed.

Lemma validate_setup_in_zone_witness :
  let c0 := candle_at 9 (11#10) (11#10) (11#10) (11#10) in
  let d := mkMultiTimeframeData [] [] [] [] [] [] [] [] [c0] in
  exists r s, detect_entry scenE_candles scenE_zone BUY None [] = Ok r /\ setup r = Some s /\
    (3#2 <= risk_reward_ratio s)%Q /\ min_confidence SMC_CONFIG <= confidence s /\
    m1 d = c0 :: [] /\ (0 <= bottom_price (entry_zone s))%Q /\
    price_in_zone (entry_zone s) (close (last (c0 :: []) c0)) = true /\
    validate_setup SMC_CONFIG s d = Ok true.
Proof.
  intros c0 d.
  eexists; eexists. split; [vm_compute; reflexivity|]. split; [vm_compute; reflexivity|].
  split; [apply Qle_bool_iff; vm_compute; reflexivity|].
  split; [apply Z.leb_le; vm_compute; reflexivity|].
  split; [reflexivity|].
  split; [apply Qle_bool_iff; vm_compute; reflexivity|].
  split; [vm_compute; reflexivity|].
  apply (validate_setup_in_zone SMC_CONFIG _ d c0 []);
    [apply Qle_bool_iff; vm_compute; reflexivity | apply Z.leb_le; vm_compute; reflexivity | reflexivity
    | apply Qle_bool_iff; vm_compute; reflexivity | vm_compute; reflexivity].
Defined.

(** What one enabled strategy contributes to each combined list. *)
Lemma run_one_fold (inst : InstrumentData) (l : list RegisteredStrategy)
  (sg : list StrategySignal) (pd : list EntrySetup) (er : list ErrorLine) (tt : Z) :
  fold_left (run_one inst) l (sg, pd, er, tt) =
  (sg ++ flat_map (fun s => match rs_analyze s inst with Ok r => signals r | Err _ => [] end) l,
   pd ++ flat_map (fun s => match rs_analyze s inst with Ok r => pending_setups r | Err _ => [] end) l,
   er ++ flat_map (fun s => match rs_analyze s inst with
                            | Ok r => map StrategyError (errors r)
                            | Err e => [StrategyFailed (rs_name s) e] end) l,
   tt + fold_right Z.add 0 (map (fun s => match rs_analyze s inst with
                                          | Ok r => analysis_time_ms r | Err _ => 0 end) l)).
Proof.
  revert sg pd er tt; induction l as [|s t IH]; intros sg pd er tt; cbn [fold_left flat_map map fold_right].
  - rewrite !app_nil_r. f_equal. lia.
  - destruct (rs_analyze s inst) as [r|e] eqn:E.
    + assert (Hs : run_one inst (sg, pd, er, tt) s =
              (sg ++ signals r, pd ++ pending_setups r, er ++ map StrategyError (errors r),
               tt + analysis_time_ms r)) by (unfold run_one; rewrite E; reflexivity).
      rewrite Hs, IH, !app_assoc. f_equal. lia.
    + assert (Hs : run_one inst (sg, pd, er, tt) s =
              (sg, pd, er ++ [StrategyFailed (rs_name s) e], tt))
        by (unfold run_one; rewrite E; reflexivity).
      rewrite Hs, IH, !app_assoc. cbn [app]. rewrite ?app_nil_r. f_equal; try lia.
Qed.

(** X25: [run_all_strategies] concatenates the signals, pending setups and errors of the enabled strategies in order, records one error per failing strategy, and sums the analysis times of the succeeding ones. *)
Theorem run_all_strategies_spec (reg : StrategyRegistry) (inst : InstrumentData) :
  let en := get_enabled_strategies reg in
  let res_of s := rs_analyze s inst in
  run_all_strategies reg inst =
  mkCombinedResult "combined"
    (flat_map (fun s => match res_of s with Ok r => signals r | Err _ => [] end) en)
    (flat_map (fun s => match res_of s with Ok r => pending_setups r | Err _ => [] end) en)
    (flat_map (fun s => match res_of s with
                        | Ok r => map StrategyError (errors r)
                        | Err e => [StrategyFailed (rs_name s) e] end) en)
    (fold_right Z.add 0 (map (fun s => match res_of s with
                                       | Ok r => analysis_time_ms r | Err _ => 0 end) en)).
Proof.
  cbv zeta. unfold run_all_strategies. rewrite run_one_fold. reflexivity.
Qed.

(** X26: registering a disabled strategy leaves [run_all_strategies] unchanged. *)
Theorem register_disabled_no_effect (reg : StrategyRegistry) (s : RegisteredStrategy)
  (inst : InstrumentData) :
  rs_enabled s = false -> run_all_strategies (register reg s) inst = run_all_strategies reg inst.
Proof.
  intros Hd. unfold run_all_strategies, get_enabled_strategies, register.
  rewrite filter_app. cbn [filter]. rewrite Hd, app_nil_r. reflexivity.
Qed.

Lemma register_disabled_no_effect_witness :
  let s := mkRegisteredStrategy "idle" false (fun _ => Err ValueError) in
  rs_enabled s = false /\
  run_all_strategies (register StrategyRegistry_new s) empty_instrument =
  run_all_strategies StrategyRegistry_new empty_instrument.
Proof.
  intros s. split; [reflexivity | apply register_disabled_no_effect; reflexivity].
Defined.

(** X27: registering an enabled strategy appends its results (or its failure) to those of [run_all_strategies]. *)
Theorem register_enabled_appends (reg : StrategyRegistry) (s : RegisteredStrategy)
  (inst : InstrumentData) :
  rs_enabled s = true ->
  let before := run_all_strategies reg inst in
  run_all_strategies (register reg s) inst =
  match rs_analyze s inst with
  | Ok r => mkCombinedResult "combined" (comb_signals before ++ signals r)
              (comb_pending before ++ pending_setups r)
              (comb_errors before ++ map StrategyError (errors r))
              (comb_time before + analysis_time_ms r)
  | Err e => mkCombinedResult "combined" (comb_signals before) (comb_pending before)
               (comb_errors before ++ [StrategyFailed (rs_name s) e]) (comb_time before)
  end.
Proof.
  intros He. cbv zeta. unfold run_all_strategies, get_enabled_strategies, register.
  rewrite filter_app. cbn [filter]. rewrite He, fold_left_app.
  destruct (fold_left (run_one inst) (filter rs_enabled reg) ([], [], [], 0)) as [[[sg pd] er] tt].
  cbn [fold_left run_one]. destruct (rs_analyze s inst); reflexivity.
Qed.

Lemma register_enabled_appends_witness :
  let s := mkRegisteredStrategy "quiet" true (fun _ => Ok (mkStrategyResult "quiet" [] [] [] 5)) in
  let reg := register StrategyRegistry_new
               (mkRegisteredStrategy "broken" true (fun _ => Err ValueError)) in
  rs_enabled s = true /\
  let before := run_all_strategies reg empty_instrument in
  run_all_strategies (register reg s) empty_instrument =
  match rs_analyze s empty_instrument with
  | Ok r => mkCombinedResult "combined" (comb_signals before ++ signals r)
              (comb_pending before ++ pending_setups r)
              (comb_errors before ++ map StrategyError (errors r))
              (comb_time before + analysis_time_ms r)
  | Err e => mkCombinedResult "combined" (comb_signals before) (comb_pending before)
               (comb_errors before ++ [StrategyFailed (rs_name s) e]) (comb_time before)
  end.
Proof.
  intros s reg. split; [reflexivity | apply register_enabled_appends; reflexivity].
Defined.

(** X28: registering a strategy adds one to the total, one to the enabled count if it is enabled, and appends its name. *)
Theorem get_stats_register (reg : StrategyRegistry) (s : RegisteredStrategy) :
  get_stats (register reg s) =
  mkRegistryStats (S (total_strategies (get_stats reg)))
    (enabled_strategies (get_stats reg) + if rs_enabled s then 1 else 0)
    (strategy_names (get_stats reg) ++ [rs_name s]).
Proof.
  unfold get_stats, register, get_enabled_strategies. cbn [total_strategies enabled_strategies strategy_names].
  rewrite length_app, filter_app, length_app, map_app. cbn. f_equal; [lia|].
  destruct (rs_enabled s); reflexivity.
Qed.
Lemma classify_from_labels (st : ClassifyState) (sps : list SwingPoint) :
  Forall (fun c => swing_type c <> None) (classify_from st sps).
Proof.
  revert st; induction sps as [|sp t IH]; intros st; cbn; [constructor|].
  destruct (classify_step st sp) as [st' sp'] eqn:E. constructor; [|apply IH].
  unfold classify_step in E. destruct (is_high sp).
  - destruct (gt_ext _ _); [|destruct (lt_ext _ _)]; injection E as <- <-; discriminate.
  - destruct (lt_ext _ _); [|destruct (gt_ext _ _)]; injection E as <- <-; discriminate.
Qed.

(** X8: [classify_swing_points] returns one point per input point, keeping price, index, side and timestamp, with a swing type of the same side and a non-negative swing size. *)
Theorem classify_swing_points_shape (sps : list SwingPoint) :
  Forall2 (fun sp c => price c = price sp /\ index c = index sp /\ is_high c = is_high sp /\
             sp_timestamp c = sp_timestamp sp /\ is_high_kind c = is_high sp /\
             swing_type c <> None /\ (0 <= swing_size c)%Q) sps (classify_swing_points sps).
Proof.
  unfold classify_swing_points. destruct sps as [|sp t]; [constructor|].
  pose proof (classify_from_props classify_init (sp :: t)) as H1.
  pose proof (classify_from_labels classify_init (sp :: t)) as H2.
  revert H1 H2. generalize (classify_from classify_init (sp :: t)). generalize (sp :: t).
  intros l l' H1. induction H1 as [|a b l l' Hab _ IH]; intros H2; constructor.
  - inversion H2; subst. tauto.
  - inversion H2; subst. apply IH. assumption.
Qed.

(** X20: for a valid entry of [detect_entry], the risk is positive, the risk-reward ratio is reward over risk, and the reward is at least 1.5 times the risk. *)
Theorem detect_entry_rr_consistent (candles : list Candle) (zone : Zone) (dir : SignalDirection)
  (target : option Q) (zones : list Zone) (r : EntryResult) (s : EntrySetup) :
  detect_entry candles zone dir target zones = Ok r ->
  has_valid_entry r = true -> setup r = Some s ->
  (0 < risk_pips s)%Q /\ risk_reward_ratio s = (reward_pips s / risk_pips s)%Q /\
  ((3#2) * risk_pips s <= reward_pips s)%Q.
Proof.
  intros H Hv Hs.
  destruct (detect_entry_accepts_at_zone _ _ _ _ _ _ H Hv) as (lc & s' & _ & Hs' & _ & Hpos & Hrr).
  destruct (detect_entry_accepts _ _ _ _ _ _ H Hv) as (lc' & s'' & _ & Hs'' & _ & _ & _ & _ & Hge & _).
  rewrite Hs in Hs', Hs''. injection Hs' as <-. injection Hs'' as <-.
  split; [exact Hpos|]. split; [exact Hrr|].
  rewrite Hrr in Hge. apply (Qmult_le_compat_r _ _ (risk_pips s)) in Hge; [|lra].
  assert (Hq : (reward_pips s / risk_pips s * risk_pips s == reward_pips s)%Q)
    by (field; intros E; rewrite E in Hpos; discriminate).
  rewrite Hq in Hge. lra.
Qed.

Lemma detect_entry_rr_consistent_witness :
  exists r s, detect_entry scenE_candles scenE_zone BUY None [] = Ok r /\
    has_valid_entry r = true /\ setup r = Some s /\
    (0 < risk_pips s)%Q /\ risk_reward_ratio s = (reward_pips s / risk_pips s)%Q /\
    ((3#2) * risk_pips s <= reward_pips s)%Q.
Proof.
  eexists; eexists. split; [vm_compute; reflexivity|]. split; [vm_compute; reflexivity|].
  split; [vm_compute; reflexivity|].
  eapply (detect_entry_rr_consistent scenE_candles scenE_zone BUY None []);
    vm_compute; reflexivity.
Defined.

Lemma min_of_filter (p : Zone -> bool) (f : Zone -> Q) (zs : list Zone) (f0 : Zone) (fr : list Zone) :
  filter p zs = f0 :: fr ->
  (exists z, In z zs /\ p z = true /\ f z = Py.min_list (f f0) (map f fr)) /\
  (forall z, In z zs -> p z = true -> (Py.min_list (f f0) (map f fr) <= f z)%Q).
Proof.
  intros Ef. split.
  - pose proof (min_list_in (f f0) (map f fr)) as Hin.
    change (f f0 :: map f fr) with (map f (f0 :: fr)) in Hin.
    apply in_map_iff in Hin as (z & Hz & Hin). rewrite <- Ef in Hin.
    apply filter_In in Hin as [Hin Hp]. eauto.
  - intros z Hz Hp. apply min_list_le.
    change (f f0 :: map f fr) with (map f (f0 :: fr)). rewrite <- Ef.
    apply in_map, filter_In. auto.
Qed.

Lemma max_of_filter (p : Zone -> bool) (f : Zone -> Q) (zs : list Zone) (f0 : Zone) (fr : list Zone) :
  filter p zs = f0 :: fr ->
  (exists z, In z zs /\ p z = true /\ f z = Py.max_list (f f0) (map f fr)) /\
  (forall z, In z zs -> p z = true -> (f z <= Py.max_list (f f0) (map f fr))%Q).
Proof.
  intros Ef. split.
  - pose proof (max_list_in (f f0) (map f fr)) as Hin.
    change (f f0 :: map f fr) with (map f (f0 :: fr)) in Hin.
    apply in_map_iff in Hin as (z & Hz & Hin). rewrite <- Ef in Hin.
    apply filter_In in Hin as [Hin Hp]. eauto.
  - intros z Hz Hp. apply max_list_ge.
    change (f f0 :: map f fr) with (map f (f0 :: fr)). rewrite <- Ef.
    apply in_map, filter_In. auto.
Qed.

Lemma filter_nil_false {A} (p : A -> bool) (l : list A) :
  filter p l = [] -> forall x, In x l -> p x = false.
Proof.
  intros E x Hx. destruct (p x) eqn:Hp; [|reflexivity].
  assert (In x (filter p l)) by (apply filter_In; auto). rewrite E in H. destruct H.
Qed.

(** X21: the target [analyze] picks for a buy is the lowest bottom of an unmitigated supply zone above the current price (none if there is none), and for a sell the highest top of an unmitigated demand zone below it. *)
Theorem nearest_target_for_spec (dir : SignalDirection) (zr : ZoneResult) (cp : Q) :
  match dir, nearest_target_for dir zr cp with
  | BUY, Some t =>
      (cp < t)%Q /\ (exists z, In z (unmitigated_supply zr) /\ bottom_price z = t) /\
      (forall z, In z (unmitigated_supply zr) -> (cp < bottom_price z)%Q -> (t <= bottom_price z)%Q)
  | BUY, None => forall z, In z (unmitigated_supply zr) -> (bottom_price z <= cp)%Q
  | SELL, Some t =>
      (t < cp)%Q /\ (exists z, In z (unmitigated_demand zr) /\ top_price z = t) /\
      (forall z, In z (unmitigated_demand zr) -> (top_price z < cp)%Q -> (top_price z <= t)%Q)
  | SELL, None => forall z, In z (unmitigated_demand zr) -> (cp <= top_price z)%Q
  end.
Proof.
  destruct dir; cbn [nearest_target_for].
  - destruct (unmitigated_supply zr) as [|z0 l] eqn:Eu; [intros z []|].
    rewrite <- Eu.
    destruct (filter (fun z => qlt cp (bottom_price z)) (unmitigated_supply zr)) as [|f0 fr] eqn:Ef.
    + intros z Hz. apply qlt_false. exact (filter_nil_false _ _ Ef z Hz).
    + destruct (min_of_filter _ bottom_price _ _ _ Ef) as ((z & Hz & Hp & Hb) & Hmin).
      apply qlt_true in Hp. rewrite <- Hb. split; [exact Hp|]. split; [eauto|].
      intros w Hw Hlt. rewrite Hb. apply Hmin; [exact Hw | apply qlt_iff, Hlt].
  - destruct (unmitigated_demand zr) as [|z0 l] eqn:Eu; [intros z []|].
    rewrite <- Eu.
    destruct (filter (fun z => qlt (top_price z) cp) (unmitigated_demand zr)) as [|f0 fr] eqn:Ef.
    + intros z Hz. apply qlt_false. exact (filter_nil_false _ _ Ef z Hz).
    + destruct (max_of_filter _ top_price _ _ _ Ef) as ((z & Hz & Hp & Hb) & Hmax).
      apply qlt_true in Hp. rewrite <- Hb. split; [exact Hp|]. split; [eauto|].
      intros w Hw Hlt. rewrite Hb. apply Hmax; [exact Hw | apply qlt_iff, Hlt].
Qed.

(** X1: the upper wick, the body and the lower wick of a candle add up to its total range. *)
Theorem candle_wicks_sum (c : Candle) :
  (upper_wick c + body_size c + lower_wick c == total_range c)%Q.
Proof.
  unfold upper_wick, lower_wick, body_size, total_range, Py.max, Py.min.
  destruct (qlt (open c) (close c)) eqn:E1; [apply qlt_true in E1 | apply qlt_false in E1];
  destruct (qlt (close c) (open c)) eqn:E2; [apply qlt_true in E2 | apply qlt_false in E2 | apply qlt_true in E2 | apply qlt_false in E2];
  try lra;
  [rewrite Qabs_pos by lra | rewrite Qabs_neg by lra | rewrite Qabs_pos by lra]; lra.
Qed.
